(** * Snapshot infrastructure of kots: engine detection, image rewriting,
      NFS-backed storage and snapshot scheduling

    A shallow embedding of
    - [pkg/snapshot] (velero.go): [DetectVeleroNamespace], [DetectVelero],
      [rewriteVeleroImages], [ConfigureVeleroImages],
      [resticConfigMapResource], and [ConfigureVeleroDeployment] of the
      version the command calls;
    - [kotsadm/pkg/handlers] (snapshot handlers): [ConfigureNFSSnapshots],
      [GetSnapshotConfig], [SaveSnapshotConfig] and their instance variants,
      [GetVeleroStatus], [UpdateGlobalSnapshotSettings],
      [GetGlobalSnapshotSettings];
    - [cmd/kots/cli] (backup-configure-nfs.go): [BackupConfigureNFSCmd] in
      its two versions, [promptForNFSReset].

    Go strings are [string] (byte strings), [time.Time] is a number of
    seconds in [Z], Go maps are [gmap], slices are lists.  A function that
    returns [(T, error)] returns a [result]; a function that may index a
    slice out of range has an explicit panic outcome. *)

From Stdlib Require Import ZArith Lia Bool Ascii String DecimalString.
From stdpp Require Import base option list gmap strings.

Open Scope string_scope.
Open Scope Z_scope.

(* ===================================================================== *)
(** ** Errors: github.com/pkg/errors and the API machinery status errors *)
(* ===================================================================== *)

Module GoErr.

(** The [metav1.StatusReason] of an API error; only [NotFound] is
    inspected by the code. *)
Inductive StatusReason := StatusReasonNotFound | StatusReasonOther.

(** Go [error] values that occur in the embedded code.  [ErrWrap] is
    [errors.Wrap msg cause]; [ErrResetNFS] is a [*snapshot.ResetNFSError]. *)
Inductive error :=
| ErrNew (msg : string)
| ErrStatus (reason : StatusReason) (msg : string)
| ErrResetNFS (msg : string)
| ErrWrap (cause : error) (msg : string).

(** [errors.Cause]: unwraps until an error that is not a wrapper. *)
Fixpoint Cause (e : error) : error :=
  match e with
  | ErrWrap c _ => Cause c
  | _ => e
  end.

(** [err.Error()]. *)
Fixpoint Error (e : error) : string :=
  match e with
  | ErrNew m => m
  | ErrStatus _ m => m
  | ErrResetNFS m => m
  | ErrWrap c m => m +:+ ": " +:+ Error c
  end.

(** [kuberneteserrors.IsNotFound (err)], [err] possibly [nil]. *)
Definition IsNotFound (e : option error) : bool :=
  match e with
  | Some (ErrStatus StatusReasonNotFound _) => true
  | _ => false
  end.

(** The type assertion [errors.Cause(err).( *ResetNFSError)]. *)
Definition isResetNFSError (e : error) : bool :=
  match Cause e with
  | ErrResetNFS _ => true
  | _ => false
  end.

(** A Go [(T, error)] pair with the convention that the value is only
    used when the error is [nil]. *)
Inductive result (A : Type) :=
| Ok (a : A)
| Err (e : error).
Arguments Ok {A} a.
Arguments Err {A} e.

End GoErr.
Export GoErr.

(* ===================================================================== *)
(** ** Regular expressions: the fragment of Go's [regexp] that
       [dockerImageNameRegex] uses *)
(* ===================================================================== *)

Module Regexp.

(** Syntax.  [Plus] is the greedy [+] applied to a character class, [Opt]
    the greedy [?], [Cap i] the [i]-th capturing group; a non-capturing
    group [(?:r)] is [r] itself. *)
Inductive regex :=
| Class (p : ascii -> bool)
| Plus (p : ascii -> bool)
| Cat (r1 r2 : regex)
| Opt (r : regex)
| Cap (i : nat) (r : regex).

(** Submatches found so far: group index to captured text. *)
Definition captures := gmap nat string.

Fixpoint slen (s : string) : nat :=
  match s with
  | EmptyString => O
  | String _ s' => S (slen s')
  end.

(** The first [n] bytes of [s]. *)
Fixpoint stake (n : nat) (s : string) : string :=
  match n, s with
  | S n', String a s' => String a (stake n' s')
  | _, _ => EmptyString
  end.

(** The text consumed in going from input [s] to its suffix [s']. *)
Definition consumed (s s' : string) : string :=
  stake (slen s - slen s') s.

(** Greedy [p+] in continuation-passing style: the longest run first,
    then shorter ones. *)
Fixpoint plus_class {R : Type} (p : ascii -> bool) (s : string)
    (k : string -> option R) : option R :=
  match s with
  | EmptyString => None
  | String a s' =>
      if p a then
        match plus_class p s' k with
        | Some r => Some r
        | None => k s'
        end
      else None
  end.

(** Backtracking match of [r] at the head of [s]; [k] is the rest of the
    match.  Alternatives are tried in the order of a backtracking engine,
    which is the match Go's leftmost-first semantics selects. *)
Fixpoint match_here {R : Type} (r : regex) (s : string) (c : captures)
    (k : string -> captures -> option R) : option R :=
  match r with
  | Class p =>
      match s with
      | String a s' => if p a then k s' c else None
      | EmptyString => None
      end
  | Plus p => plus_class p s (fun s' => k s' c)
  | Cat r1 r2 => match_here r1 s c (fun s' c' => match_here r2 s' c' k)
  | Opt r1 =>
      match match_here r1 s c k with
      | Some x => Some x
      | None => k s c
      end
  | Cap i r1 =>
      match_here r1 s c (fun s' c' => k s' (<[i := consumed s s']> c'))
  end.

(** The submatch slice: the whole match, then groups [1..n]; a group that
    did not take part in the match is the empty string. *)
Definition submatches (n : nat) (whole : string) (c : captures) : list string :=
  whole :: map (fun i => default "" (c !! i)) (seq 1 n).

Definition match_at (n : nat) (r : regex) (s : string) : option (list string) :=
  match_here r s ∅ (fun s' c => Some (submatches n (consumed s s') c)).

(** Leftmost match: start positions are tried from left to right,
    including the position after the last byte. *)
Fixpoint find_from (n : nat) (r : regex) (s : string) : option (list string) :=
  match match_at n r s with
  | Some m => Some m
  | None =>
      match s with
      | EmptyString => None
      | String _ s' => find_from n r s'
      end
  end.

(** [re.FindStringSubmatch(s)]: [nil] (the empty slice) without a match. *)
Definition FindStringSubmatch (n : nat) (r : regex) (s : string) : list string :=
  default [] (find_from n r s).

End Regexp.

(* ===================================================================== *)
(** ** The cluster: the part of the Kubernetes API the code talks to *)
(* ===================================================================== *)

Module K8s.

(** [metav1.NamespaceDefault]. *)
Definition NamespaceDefault : string := "default".

Record ObjectMeta := {
  Name : string;
  Namespace : string;
  Labels : gmap string string;
}.

Record LocalObjectReference := { RefName : string }.

(** [corev1.Container]; [Args] stands for the fields the code never
    mentions. *)
Record Container := {
  ContainerName : string;
  Image : string;
  Args : list string;
}.

(** [corev1.PodSpec]; [ServiceAccountName] and [NodeSelector] stand for
    the fields the code never mentions. *)
Record PodSpec := {
  ImagePullSecrets : list LocalObjectReference;
  InitContainers : list Container;
  Containers : list Container;
  ServiceAccountName : string;
  NodeSelector : gmap string string;
}.

Record PodTemplateSpec := {
  TemplateMeta : ObjectMeta;
  TemplateSpec : PodSpec;
}.

Record DeploymentSpec := {
  Replicas : Z;
  DeploymentSelector : gmap string string;
  DeploymentTemplate : PodTemplateSpec;
}.

Record DeploymentStatus := { AvailableReplicas : Z }.

Record Deployment := {
  DeploymentMeta : ObjectMeta;
  DeploymentSpec_ : DeploymentSpec;
  DeploymentStatus_ : DeploymentStatus;
}.

Record DaemonSetSpec := {
  DaemonSetSelector : gmap string string;
  DaemonSetTemplate : PodTemplateSpec;
}.

Record DaemonSetStatus := {
  NumberAvailable : Z;
  NumberUnavailable : Z;
}.

Record DaemonSet := {
  DaemonSetMeta : ObjectMeta;
  DaemonSetSpec_ : DaemonSetSpec;
  DaemonSetStatus_ : DaemonSetStatus;
}.

Record TypeMeta := { APIVersion : string; Kind : string }.

(** [corev1.ConfigMap]; a [nil] [Data] map is [None]. *)
Record ConfigMap := {
  ConfigMapType : TypeMeta;
  ConfigMapMeta : ObjectMeta;
  Data : option (gmap string string);
}.

(** [velerov1api.BackupStorageLocation], by its metadata. *)
Record BackupStorageLocation := { BSLMeta : ObjectMeta }.

(** The requests the code sends; the cluster may fail any of them. *)
Inductive ApiCall :=
| CallGetConfig
| CallClientset
| CallNewClientset
| CallNewVeleroClient
| CallListBackupStorageLocations
| CallListDeployments (ns selector : string)
| CallListDaemonSets (ns selector : string)
| CallGetDeployment (ns name : string)
| CallUpdateDeployment (ns name : string)
| CallGetDaemonSet (ns name : string)
| CallUpdateDaemonSet (ns name : string)
| CallGetConfigMap (ns name : string)
| CallCreateConfigMap (ns name : string)
| CallUpdateConfigMap (ns name : string)
| CallDeleteConfigMap (ns name : string).

(** Registry pull secrets, by namespace and name. *)
Definition Secrets := gmap (string * string) (gmap string string).

(** [types.NFSConfig]: the network share behind the self-hosted backend. *)
Record NFSConfig := { Path : string; Server : string }.

(** Modelled from the spec: the deployed self-hosted backend, whose
    resources are created by code outside the sources.  It records the
    [NFSConfig] it was provisioned against and which generation of
    credentials is in force. *)
Record NFSBackend := {
  RecordedConfig : NFSConfig;
  CredentialsGeneration : nat;
}.

(** The cluster state.  [rejects] says which requests fail before the
    API server looks at its objects, and with what message (a connection
    or server failure, never a not-found status).  Workloads are kept in
    listing order.  [backupStorageLocations] is [None] when the cluster
    does not serve that resource type. *)
Record Cluster := {
  rejects : ApiCall -> option string;
  backupStorageLocations : option (list BackupStorageLocation);
  deployments : list Deployment;
  daemonSets : list DaemonSet;
  configMaps : list ConfigMap;
  secrets : Secrets;
  nfsBackend : option NFSBackend;
}.

(** The error of a rejected request, [None] when it goes through. *)
Definition faults (c : Cluster) (k : ApiCall) : option error :=
  match rejects c k with
  | Some msg => Some (ErrNew msg)
  | None => None
  end.

Definition metaIs (ns name : string) (m : ObjectMeta) : bool :=
  String.eqb (Namespace m) ns && String.eqb (Name m) name.

(** A label selector [key=value] restricted to namespace [ns]. *)
Definition selects (ns key value : string) (m : ObjectMeta) : bool :=
  String.eqb (Namespace m) ns &&
  match Labels m !! key with
  | Some v => String.eqb v value
  | None => false
  end.

Definition notFound (kind name : string) : error :=
  ErrStatus StatusReasonNotFound (kind +:+ " '" +:+ name +:+ "' not found").

Definition setDeployments (c : Cluster) (ds : list Deployment) : Cluster :=
  {| rejects := rejects c; backupStorageLocations := backupStorageLocations c;
     deployments := ds; daemonSets := daemonSets c;
     configMaps := configMaps c; secrets := secrets c;
     nfsBackend := nfsBackend c |}.

Definition setDaemonSets (c : Cluster) (ds : list DaemonSet) : Cluster :=
  {| rejects := rejects c; backupStorageLocations := backupStorageLocations c;
     deployments := deployments c; daemonSets := ds;
     configMaps := configMaps c; secrets := secrets c;
     nfsBackend := nfsBackend c |}.

Definition setConfigMaps (c : Cluster) (m : list ConfigMap) : Cluster :=
  {| rejects := rejects c; backupStorageLocations := backupStorageLocations c;
     deployments := deployments c; daemonSets := daemonSets c;
     configMaps := m; secrets := secrets c;
     nfsBackend := nfsBackend c |}.

Definition setSecrets (c : Cluster) (s : Secrets) : Cluster :=
  {| rejects := rejects c; backupStorageLocations := backupStorageLocations c;
     deployments := deployments c; daemonSets := daemonSets c;
     configMaps := configMaps c; secrets := s;
     nfsBackend := nfsBackend c |}.

Definition setNFSBackend (c : Cluster) (b : option NFSBackend) : Cluster :=
  {| rejects := rejects c; backupStorageLocations := backupStorageLocations c;
     deployments := deployments c; daemonSets := daemonSets c;
     configMaps := configMaps c; secrets := secrets c;
     nfsBackend := b |}.

Section Objects.
Context {A : Type} (meta : A -> ObjectMeta).

(** The object named [ns/name] among [l]. *)
Definition lookupObject (ns name : string) (l : list A) : option A :=
  List.find (fun x => metaIs ns name (meta x)) l.

(** [l] with the object named [ns/name] replaced by [d]. *)
Definition replaceObject (ns name : string) (d : A) (l : list A) : list A :=
  map (fun x => if metaIs ns name (meta x) then d else x) l.

(** [l] without the object named [ns/name]. *)
Definition removeObject (ns name : string) (l : list A) : list A :=
  List.filter (fun x => negb (metaIs ns name (meta x))) l.
End Objects.

Definition findDeployment (c : Cluster) (ns name : string) : option Deployment :=
  lookupObject DeploymentMeta ns name (deployments c).

Definition findDaemonSet (c : Cluster) (ns name : string) : option DaemonSet :=
  lookupObject DaemonSetMeta ns name (daemonSets c).

Definition findConfigMap (c : Cluster) (ns name : string) : option ConfigMap :=
  lookupObject ConfigMapMeta ns name (configMaps c).

(** What happens to a call: it returns a value, returns an error, or the
    goroutine panics (an index out of range). *)
Inductive exit (A : Type) :=
| Value (a : A)
| Raise (e : error)
| Panic.
Arguments Value {A} a.
Arguments Raise {A} e.
Arguments Panic {A}.

(** Code that talks to the cluster: the state is threaded, an error or a
    panic ends the computation with the state reached so far. *)
Definition M (A : Type) : Type := Cluster -> Cluster * exit A.

Definition ret {A} (a : A) : M A := fun c => (c, Value a).

Definition bind {A B} (m : M A) (f : A -> M B) : M B :=
  fun c =>
    match m c with
    | (c', Value a) => f a c'
    | (c', Raise e) => (c', Raise e)
    | (c', Panic) => (c', Panic)
    end.

Definition raise {A} (e : error) : M A := fun c => (c, Raise e).
Definition panic {A} : M A := fun c => (c, Panic).

(** [if err != nil { return errors.Wrap(err, msg) }]. *)
Definition wrap {A} (msg : string) (m : M A) : M A :=
  fun c =>
    match m c with
    | (c', Raise e) => (c', Raise (ErrWrap e msg))
    | r => r
    end.

Definition ofResult {A} (r : result A) : M A :=
  match r with
  | Ok a => ret a
  | Err e => raise e
  end.

(** A request that the API server may reject outright. *)
Definition call {A} (k : ApiCall) (m : M A) : M A :=
  fun c =>
    match faults c k with
    | Some e => (c, Raise e)
    | None => m c
    end.

Definition GetDeployment (ns name : string) : M Deployment :=
  call (CallGetDeployment ns name) (fun c =>
    match findDeployment c ns name with
    | Some d => (c, Value d)
    | None => (c, Raise (notFound "deployments.apps" name))
    end).

(** [Deployments(ns).Update]: replaces the stored object of that name. *)
Definition UpdateDeployment (ns : string) (d : Deployment) : M Deployment :=
  call (CallUpdateDeployment ns (Name (DeploymentMeta d))) (fun c =>
    match findDeployment c ns (Name (DeploymentMeta d)) with
    | Some _ =>
        (setDeployments c
           (replaceObject DeploymentMeta ns (Name (DeploymentMeta d)) d (deployments c)),
         Value d)
    | None => (c, Raise (notFound "deployments.apps" (Name (DeploymentMeta d))))
    end).

Definition GetDaemonSet (ns name : string) : M DaemonSet :=
  call (CallGetDaemonSet ns name) (fun c =>
    match findDaemonSet c ns name with
    | Some d => (c, Value d)
    | None => (c, Raise (notFound "daemonsets.apps" name))
    end).

Definition UpdateDaemonSet (ns : string) (d : DaemonSet) : M DaemonSet :=
  call (CallUpdateDaemonSet ns (Name (DaemonSetMeta d))) (fun c =>
    match findDaemonSet c ns (Name (DaemonSetMeta d)) with
    | Some _ =>
        (setDaemonSets c
           (replaceObject DaemonSetMeta ns (Name (DaemonSetMeta d)) d (daemonSets c)),
         Value d)
    | None => (c, Raise (notFound "daemonsets.apps" (Name (DaemonSetMeta d))))
    end).

Definition GetConfigMap (ns name : string) : M ConfigMap :=
  call (CallGetConfigMap ns name) (fun c =>
    match findConfigMap c ns name with
    | Some cm => (c, Value cm)
    | None => (c, Raise (notFound "configmaps" name))
    end).

Definition inNamespace (ns : string) (m : ObjectMeta) : ObjectMeta :=
  {| Name := Name m; Namespace := ns; Labels := Labels m |}.

(** [ConfigMaps(ns).Create]: the object is stored in namespace [ns]. *)
Definition CreateConfigMap (ns : string) (cm : ConfigMap) : M ConfigMap :=
  call (CallCreateConfigMap ns (Name (ConfigMapMeta cm))) (fun c =>
    match findConfigMap c ns (Name (ConfigMapMeta cm)) with
    | Some _ => (c, Raise (ErrStatus StatusReasonOther "already exists"))
    | None =>
        let stored := {| ConfigMapType := ConfigMapType cm;
                         ConfigMapMeta := inNamespace ns (ConfigMapMeta cm);
                         Data := Data cm |} in
        (setConfigMaps c (configMaps c ++ [stored])%list, Value stored)
    end).

(** [ConfigMaps(ns).Update]: replaces the stored object of that name. *)
Definition UpdateConfigMap (ns : string) (cm : ConfigMap) : M ConfigMap :=
  call (CallUpdateConfigMap ns (Name (ConfigMapMeta cm))) (fun c =>
    match findConfigMap c ns (Name (ConfigMapMeta cm)) with
    | Some _ =>
        (setConfigMaps c
           (replaceObject ConfigMapMeta ns (Name (ConfigMapMeta cm)) cm (configMaps c)),
         Value cm)
    | None => (c, Raise (notFound "configmaps" (Name (ConfigMapMeta cm))))
    end).

Definition DeleteConfigMap (ns name : string) : M unit :=
  call (CallDeleteConfigMap ns name) (fun c =>
    match findConfigMap c ns name with
    | Some _ =>
        (setConfigMaps c (removeObject ConfigMapMeta ns name (configMaps c)), Value tt)
    | None => (c, Raise (notFound "configmaps" name))
    end).

(** [Deployments(ns).List] with a label selector [key=value]. *)
Definition ListDeployments (ns key value : string) (c : Cluster) : result (list Deployment) :=
  match faults c (CallListDeployments ns (key +:+ "=" +:+ value)) with
  | Some e => Err e
  | None => Ok (List.filter (fun d => selects ns key value (DeploymentMeta d)) (deployments c))
  end.

Definition ListDaemonSets (ns key value : string) (c : Cluster) : result (list DaemonSet) :=
  match faults c (CallListDaemonSets ns (key +:+ "=" +:+ value)) with
  | Some e => Err e
  | None => Ok (List.filter (fun d => selects ns key value (DaemonSetMeta d)) (daemonSets c))
  end.

(** [BackupStorageLocations("").List]: all namespaces. *)
Definition ListBackupStorageLocations (c : Cluster) : result (list BackupStorageLocation) :=
  match faults c CallListBackupStorageLocations with
  | Some e => Err e
  | None =>
      match backupStorageLocations c with
      | Some items => Ok items
      | None => Err (notFound "backupstoragelocations.velero.io" "")
      end
  end.

End K8s.
Export K8s.

Declare Scope cluster_scope.
Delimit Scope cluster_scope with cluster.
Notation "x <- m ;; k" := (K8s.bind m (fun x => k))
  (at level 100, m at next level, right associativity) : cluster_scope.
Notation "m ;;; k" := (K8s.bind m (fun _ => k))
  (at level 100, right associativity) : cluster_scope.

(* ===================================================================== *)
(** ** pkg/snapshot: velero.go *)
(* ===================================================================== *)

Module Snapshot.
Import Regexp.

Definition isSlash (a : ascii) : bool := Ascii.eqb a "/".
Definition notSlash (a : ascii) : bool := negb (Ascii.eqb a "/").
Definition isAtOrColon (a : ascii) : bool := Ascii.eqb a "@" || Ascii.eqb a ":".
Definition notAtColonSlash (a : ascii) : bool :=
  negb (Ascii.eqb a "@" || Ascii.eqb a ":" || Ascii.eqb a "/").
(** [.] matches every character but a line feed.  On the bytes of a UTF-8
    string these classes agree with Go's classes on its runes: every byte
    of a multi-byte rune is above 127 and so is none of [/ @ : LF]. *)
Definition dot (a : ascii) : bool := negb (Ascii.eqb a "010").

(** [(?:([^\/]+)\/)?(?:([^\/]+)\/)?([^@:\/]+)(?:[@:](.+))] *)
Definition dockerImageNameRegex : regex :=
  Cat (Opt (Cat (Cap 1 (Plus notSlash)) (Class isSlash)))
 (Cat (Opt (Cat (Cap 2 (Plus notSlash)) (Class isSlash)))
 (Cat (Cap 3 (Plus notAtColonSlash))
 (Cat (Class isAtOrColon) (Cap 4 (Plus dot))))).

(** [dockerImageNameRegex.FindStringSubmatch]; the expression has four
    capturing groups. *)
Definition dockerImageNameSubmatch (image : string) : list string :=
  FindStringSubmatch 4 dockerImageNameRegex image.

(** [velerov1api.DefaultNamespace]. *)
Definition veleroNamespace : string := "velero".
Definition veleroDeploymentName : string := "velero".
Definition defaultVeleroImage : string := "velero/velero:v1.5.1".
Definition defaultVeleroAWSPluginImage : string := "velero/velero-plugin-for-aws:v1.1.0".
Definition defaultVeleroResticRestoreHelperImage : string :=
  "velero/velero-restic-restore-helper:v1.5.1".
Definition resticConfigMapName : string := "restic-restore-action-config".
Definition resticDaemonSetName : string := "restic".

Record VeleroStatus := {
  Version : string;
  Plugins : list string;
  Status : string;
  ResticVersion : string;
  ResticStatus : string;
}.

(** Modelled from the spec: [kotsadmtypes.KotsadmOptions] is declared
    outside the sources; the spec's RegistryOptions is a target image
    registry plus optional pull credentials. *)
Record KotsadmOptions := {
  OverrideRegistry : string;
  OverrideNamespace : string;
  Username : string;
  Password : string;
}.

(** The four values [rewriteVeleroImages] returns next to its error. *)
Record VeleroImages := {
  veleroImage : string;
  awsPluginImage : string;
  resticRestoreHelperImage : string;
  imagePullSecrets : list LocalObjectReference;
}.

Definition resticConfigMapResource (image : string) : ConfigMap :=
  {| ConfigMapType := {| APIVersion := "v1"; Kind := "ConfigMap" |};
     ConfigMapMeta :=
       {| Name := resticConfigMapName;
          Namespace := "";
          Labels := <["velero.io/plugin-config" := ""]>
                    (<["velero.io/restic" := "RestoreItemAction"]> ∅) |};
     Data := Some (<["image" := image]> ∅) |}.

(** ** Detection *)

Definition DetectVeleroNamespace (c : Cluster) : result string :=
  match faults c CallGetConfig with
  | Some err => Err (ErrWrap err "failed to get cluster config")
  | None =>
  match faults c CallNewVeleroClient with
  | Some err => Err (ErrWrap err "failed to create velero clientset")
  | None =>
  match ListBackupStorageLocations c with
  | Err err =>
      if IsNotFound (Some err) then Ok ""
      else (* can't detect velero *) Ok ""
  | Ok items =>
      match List.find (fun b => String.eqb (Name (BSLMeta b)) "default") items with
      | Some backupStorageLocation => Ok (Namespace (BSLMeta backupStorageLocation))
      | None => Ok ""
      end
  end end end.

Definition listPossibleVeleroDeployments (c : Cluster) (namespace : string)
  : result (list Deployment) :=
  match ListDeployments namespace "component" "velero" c with
  | Err err => Err (ErrWrap err "failed to list deployments")
  | Ok deployments =>
  match ListDeployments namespace "app.kubernetes.io/name" "velero" c with
  | Err err => Err (ErrWrap err "failed to list helm deployments")
  | Ok helmDeployments => Ok (deployments ++ helmDeployments)%list
  end end.

Definition listPossibleResticDaemonsets (c : Cluster) (namespace : string)
  : result (list DaemonSet) :=
  match ListDaemonSets namespace "component" "velero" c with
  | Err err => Err (ErrWrap err "failed to list daemonsets")
  | Ok daemonsets =>
  match ListDaemonSets namespace "app.kubernetes.io/name" "velero" c with
  | Err err => Err (ErrWrap err "failed to list helm daemonsets")
  | Ok helmDaemonsets => Ok (daemonsets ++ helmDaemonsets)%list
  end end.

Definition podSpecOf (d : Deployment) : PodSpec :=
  TemplateSpec (DeploymentTemplate (DeploymentSpec_ d)).

Definition dsPodSpecOf (d : DaemonSet) : PodSpec :=
  TemplateSpec (DaemonSetTemplate (DaemonSetSpec_ d)).

(** The loop over [possibleDeployments], up to the label [DeploymentFound]. *)
Fixpoint scanDeployments (ds : list Deployment) (st : VeleroStatus) : exit VeleroStatus :=
  match ds with
  | [] => Value st
  | deployment :: rest =>
      let st1 :=
        {| Version := Version st;
           Plugins := (Plugins st ++ map ContainerName (InitContainers (podSpecOf deployment)))%list;
           Status := Status st;
           ResticVersion := ResticVersion st;
           ResticStatus := ResticStatus st |} in
      match Containers (podSpecOf deployment) with
      | [] => Panic
      | c0 :: _ =>
          let matches := dockerImageNameSubmatch (Image c0) in
          if (length matches =? 5)%nat then
            let status :=
              if 0 <? AvailableReplicas (DeploymentStatus_ deployment)
              then "Ready" else "NotReady" in
            Value {| Version := nth 4 matches "";
                     Plugins := Plugins st1;
                     Status := status;
                     ResticVersion := ResticVersion st1;
                     ResticStatus := ResticStatus st1 |}
          else scanDeployments rest st1
      end
  end.

(** The loop over [daemonsets], up to the label [ResticFound]. *)
Fixpoint scanDaemonsets (ds : list DaemonSet) (st : VeleroStatus) : exit VeleroStatus :=
  match ds with
  | [] => Value st
  | daemonset :: rest =>
      match Containers (dsPodSpecOf daemonset) with
      | [] => Panic
      | c0 :: _ =>
          let matches := dockerImageNameSubmatch (Image c0) in
          if (length matches =? 5)%nat then
            let status :=
              if 0 <? NumberAvailable (DaemonSetStatus_ daemonset) then
                if NumberUnavailable (DaemonSetStatus_ daemonset) =? 0
                then "Ready" else "NotReady"
              else "NotReady" in
            Value {| Version := Version st;
                     Plugins := Plugins st;
                     Status := Status st;
                     ResticVersion := nth 4 matches "";
                     ResticStatus := status |}
          else scanDaemonsets rest st
      end
  end.

(** [DetectVelero]: [Value None] is the [nil, nil] return. *)
Definition DetectVelero (c : Cluster) : exit (option VeleroStatus) :=
  match faults c CallGetConfig with
  | Some err => Raise (ErrWrap err "failed to get cluster config")
  | None =>
  match faults c CallNewClientset with
  | Some err => Raise (ErrWrap err "failed to create clientset")
  | None =>
  match DetectVeleroNamespace c with
  | Err err => Raise (ErrWrap err "failed to detect velero namespace")
  | Ok veleroNamespace =>
  if String.eqb veleroNamespace "" then Value None else
  let veleroStatus :=
    {| Version := ""; Plugins := []; Status := "";
       ResticVersion := ""; ResticStatus := "" |} in
  match listPossibleVeleroDeployments c veleroNamespace with
  | Err err => Raise (ErrWrap err "failed to list possible velero deployments")
  | Ok possibleDeployments =>
  match scanDeployments possibleDeployments veleroStatus with
  | Panic => Panic
  | Raise e => Raise e
  | Value veleroStatus =>
  match listPossibleResticDaemonsets c veleroNamespace with
  | Err err => Raise (ErrWrap err "failed to list restic daemonsets")
  | Ok daemonsets =>
  match scanDaemonsets daemonsets veleroStatus with
  | Panic => Panic
  | Raise e => Raise e
  | Value veleroStatus => Value (Some veleroStatus)
  end end end end end end end.

(** ** Image rewriting *)

Section Images.

(** [kotsutil.IsKurl(clientset)]: whether the cluster is an embedded
    (kurl) one; decided from the cluster alone. *)
Variable IsKurl : Cluster -> bool.

(** [kotsadmversion.ImageRewriteKotsadmRegistry(namespace, options)]
    applied to [(image, alwaysRewrite)]: the rewritten reference and the
    pull secrets it needs. *)
Variable ImageRewriteKotsadmRegistry :
  string -> KotsadmOptions -> string -> bool ->
  result (string * list LocalObjectReference).

(** [kotsadm.EnsurePrivateKotsadmRegistrySecret(namespace, options,
    clientset)]: creates or removes the registry pull secret; of the
    cluster it touches the secrets only. *)
Variable EnsurePrivateKotsadmRegistrySecret :
  string -> KotsadmOptions -> Secrets -> result Secrets.

Definition rewriteVeleroImages (c : Cluster) (kotsadmNamespace : string)
    (kotsadmRegistryOptions : KotsadmOptions) : result VeleroImages :=
  if negb (IsKurl c) || negb (String.eqb kotsadmNamespace NamespaceDefault) then
    let imageRewriteFn := ImageRewriteKotsadmRegistry kotsadmNamespace kotsadmRegistryOptions in
    match imageRewriteFn defaultVeleroImage false with
    | Err err => Err (ErrWrap err "failed to rewrite velero image")
    | Ok (veleroImage, imagePullSecrets) =>
    match imageRewriteFn defaultVeleroAWSPluginImage false with
    | Err err => Err (ErrWrap err "failed to rewrite aws plugin image")
    | Ok (awsPluginImage, _) =>
    match imageRewriteFn defaultVeleroResticRestoreHelperImage false with
    | Err err => Err (ErrWrap err "failed to rewrite restic restore helper image")
    | Ok (resticRestoreHelperImage, _) =>
        Ok {| veleroImage := veleroImage;
              awsPluginImage := awsPluginImage;
              resticRestoreHelperImage := resticRestoreHelperImage;
              imagePullSecrets := imagePullSecrets |}
    end end end
  else
    Ok {| veleroImage := defaultVeleroImage;
          awsPluginImage := defaultVeleroAWSPluginImage;
          resticRestoreHelperImage := defaultVeleroResticRestoreHelperImage;
          imagePullSecrets := [] |}.

Definition ensureRegistrySecret (ns : string) (o : KotsadmOptions) : M unit :=
  fun c =>
    match EnsurePrivateKotsadmRegistrySecret ns o (secrets c) with
    | Ok s => (setSecrets c s, Value tt)
    | Err e => (c, Raise e)
    end.

(** [cs[0].Image = image]; panics on an empty slice. *)
Definition setFirstImage (cs : list Container) (image : string) : M (list Container) :=
  match cs with
  | [] => panic
  | c0 :: rest =>
      ret ({| ContainerName := ContainerName c0; Image := image; Args := Args c0 |} :: rest)
  end.

Definition withPodSpec (d : Deployment) (ps : PodSpec) : Deployment :=
  {| DeploymentMeta := DeploymentMeta d;
     DeploymentSpec_ :=
       {| Replicas := Replicas (DeploymentSpec_ d);
          DeploymentSelector := DeploymentSelector (DeploymentSpec_ d);
          DeploymentTemplate :=
            {| TemplateMeta := TemplateMeta (DeploymentTemplate (DeploymentSpec_ d));
               TemplateSpec := ps |} |};
     DeploymentStatus_ := DeploymentStatus_ d |}.

Definition dsWithPodSpec (d : DaemonSet) (ps : PodSpec) : DaemonSet :=
  {| DaemonSetMeta := DaemonSetMeta d;
     DaemonSetSpec_ :=
       {| DaemonSetSelector := DaemonSetSelector (DaemonSetSpec_ d);
          DaemonSetTemplate :=
            {| TemplateMeta := TemplateMeta (DaemonSetTemplate (DaemonSetSpec_ d));
               TemplateSpec := ps |} |};
     DaemonSetStatus_ := DaemonSetStatus_ d |}.

Definition setImagePullSecrets (ps : PodSpec) (s : list LocalObjectReference) : PodSpec :=
  {| ImagePullSecrets := s; InitContainers := InitContainers ps;
     Containers := Containers ps; ServiceAccountName := ServiceAccountName ps;
     NodeSelector := NodeSelector ps |}.

Definition setInitContainers (ps : PodSpec) (cs : list Container) : PodSpec :=
  {| ImagePullSecrets := ImagePullSecrets ps; InitContainers := cs;
     Containers := Containers ps; ServiceAccountName := ServiceAccountName ps;
     NodeSelector := NodeSelector ps |}.

Definition setContainers (ps : PodSpec) (cs : list Container) : PodSpec :=
  {| ImagePullSecrets := ImagePullSecrets ps; InitContainers := InitContainers ps;
     Containers := cs; ServiceAccountName := ServiceAccountName ps;
     NodeSelector := NodeSelector ps |}.

Definition setData (cm : ConfigMap) (d : gmap string string) : ConfigMap :=
  {| ConfigMapType := ConfigMapType cm; ConfigMapMeta := ConfigMapMeta cm;
     Data := Some d |}.

(** The restic config map step of [ConfigureVeleroImages]. *)
Definition configureResticConfigMap (resticRestoreHelperImage : string) : M unit :=
  if negb (String.eqb resticRestoreHelperImage defaultVeleroResticRestoreHelperImage) then
    fun c =>
      match GetConfigMap veleroNamespace resticConfigMapName c with
      | (c1, Panic) => (c1, Panic)
      | (c1, Raise err) =>
          if negb (IsNotFound (Some err)) then
            (c1, Raise (ErrWrap err "failed to get restic configmap"))
          else
            wrap "failed to create restic configmap"
              (_ <- CreateConfigMap veleroNamespace
                      (resticConfigMapResource resticRestoreHelperImage) ;; ret tt)%cluster c1
      | (c1, Value resticConfigMap) =>
          let data := match Data resticConfigMap with
                      | None => ∅
                      | Some d => d
                      end in
          wrap "failed to update restic configmap"
            (_ <- UpdateConfigMap veleroNamespace
                    (setData resticConfigMap (<["image" := resticRestoreHelperImage]> data)) ;;
             ret tt)%cluster c1
      end
  else
    fun c =>
      match DeleteConfigMap veleroNamespace resticConfigMapName c with
      | (c1, Raise err) =>
          if negb (IsNotFound (Some err)) then
            (c1, Raise (ErrWrap err "failed to delete restic configmap"))
          else (c1, Value tt)
      | r => r
      end.

(** [ConfigureVeleroImages] rewrites the velero and restic images and
    adds or removes the pull secrets; a no-op on kurl (embedded)
    clusters.  [Value tt] is the [nil] return. *)
Definition ConfigureVeleroImages (kotsadmNamespace : string)
    (kotsadmRegistryOptions : KotsadmOptions) : M unit :=
  fun c =>
  if IsKurl c && String.eqb kotsadmNamespace NamespaceDefault then (c, Value tt) else
  (images <- wrap "failed to rewrite images"
               (ofResult (rewriteVeleroImages c kotsadmNamespace kotsadmRegistryOptions)) ;;
   wrap "failed to ensure private kotsadm registry secret"
     (ensureRegistrySecret veleroNamespace kotsadmRegistryOptions) ;;;
   veleroDeployment <- wrap "failed to get velero deployment"
                         (GetDeployment veleroNamespace veleroDeploymentName) ;;
   let ps0 := setImagePullSecrets (podSpecOf veleroDeployment) (imagePullSecrets images) in
   inits <- setFirstImage (InitContainers ps0) (awsPluginImage images) ;;
   let ps1 := setInitContainers ps0 inits in
   mains <- setFirstImage (Containers ps1) (veleroImage images) ;;
   let ps2 := setContainers ps1 mains in
   wrap "failed to update velero deployment"
     (UpdateDeployment veleroNamespace (withPodSpec veleroDeployment ps2)) ;;;
   configureResticConfigMap (resticRestoreHelperImage images) ;;;
   resticDaemonSet <- wrap "failed to get restic daemonset"
                        (GetDaemonSet veleroNamespace resticDaemonSetName) ;;
   let qs0 := setImagePullSecrets (dsPodSpecOf resticDaemonSet) (imagePullSecrets images) in
   dsMains <- setFirstImage (Containers qs0) (veleroImage images) ;;
   let qs1 := setContainers qs0 dsMains in
   wrap "failed to update restic daemonset"
     (UpdateDaemonSet veleroNamespace (dsWithPodSpec resticDaemonSet qs1)) ;;;
   ret tt)%cluster c.

End Images.

(** [ConfigureStoreOptions], the two fields the NFS callers set. *)
Record ConfigureStoreOptions := { StoreNFS : bool; KotsadmNamespace : string }.

(** ** The self-hosted backend over a network file share *)

(** [NFSDeployOptions], as the callers fill it in. *)
Record NFSDeployOptions := {
  DeployNamespace : string;
  IsOpenShift : bool;
  ForceReset : bool;
  DeployNFSConfig : NFSConfig;
  Wait : bool;
}.

Definition NFSConfig_eqb (a b : NFSConfig) : bool :=
  String.eqb (Path a) (Path b) && String.eqb (Server a) (Server b).

Definition describeNFS (n : NFSConfig) : string := Server n +:+ ":" +:+ Path n.

(** Modelled from the spec: the text of the conflict error, a description
    of the server/path mismatch. *)
Definition resetNFSWarning (recorded desired : NFSConfig) : string :=
  "The self-hosted backend was provisioned against " +:+ describeNFS recorded +:+
  " and not against " +:+ describeNFS desired +:+
  "; continuing will reset it.".

(** Modelled from the spec: [DeployNFSMinio] and [ResetNFSError] are
    declared outside the sources.  The spec's [Reconcile]: without a prior
    deployment the backend is created against the desired share; with a
    prior deployment on the same share nothing happens; with a prior
    deployment on a different share the call fails with the conflict error
    unless [ForceReset] is set, in which case the backend is torn down and
    recreated and the credentials issued before are no longer in force.
    The spec does not say when its internal error occurs; this model has
    none. *)
Definition DeployNFSMinio (deployOptions : NFSDeployOptions)
    (registryOptions : KotsadmOptions) : M unit :=
  fun c =>
    let desired := DeployNFSConfig deployOptions in
    match nfsBackend c with
    | None =>
        (setNFSBackend c (Some {| RecordedConfig := desired; CredentialsGeneration := 0 |}),
         Value tt)
    | Some prior =>
        if NFSConfig_eqb (RecordedConfig prior) desired then (c, Value tt)
        else if ForceReset deployOptions then
          (setNFSBackend c
             (Some {| RecordedConfig := desired;
                      CredentialsGeneration := S (CredentialsGeneration prior) |}),
           Value tt)
        else (c, Raise (ErrResetNFS (resetNFSWarning (RecordedConfig prior) desired)))
    end.

End Snapshot.

(* ===================================================================== *)
(** ** kotsadm/pkg/handlers: the snapshot handlers *)
(* ===================================================================== *)

Module Handlers.
Import Snapshot.

Definition StatusOK : Z := 200.
Definition StatusBadRequest : Z := 400.
Definition StatusConflict : Z := 409.
Definition StatusInternalServerError : Z := 500.

(** What a handler writes: [JSON(w, code, body)], a bare
    [w.WriteHeader(code)], or nothing when the goroutine panicked. *)
Inductive HttpResponse (B : Type) :=
| JSON (code : Z) (body : B)
| WriteHeader (code : Z)
| Aborted.
Arguments JSON {B} code body.
Arguments WriteHeader {B} code.
Arguments Aborted {B}.

Definition statusCode {B} (r : HttpResponse B) : option Z :=
  match r with
  | JSON code _ => Some code
  | WriteHeader code => Some code
  | Aborted => None
  end.

(** *** The workload store *)

(** An application as [GetApp] returns it: the fields the handlers read. *)
Record App := {
  ID : string;
  Slug : string;
  SnapshotTTL : string;
  SnapshotSchedule : string;
}.

(** The row of an application, keyed by its id. *)
Record AppRow := {
  RowSlug : string;
  RowSnapshotTTL : string;
  RowSnapshotSchedule : string;
}.

Record DownstreamCluster := {
  ClusterID : string;
  ClusterSnapshotSchedule : string;
  ClusterSnapshotTTL : string;
}.

(** A pending snapshot request: [{id, ownerID, scheduledAt}]. *)
Record ScheduledSnapshot := {
  SnapshotID : string;
  OwnerID : string;
  ScheduledTimestamp : Z;
}.

Inductive StoreCall :=
| CallGetApp
| CallGetAppFromSlug
| CallSetSnapshotTTL
| CallSetSnapshotSchedule
| CallDeletePendingScheduledSnapshots
| CallCreateScheduledSnapshot
| CallListClusters
| CallSetInstanceSnapshotTTL
| CallSetInstanceSnapshotSchedule
| CallDeletePendingScheduledInstanceSnapshots
| CallCreateScheduledInstanceSnapshot.

(** Modelled from the spec: the store ([store.GetStore()]) is declared
    outside the sources.  The spec's workload store keeps, per workload,
    the snapshot schedule and retention, and a queue of pending snapshot
    requests with the operations [GetWorkload], [SetSnapshotSchedule],
    [SetSnapshotTTL], [CreatePendingSnapshot] and
    [DeletePendingSnapshots(ownerID)].  [storeFaults] says which calls the
    store fails. *)
Record Store := {
  storeFaults : StoreCall -> option error;
  apps : gmap string AppRow;
  clusters : list DownstreamCluster;
  scheduledSnapshots : list ScheduledSnapshot;
  scheduledInstanceSnapshots : list ScheduledSnapshot;
}.

Definition appOfRow (id : string) (r : AppRow) : App :=
  {| ID := id; Slug := RowSlug r; SnapshotTTL := RowSnapshotTTL r;
     SnapshotSchedule := RowSnapshotSchedule r |}.

Definition setApps (st : Store) (m : gmap string AppRow) : Store :=
  {| storeFaults := storeFaults st; apps := m; clusters := clusters st;
     scheduledSnapshots := scheduledSnapshots st;
     scheduledInstanceSnapshots := scheduledInstanceSnapshots st |}.

Definition setClusters (st : Store) (l : list DownstreamCluster) : Store :=
  {| storeFaults := storeFaults st; apps := apps st; clusters := l;
     scheduledSnapshots := scheduledSnapshots st;
     scheduledInstanceSnapshots := scheduledInstanceSnapshots st |}.

Definition setScheduledSnapshots (st : Store) (l : list ScheduledSnapshot) : Store :=
  {| storeFaults := storeFaults st; apps := apps st; clusters := clusters st;
     scheduledSnapshots := l;
     scheduledInstanceSnapshots := scheduledInstanceSnapshots st |}.

Definition setScheduledInstanceSnapshots (st : Store) (l : list ScheduledSnapshot) : Store :=
  {| storeFaults := storeFaults st; apps := apps st; clusters := clusters st;
     scheduledSnapshots := scheduledSnapshots st;
     scheduledInstanceSnapshots := l |}.

(** A store call that changes the state unless the store fails it. *)
Definition storeCall (k : StoreCall) (f : Store -> Store) (st : Store) : result Store :=
  match storeFaults st k with
  | Some e => Err e
  | None => Ok (f st)
  end.

Definition GetApp (st : Store) (id : string) : result App :=
  match storeFaults st CallGetApp with
  | Some e => Err e
  | None =>
      match apps st !! id with
      | Some r => Ok (appOfRow id r)
      | None => Err (ErrNew "app not found")
      end
  end.

Definition GetAppFromSlug (st : Store) (slug : string) : result App :=
  match storeFaults st CallGetAppFromSlug with
  | Some e => Err e
  | None =>
      match List.find (fun kv => String.eqb (RowSlug (snd kv)) slug) (map_to_list (apps st)) with
      | Some (id, r) => Ok (appOfRow id r)
      | None => Err (ErrNew "app not found")
      end
  end.

Definition SetSnapshotTTL (appID ttl : string) : Store -> result Store :=
  storeCall CallSetSnapshotTTL (fun st =>
    setApps st (alter (fun r => {| RowSlug := RowSlug r; RowSnapshotTTL := ttl;
                                   RowSnapshotSchedule := RowSnapshotSchedule r |})
                      appID (apps st))).

Definition SetSnapshotSchedule (appID schedule : string) : Store -> result Store :=
  storeCall CallSetSnapshotSchedule (fun st =>
    setApps st (alter (fun r => {| RowSlug := RowSlug r; RowSnapshotTTL := RowSnapshotTTL r;
                                   RowSnapshotSchedule := schedule |})
                      appID (apps st))).

Definition notOwnedBy (owner : string) (s : ScheduledSnapshot) : bool :=
  negb (String.eqb (OwnerID s) owner).

Definition DeletePendingScheduledSnapshots (appID : string) : Store -> result Store :=
  storeCall CallDeletePendingScheduledSnapshots (fun st =>
    setScheduledSnapshots st (List.filter (notOwnedBy appID) (scheduledSnapshots st))).

Definition CreateScheduledSnapshot (id appID : string) (timestamp : Z) : Store -> result Store :=
  storeCall CallCreateScheduledSnapshot (fun st =>
    setScheduledSnapshots st
      (scheduledSnapshots st ++
       [{| SnapshotID := id; OwnerID := appID; ScheduledTimestamp := timestamp |}])%list).

Definition ListClusters (st : Store) : result (list DownstreamCluster) :=
  match storeFaults st CallListClusters with
  | Some e => Err e
  | None => Ok (clusters st)
  end.

Definition SetInstanceSnapshotTTL (clusterID ttl : string) : Store -> result Store :=
  storeCall CallSetInstanceSnapshotTTL (fun st =>
    setClusters st
      (map (fun c => if String.eqb (ClusterID c) clusterID
                     then {| ClusterID := ClusterID c;
                             ClusterSnapshotSchedule := ClusterSnapshotSchedule c;
                             ClusterSnapshotTTL := ttl |}
                     else c) (clusters st))).

Definition SetInstanceSnapshotSchedule (clusterID schedule : string) : Store -> result Store :=
  storeCall CallSetInstanceSnapshotSchedule (fun st =>
    setClusters st
      (map (fun c => if String.eqb (ClusterID c) clusterID
                     then {| ClusterID := ClusterID c;
                             ClusterSnapshotSchedule := schedule;
                             ClusterSnapshotTTL := ClusterSnapshotTTL c |}
                     else c) (clusters st))).

Definition DeletePendingScheduledInstanceSnapshots (clusterID : string) : Store -> result Store :=
  storeCall CallDeletePendingScheduledInstanceSnapshots (fun st =>
    setScheduledInstanceSnapshots st
      (List.filter (notOwnedBy clusterID) (scheduledInstanceSnapshots st))).

Definition CreateScheduledInstanceSnapshot (id clusterID : string) (timestamp : Z)
  : Store -> result Store :=
  storeCall CallCreateScheduledInstanceSnapshot (fun st =>
    setScheduledInstanceSnapshots st
      (scheduledInstanceSnapshots st ++
       [{| SnapshotID := id; OwnerID := clusterID; ScheduledTimestamp := timestamp |}])%list).

(** The pending requests of one workload. *)
Definition pendingOf (owner : string) (l : list ScheduledSnapshot) : list ScheduledSnapshot :=
  List.filter (fun s => String.eqb (OwnerID s) owner) l.

(** *** Requests and responses *)

(** [snapshottypes.SnapshotTTL]. *)
Record SnapshotTTLView := {
  InputValue : string;
  InputTimeUnit : string;
  Converted : string;
}.

(** [snapshottypes.SnapshotSchedule]. *)
Record SnapshotScheduleView := { Schedule : string }.

Record SnapshotConfig := {
  AutoEnabled : bool;
  AutoSchedule : SnapshotScheduleView;
  TTl : SnapshotTTLView;
}.

(** [InstanceSnapshotConfig] is declared with the same three fields. *)
Definition InstanceSnapshotConfig : Type := SnapshotConfig.

(** What [snapshot.ParseTTL] returns. *)
Record ParsedTTL := { Quantity : Z; Unit : string }.

Record SaveSnapshotConfigRequest := {
  ReqAppID : string;
  ReqInputValue : string;
  ReqInputTimeUnit : string;
  ReqSchedule : string;
  ReqAutoEnabled : bool;
}.

Record SaveInstanceSnapshotConfigRequest := {
  IReqInputValue : string;
  IReqInputTimeUnit : string;
  IReqSchedule : string;
  IReqAutoEnabled : bool;
}.

(** [SaveSnapshotConfigResponse] and [SaveInstanceSnapshotConfigResponse]:
    [{Success, Error}]. *)
Record SaveResponse := { Success : bool; ErrorText : string }.

Definition saved : SaveResponse := {| Success := true; ErrorText := "" |}.
Definition failed (msg : string) : SaveResponse := {| Success := false; ErrorText := msg |}.

Record NFSOptions := {
  OptPath : string;
  OptServer : string;
  OptForceReset : bool;
}.

Record ConfigureNFSSnapshotsRequest := { ReqNFSOptions : NFSOptions }.

Record ConfigureNFSSnapshotsResponse := {
  NFSSuccess : bool;
  NFSError : string;
  IsMinimalRBACEnabled : bool;
}.

(** [strconv.FormatInt(q, 10)]. *)
Definition FormatInt (q : Z) : string := DecimalString.NilZero.string_of_int (Z.to_int q).

Section Handlers.

(** github.com/robfig/cron: [cron.Schedule], the standard parser
    ([cron.ParseStandard], which is
    [NewParser(Minute|Hour|Dom|Month|Dow|Descriptor).Parse]) and
    [Schedule.Next]. *)
Variable CronSchedule : Type.
Variable ParseStandard : string -> result CronSchedule.
Variable Next : CronSchedule -> Z -> Z.

(** [snapshot.FormatTTL] and [snapshot.ParseTTL] of kotsadm/pkg/snapshot. *)
Variable FormatTTL : string -> string -> result string.
Variable ParseTTL : string -> result ParsedTTL.

(** **** Reading the snapshot config *)

Definition ttlView (stored : string) : result SnapshotTTLView :=
  if negb (String.eqb stored "") then
    match ParseTTL stored with
    | Err err => Err err
    | Ok parsedTTL =>
        Ok {| InputValue := FormatInt (Quantity parsedTTL);
              InputTimeUnit := Unit parsedTTL;
              Converted := stored |}
    end
  else
    Ok {| InputValue := "1"; InputTimeUnit := "month"; Converted := "720h" |}.

Definition scheduleView (stored : string) : SnapshotScheduleView :=
  if negb (String.eqb stored "") then {| Schedule := stored |}
  else {| Schedule := "0 0 * * MON" |}.

Definition GetSnapshotConfig (appSlug : string) (st : Store) : HttpResponse SnapshotConfig :=
  match GetAppFromSlug st appSlug with
  | Err _ => WriteHeader StatusInternalServerError
  | Ok foundApp =>
      match ttlView (SnapshotTTL foundApp) with
      | Err _ => WriteHeader StatusInternalServerError
      | Ok ttl =>
          let snapshotSchedule := scheduleView (SnapshotSchedule foundApp) in
          JSON StatusOK
            {| AutoEnabled := negb (String.eqb (SnapshotSchedule foundApp) "");
               AutoSchedule := snapshotSchedule;
               TTl := ttl |}
      end
  end.

Definition GetInstanceSnapshotConfig (st : Store) : HttpResponse InstanceSnapshotConfig :=
  match ListClusters st with
  | Err _ => WriteHeader StatusInternalServerError
  | Ok [] => WriteHeader StatusInternalServerError
  | Ok (c :: _) =>
      match ttlView (ClusterSnapshotTTL c) with
      | Err _ => WriteHeader StatusInternalServerError
      | Ok ttl =>
          let snapshotSchedule := scheduleView (ClusterSnapshotSchedule c) in
          JSON StatusOK
            {| AutoEnabled := negb (String.eqb (ClusterSnapshotSchedule c) "");
               AutoSchedule := snapshotSchedule;
               TTl := ttl |}
      end
  end.

(** **** Saving the snapshot config *)

(** [now] is [time.Now()], [id] is [strings.ToLower(rand.String(32))] and
    [body] the decoded request, [None] when decoding fails. *)
Definition SaveSnapshotConfig (now : Z) (id : string)
    (body : option SaveSnapshotConfigRequest) (st : Store)
  : Store * HttpResponse SaveResponse :=
  match body with
  | None => (st, JSON StatusBadRequest (failed "failed to decode request body"))
  | Some requestBody =>
  match GetApp st (ReqAppID requestBody) with
  | Err _ => (st, JSON StatusInternalServerError (failed "Failed to get app"))
  | Ok app =>
  match FormatTTL (ReqInputValue requestBody) (ReqInputTimeUnit requestBody) with
  | Err _ =>
      (st, JSON StatusBadRequest
             (failed ("Invalid snapshot retention: " +:+ ReqInputValue requestBody +:+
                      " " +:+ ReqInputTimeUnit requestBody)))
  | Ok retention =>
  match (if negb (String.eqb (SnapshotTTL app) retention)
         then SetSnapshotTTL (ID app) retention st else Ok st) with
  | Err _ => (st, JSON StatusInternalServerError (failed "Failed to set snapshot retention"))
  | Ok st1 =>
  if negb (ReqAutoEnabled requestBody) then
    match SetSnapshotSchedule (ID app) "" st1 with
    | Err _ => (st1, JSON StatusInternalServerError (failed "Failed to clear snapshot schedule"))
    | Ok st2 =>
    match DeletePendingScheduledSnapshots (ID app) st2 with
    | Err _ => (st2, JSON StatusInternalServerError (failed "Failed to delete scheduled snapshots"))
    | Ok st3 => (st3, JSON 200 saved)
    end end
  else
  match ParseStandard (ReqSchedule requestBody) with
  | Err _ =>
      (st1, JSON StatusBadRequest
              (failed ("Invalid cron schedule expression: " +:+ ReqSchedule requestBody)))
  | Ok cronSchedule =>
  if negb (String.eqb (ReqSchedule requestBody) (SnapshotSchedule app)) then
    match DeletePendingScheduledSnapshots (ID app) st1 with
    | Err _ => (st1, JSON StatusInternalServerError (failed "Failed to delete scheduled snapshots"))
    | Ok st2 =>
    match SetSnapshotSchedule (ID app) (ReqSchedule requestBody) st2 with
    | Err _ => (st2, JSON StatusInternalServerError (failed "Failed to save snapshot schedule"))
    | Ok st3 =>
    let queued := Next cronSchedule now in
    match CreateScheduledSnapshot id (ID app) queued st3 with
    | Err _ =>
        (st3, JSON StatusInternalServerError (failed "Failed to create first scheduled snapshot"))
    | Ok st4 => (st4, JSON 200 saved)
    end end end
  else (st1, JSON 200 saved)
  end end end end end.

Definition SaveInstanceSnapshotConfig (now : Z) (id : string)
    (body : option SaveInstanceSnapshotConfigRequest) (st : Store)
  : Store * HttpResponse SaveResponse :=
  match body with
  | None => (st, JSON StatusBadRequest (failed "failed to decode request body"))
  | Some requestBody =>
  match ListClusters st with
  | Err _ => (st, JSON StatusInternalServerError (failed "Failed to list clusters"))
  | Ok [] => (st, JSON StatusInternalServerError (failed "No clusters found"))
  | Ok (c :: _) =>
  match FormatTTL (IReqInputValue requestBody) (IReqInputTimeUnit requestBody) with
  | Err _ =>
      (st, JSON StatusBadRequest
             (failed ("Invalid instance snapshot retention: " +:+ IReqInputValue requestBody +:+
                      " " +:+ IReqInputTimeUnit requestBody)))
  | Ok retention =>
  match (if negb (String.eqb (ClusterSnapshotTTL c) retention)
         then SetInstanceSnapshotTTL (ClusterID c) retention st else Ok st) with
  | Err _ =>
      (st, JSON StatusInternalServerError (failed "Failed to set instance snapshot retention"))
  | Ok st1 =>
  if negb (IReqAutoEnabled requestBody) then
    match SetInstanceSnapshotSchedule (ClusterID c) "" st1 with
    | Err _ =>
        (st1, JSON StatusInternalServerError (failed "Failed to clear instance snapshot schedule"))
    | Ok st2 =>
    match DeletePendingScheduledInstanceSnapshots (ClusterID c) st2 with
    | Err _ =>
        (st2, JSON StatusInternalServerError
                (failed "Failed to delete pending scheduled instance snapshots"))
    | Ok st3 => (st3, JSON 200 saved)
    end end
  else
  match ParseStandard (IReqSchedule requestBody) with
  | Err _ =>
      (st1, JSON StatusBadRequest
              (failed ("Invalid cron schedule expression: " +:+ IReqSchedule requestBody)))
  | Ok cronSchedule =>
  if negb (String.eqb (IReqSchedule requestBody) (ClusterSnapshotSchedule c)) then
    match DeletePendingScheduledInstanceSnapshots (ClusterID c) st1 with
    | Err _ => (st1, JSON StatusInternalServerError (failed "Failed to delete scheduled snapshots"))
    | Ok st2 =>
    match SetInstanceSnapshotSchedule (ClusterID c) (IReqSchedule requestBody) st2 with
    | Err _ =>
        (st2, JSON StatusInternalServerError (failed "Failed to save instance snapshot schedule"))
    | Ok st3 =>
    let queued := Next cronSchedule now in
    match CreateScheduledInstanceSnapshot id (ClusterID c) queued st3 with
    | Err _ =>
        (st3, JSON StatusInternalServerError
                (failed "Failed to create first scheduled instance snapshot"))
    | Ok st4 => (st4, JSON StatusOK saved)
    end end end
  else (st1, JSON StatusOK saved)
  end end end end end.

End Handlers.

(** *** Configuring NFS snapshots *)

Section NFSHandlers.

Variable IsKurl : Cluster -> bool.
Variable ImageRewriteKotsadmRegistry :
  string -> KotsadmOptions -> string -> bool ->
  result (string * list LocalObjectReference).
Variable EnsurePrivateKotsadmRegistrySecret :
  string -> KotsadmOptions -> Secrets -> result Secrets.

(** [k8sutil.IsKotsadmClusterScoped] and [k8sutil.IsOpenShift]. *)
Variable IsKotsadmClusterScoped : Cluster -> bool.
Variable IsOpenShift : Cluster -> bool.

(** [kotsadm.GetKotsadmOptionsFromCluster(namespace, clientset)]. *)
Variable GetKotsadmOptionsFromCluster : string -> Cluster -> result KotsadmOptions.

(** [kotssnapshot.InstallVeleroFromStoreNFS(ctx, clientset, namespace,
    registryOptions, wait)], [kotssnapshot.ConfigureStore(options)] and
    [kotssnapshot.WaitForVeleroReady(ctx, clientset, nil)]. *)
Variable InstallVeleroFromStoreNFS : string -> KotsadmOptions -> bool -> M unit.
Variable ConfigureStore : ConfigureStoreOptions -> M unit.
Variable WaitForVeleroReady : M unit.

(** [namespace] is [os.Getenv("POD_NAMESPACE")]. *)
Definition configureNFSMinio (namespace : string) (opts : NFSOptions) : M unit :=
  fun c =>
    match GetKotsadmOptionsFromCluster namespace c with
    | Err err => (c, Raise (ErrWrap err "failed to get kotsadm options from cluster"))
    | Ok registryOptions =>
        let deployOptions :=
          {| DeployNamespace := namespace;
             Snapshot.IsOpenShift := IsOpenShift c;
             ForceReset := OptForceReset opts;
             DeployNFSConfig := {| Path := OptPath opts; Server := OptServer opts |};
             Wait := true |} in
        DeployNFSMinio deployOptions registryOptions c
    end.

Definition nfsResponse (success : bool) (err : string) (rbac : bool)
  : ConfigureNFSSnapshotsResponse :=
  {| NFSSuccess := success; NFSError := err; IsMinimalRBACEnabled := rbac |}.

(** The part of [ConfigureNFSSnapshots] after the NFS backend is in
    place: install velero or configure the installed one. *)
Definition installOrConfigureVelero (namespace : string) (c : Cluster)
  : Cluster * HttpResponse ConfigureNFSSnapshotsResponse :=
  match GetKotsadmOptionsFromCluster namespace c with
  | Err _ => (c, WriteHeader StatusInternalServerError)
  | Ok registryOptions =>
  match DetectVeleroNamespace c with
  | Err _ => (c, WriteHeader StatusInternalServerError)
  | Ok veleroNamespace =>
  if String.eqb veleroNamespace "" then
    (* velero not found, install and configure velero using NFS store *)
    match InstallVeleroFromStoreNFS namespace registryOptions true c with
    | (c1, Raise _) => (c1, WriteHeader StatusInternalServerError)
    | (c1, Panic) => (c1, Aborted)
    | (c1, Value _) => (c1, JSON StatusOK (nfsResponse true "" false))
    end
  else
    (* velero is already installed, only configure velero images and the store *)
    match ConfigureVeleroImages IsKurl ImageRewriteKotsadmRegistry
            EnsurePrivateKotsadmRegistrySecret namespace registryOptions c with
    | (c1, Raise _) => (c1, WriteHeader StatusInternalServerError)
    | (c1, Panic) => (c1, Aborted)
    | (c1, Value _) =>
    match ConfigureStore {| StoreNFS := true; KotsadmNamespace := namespace |} c1 with
    | (c2, Raise _) => (c2, WriteHeader StatusInternalServerError)
    | (c2, Panic) => (c2, Aborted)
    | (c2, Value _) =>
    match WaitForVeleroReady c2 with
    | (c3, Raise _) => (c3, WriteHeader StatusInternalServerError)
    | (c3, Panic) => (c3, Aborted)
    | (c3, Value _) => (c3, JSON StatusOK (nfsResponse true "" false))
    end end end
  end end.

(** [body] is the decoded request, [None] when decoding fails. *)
Definition ConfigureNFSSnapshots (namespace : string)
    (body : option ConfigureNFSSnapshotsRequest) (c : Cluster)
  : Cluster * HttpResponse ConfigureNFSSnapshotsResponse :=
  match body with
  | None => (c, JSON StatusBadRequest (nfsResponse false "failed to decode request body" false))
  | Some request =>
  match faults c CallClientset with
  | Some _ => (c, WriteHeader StatusInternalServerError)
  | None =>
  (* check if minimal rbac is enabled *)
  let isMinimalRBACEnabled := negb (IsKotsadmClusterScoped c) in
  if isMinimalRBACEnabled then (c, JSON StatusOK (nfsResponse false "" true)) else
  (* deploy/configure nfs minio *)
  match configureNFSMinio namespace (ReqNFSOptions request) c with
  | (c1, Raise err) =>
      if isResetNFSError err
      then (c1, JSON StatusConflict (nfsResponse false (Error err) false))
      else (c1, WriteHeader StatusInternalServerError)
  | (c1, Panic) => (c1, Aborted)
  | (c1, Value _) =>
      (* install/configure velero *)
      installOrConfigureVelero namespace c1
  end end end.

End NFSHandlers.

End Handlers.

(* ===================================================================== *)
(** ** cmd/kots/cli: kots backup configure-nfs *)
(* ===================================================================== *)

Module Cli.
Import Snapshot.

Inductive LogEvent :=
| ActionWithSpinner (msg : string)
| ActionWithoutSpinner (msg : string)
| FinishSpinner
| FinishSpinnerWithError
| ColoredInfo (msg : string).

(** One answer to [prompt.Run()]: the text typed, and whether the prompt
    was interrupted ([promptui.ErrInterrupt]). *)
Record PromptAnswer := { Resp : string; Interrupted : bool }.

(** How the command ends: [RunE] returns, the process exits, or it waits
    for an answer that never comes. *)
Inductive CliExit :=
| Returned (err : option error)
| Exited (code : Z)
| Blocked
| Panicked.

Record CliState := {
  cluster : Cluster;
  log : list LogEvent;
  answers : list PromptAnswer;
}.

Definition logged (e : LogEvent) (s : CliState) : CliState :=
  {| cluster := cluster s; log := (log s ++ [e])%list; answers := answers s |}.

Definition withCluster (c : Cluster) (s : CliState) : CliState :=
  {| cluster := c; log := log s; answers := answers s |}.

Definition withAnswers (a : list PromptAnswer) (s : CliState) : CliState :=
  {| cluster := cluster s; log := log s; answers := a |}.

Definition lowerAscii (a : ascii) : ascii :=
  let n := nat_of_ascii a in
  if ((65 <=? n) && (n <=? 90))%nat then ascii_of_nat (n + 32) else a.

(** [strings.ToLower] on ASCII letters; no other rune lowers to [n] or
    [y], the only strings it is compared with. *)
Fixpoint ToLower (s : string) : string :=
  match s with
  | EmptyString => EmptyString
  | String a s' => String (lowerAscii a) (ToLower s')
  end.

(** The [for] loop of [promptForNFSReset] over the answers still to come:
    [Some true] is [return true], [None] is [os.Exit(-1)]. *)
Fixpoint promptLoop (todo : list PromptAnswer) : list PromptAnswer * option (option bool) :=
  match todo with
  | [] => ([], None)
  | a :: rest =>
      if Interrupted a then (rest, Some None)
      else if String.eqb (ToLower (Resp a)) "n" then (rest, Some None)
      else if String.eqb (ToLower (Resp a)) "y" then (rest, Some (Some true))
      else promptLoop rest
  end.

(** [promptForNFSReset(log, warningMsg)]: the warning is shown, then the
    question is asked until it is answered. *)
Definition promptForNFSReset (warningMsg : string) (s : CliState)
  : CliState * (bool + CliExit) :=
  let s1 := logged (ColoredInfo (String "010" warningMsg)) s in
  match promptLoop (answers s1) with
  | (rest, None) => (withAnswers rest s1, inr Blocked)
  | (rest, Some None) => (withAnswers rest s1, inr (Exited (-1)))
  | (rest, Some (Some b)) => (logged (ActionWithoutSpinner "") (withAnswers rest s1), inl b)
  end.

(** The flags of the command, as [viper] returns them. *)
Record Flags := {
  FlagNamespace : string;
  FlagPath : string;
  FlagServer : string;
  FlagWaitForVelero : bool;
}.

Section Command.

(** [validateNamespace], [k8sutil.IsOpenShift] and [getRegistryConfig]. *)
Variable validateNamespace : string -> option error.
Variable IsOpenShift : Cluster -> bool.
Variable getRegistryConfig : Flags -> result KotsadmOptions.

(** [snapshot.BuildNFSStore], [snapshot.InstallVeleroFromNFSStore],
    [snapshot.ConfigureVeleroDeployment], [snapshot.ConfigureStore] and
    [snapshot.WaitForVeleroReady], as this command calls them. *)
Variable NFSStore : Type.
Variable BuildNFSStore : string -> Cluster -> result NFSStore.
Variable InstallVeleroFromNFSStore : NFSStore -> string -> KotsadmOptions -> bool -> M unit.
Variable ConfigureVeleroDeployment : string -> KotsadmOptions -> M unit.
Variable ConfigureStore : ConfigureStoreOptions -> M unit.
Variable WaitForVeleroReady : M unit.

(** Runs a cluster computation of the command. *)
Definition onCluster {A} (m : M A) (s : CliState) : CliState * exit A :=
  let '(c, r) := m (cluster s) in (withCluster c s, r).

(** What [RunE] does once the NFS backend is in place: it detects
    velero and installs or configures it. *)
Definition configureVelero (v : Flags) (registryOptions : KotsadmOptions)
    (s : CliState) : CliState * CliExit :=
  let namespace := FlagNamespace v in
  match DetectVeleroNamespace (cluster s) with
  | Err err => (s, Returned (Some (ErrWrap err "failed to detect velero namespace")))
  | Ok veleroNamespace =>
  if String.eqb veleroNamespace "" then
    (* velero not found, install and configure velero *)
    let s := logged (ActionWithoutSpinner "Installing and configuring Velero") s in
    match BuildNFSStore namespace (cluster s) with
    | Err err => (s, Returned (Some (ErrWrap err "failed to build nfs store")))
    | Ok nfsStore =>
    match onCluster (InstallVeleroFromNFSStore nfsStore namespace registryOptions
                       (FlagWaitForVelero v)) s with
    | (s1, Panic) => (s1, Panicked)
    | (s1, Raise err) => (s1, Returned (Some (ErrWrap err "failed to install velero")))
    | (s1, Value _) =>
        (logged (ActionWithoutSpinner "NFS configured successfully.") s1, Returned None)
    end end
  else
    let s := logged (ActionWithSpinner "Configuring Velero") s in
    match onCluster (ConfigureVeleroDeployment namespace registryOptions) s with
    | (s1, Panic) => (s1, Panicked)
    | (s1, Raise err) =>
        (logged FinishSpinnerWithError s1,
         Returned (Some (ErrWrap err "failed to configure velero deployment")))
    | (s1, Value _) =>
    match onCluster (ConfigureStore {| StoreNFS := true; KotsadmNamespace := namespace |}) s1 with
    | (s2, Panic) => (s2, Panicked)
    | (s2, Raise err) =>
        (logged FinishSpinnerWithError s2,
         Returned (Some (ErrWrap err "failed to configure store")))
    | (s2, Value _) =>
    let s3 := logged FinishSpinner s2 in
    if FlagWaitForVelero v then
      let s4 := logged (ActionWithSpinner "Waiting for Velero to be ready") s3 in
      match onCluster WaitForVeleroReady s4 with
      | (s5, Panic) => (s5, Panicked)
      | (s5, Raise err) =>
          (logged FinishSpinnerWithError s5,
           Returned (Some (ErrWrap err "failed to wait for velero")))
      | (s5, Value _) =>
          (logged (ActionWithoutSpinner "NFS configured successfully.")
             (logged FinishSpinner s5), Returned None)
      end
    else (logged (ActionWithoutSpinner "NFS configured successfully.") s3, Returned None)
    end end
  end.

(** [RunE] of [BackupConfigureNFSCmd]. *)
Definition BackupConfigureNFSCmd (v : Flags) (s : CliState) : CliState * CliExit :=
  let namespace := FlagNamespace v in
  match validateNamespace namespace with
  | Some err => (s, Returned (Some err))
  | None =>
  let nfsPath := FlagPath v in
  if String.eqb nfsPath "" then (s, Returned (Some (ErrNew "path is rquired"))) else
  let nfsServer := FlagServer v in
  if String.eqb nfsServer "" then (s, Returned (Some (ErrNew "server is rquired"))) else
  match faults (cluster s) CallClientset with
  | Some err => (s, Returned (Some (ErrWrap err "failed to get clientset")))
  | None =>
  match getRegistryConfig v with
  | Err err => (s, Returned (Some (ErrWrap err "failed to get registry config")))
  | Ok registryOptions =>
  let s := logged (ActionWithSpinner "Setting up NFS Minio") s in
  let deployOptions (forceReset : bool) :=
    {| DeployNamespace := namespace;
       Snapshot.IsOpenShift := IsOpenShift (cluster s);
       ForceReset := forceReset;
       DeployNFSConfig := {| Path := nfsPath; Server := nfsServer |};
       Wait := true |} in
  let continue (s : CliState) :=
    configureVelero v registryOptions (logged FinishSpinner s) in
  match onCluster (DeployNFSMinio (deployOptions false) registryOptions) s with
  | (s1, Panic) => (s1, Panicked)
  | (s1, Value _) => continue s1
  | (s1, Raise err) =>
      if isResetNFSError err then
        let s2 := logged FinishSpinnerWithError s1 in
        match promptForNFSReset (Error err) s2 with
        | (s3, inr e) => (s3, e)
        | (s3, inl forceReset) =>
            if forceReset then
              let s4 := logged (ActionWithSpinner "Re-configuring NFS Minio") s3 in
              match onCluster (DeployNFSMinio (deployOptions true) registryOptions) s4 with
              | (s5, Panic) => (s5, Panicked)
              | (s5, Raise err) =>
                  (logged FinishSpinnerWithError s5,
                   Returned (Some (ErrWrap err "failed to force deploy nfs minio")))
              | (s5, Value _) => continue s5
              end
            else continue s3
        end
      else
        (logged FinishSpinnerWithError s1,
         Returned (Some (ErrWrap err "failed to deploy nfs minio")))
  end end end end.

End Command.

End Cli.

(* ===================================================================== *)
(** ** Test doubles and sample states *)
(* ===================================================================== *)

Module Fixture.
Import Snapshot Handlers Cli.

(** A cron library double that knows two schedules; times are seconds
    since the epoch, in UTC (1970-01-05 was a Monday). *)
Inductive schedule := EveryMonday | EveryDay.

Definition parseStandard (spec : string) : result schedule :=
  if String.eqb spec "0 0 * * MON" then Ok EveryMonday
  else if String.eqb spec "@daily" then Ok EveryDay
  else Err (ErrNew "Expected exactly 5 fields").

Definition next (s : schedule) (now : Z) : Z :=
  match s with
  | EveryDay => now - now mod 86400 + 86400
  | EveryMonday => now - (now - 345600) mod 604800 + 604800
  end.

(** A retention double that knows one month: [("1", "month")] is the
    duration ["720h"] and back. *)
Definition formatTTL (quantity unit : string) : result string :=
  if String.eqb quantity "1" && String.eqb unit "month" then Ok "720h"
  else Err (ErrNew "unexpected retention").

Definition parseTTL (ttl : string) : result ParsedTTL :=
  if String.eqb ttl "720h" then Ok {| Quantity := 1; Unit := "month" |}
  else Err (ErrNew "failed to parse duration").

(** An embedded cluster carries the config map kube-system/kurl-config. *)
Definition isKurl (c : Cluster) : bool :=
  match findConfigMap c "kube-system" "kurl-config" with
  | Some _ => true
  | None => false
  end.

Definition registrySecretName : string := "kotsadm-private-registry".

Definition imageRewrite (ns : string) (o : KotsadmOptions) (image : string) (always : bool)
  : result (string * list LocalObjectReference) :=
  if String.eqb (OverrideRegistry o) "" then Ok (image, [])
  else Ok (OverrideRegistry o +:+ "/" +:+ image, [{| RefName := registrySecretName |}]).

Definition ensureSecret (ns : string) (o : KotsadmOptions) (s : Secrets) : result Secrets :=
  if String.eqb (Username o) "" then Ok (delete (ns, registrySecretName) s)
  else Ok (<[(ns, registrySecretName) :=
               <["username" := Username o]> (<["password" := Password o]> ∅)]> s).

Definition noRegistry : KotsadmOptions :=
  {| OverrideRegistry := ""; OverrideNamespace := ""; Username := ""; Password := "" |}.

Definition privateRegistry : KotsadmOptions :=
  {| OverrideRegistry := "registry.example.com"; OverrideNamespace := "apps";
     Username := "kots"; Password := "secret" |}.

Definition veleroLabels : gmap string string := <["component" := "velero"]> ∅.

Definition veleroMeta (name : string) : ObjectMeta :=
  {| Name := name; Namespace := "velero"; Labels := veleroLabels |}.

Definition podSpec (inits mains : list Container) : PodSpec :=
  {| ImagePullSecrets := []; InitContainers := inits; Containers := mains;
     ServiceAccountName := "velero"; NodeSelector := ∅ |}.

Definition veleroDeploymentWith (image : string) : Deployment :=
  {| DeploymentMeta := veleroMeta "velero";
     DeploymentSpec_ :=
       {| Replicas := 1; DeploymentSelector := veleroLabels;
          DeploymentTemplate :=
            {| TemplateMeta := veleroMeta "";
               TemplateSpec :=
                 podSpec [{| ContainerName := "velero-plugin-for-aws";
                             Image := defaultVeleroAWSPluginImage; Args := [] |}]
                         [{| ContainerName := "velero"; Image := image;
                             Args := ["server"] |}] |} |};
     DeploymentStatus_ := {| AvailableReplicas := 1 |} |}.

(** A restic daemon set that also has an init container. *)
Definition resticDaemonSet : DaemonSet :=
  {| DaemonSetMeta := veleroMeta "restic";
     DaemonSetSpec_ :=
       {| DaemonSetSelector := veleroLabels;
          DaemonSetTemplate :=
            {| TemplateMeta := veleroMeta "";
               TemplateSpec :=
                 podSpec [{| ContainerName := "wait-for-mount";
                             Image := "busybox:1.33"; Args := [] |}]
                         [{| ContainerName := "restic"; Image := defaultVeleroImage;
                             Args := ["restic"; "server"] |}] |} |};
     DaemonSetStatus_ := {| NumberAvailable := 3; NumberUnavailable := 0 |} |}.

Definition defaultLocation : BackupStorageLocation :=
  {| BSLMeta := {| Name := "default"; Namespace := "velero"; Labels := ∅ |} |}.

(** A cluster with velero installed from the default images. *)
Definition installed : Cluster :=
  {| rejects := fun _ => None;
     backupStorageLocations := Some [defaultLocation];
     deployments := [veleroDeploymentWith defaultVeleroImage];
     daemonSets := [resticDaemonSet];
     configMaps := [];
     secrets := ∅;
     nfsBackend := None |}.

(** The same cluster without any backup storage location. *)
Definition bare : Cluster :=
  {| rejects := fun _ => None;
     backupStorageLocations := Some [];
     deployments := [];
     daemonSets := [];
     configMaps := [];
     secrets := ∅;
     nfsBackend := None |}.

(** The cluster after the images were configured for the private
    registry. *)
Definition configured : Cluster :=
  fst (ConfigureVeleroImages isKurl imageRewrite ensureSecret
         NamespaceDefault privateRegistry installed).

(** Velero running from a registry with a port and an untagged image. *)
Definition untagged : Cluster :=
  setDeployments installed [veleroDeploymentWith "localhost:5000/velero"].

Definition kurlConfig : ConfigMap :=
  {| ConfigMapType := {| APIVersion := "v1"; Kind := "ConfigMap" |};
     ConfigMapMeta := {| Name := "kurl-config"; Namespace := "kube-system"; Labels := ∅ |};
     Data := None |}.

Definition staleResticConfig : ConfigMap :=
  {| ConfigMapType := {| APIVersion := "v1"; Kind := "ConfigMap" |};
     ConfigMapMeta := {| Name := resticConfigMapName; Namespace := "velero"; Labels := ∅ |};
     Data := Some (<["image" := "registry.example.com/velero/velero-restic-restore-helper:v1.5.1"]> ∅) |}.

(** An embedded cluster on which an earlier configuration left the restic
    config map behind. *)
Definition embedded : Cluster :=
  setConfigMaps installed [kurlConfig; staleResticConfig].

Definition shareA : NFSConfig := {| Path := "/export/a"; Server := "10.0.0.1" |}.
Definition shareB : NFSConfig := {| Path := "/export/b"; Server := "10.0.0.2" |}.

(** A cluster whose self-hosted backend was provisioned against [shareA]. *)
Definition onShareA : Cluster :=
  setNFSBackend installed (Some {| RecordedConfig := shareA; CredentialsGeneration := 0 |}).

Definition requestB (force : bool) : ConfigureNFSSnapshotsRequest :=
  {| ReqNFSOptions := {| OptPath := "/export/b"; OptServer := "10.0.0.2";
                         OptForceReset := force |} |}.

Definition flagsB : Flags :=
  {| FlagNamespace := "default"; FlagPath := "/export/b"; FlagServer := "10.0.0.2";
     FlagWaitForVelero := true |}.

Definition terminal (c : Cluster) (typed : list string) : CliState :=
  {| cluster := c; log := [];
     answers := map (fun t => {| Resp := t; Interrupted := false |}) typed |}.

Definition deployA : NFSDeployOptions :=
  {| DeployNamespace := "default"; IsOpenShift := false; ForceReset := false;
     DeployNFSConfig := shareA; Wait := true |}.

(** Collaborators that succeed without doing anything. *)
Definition clusterScoped (c : Cluster) : bool := true.
Definition notOpenShift (c : Cluster) : bool := false.
Definition optionsInCluster (ns : string) (c : Cluster) : result KotsadmOptions := Ok noRegistry.
Definition optionsFromFlags (v : Flags) : result KotsadmOptions := Ok noRegistry.
Definition anyNamespace (ns : string) : option error := None.
Definition installFromStoreNFS (ns : string) (o : KotsadmOptions) (wait : bool) : M unit := ret tt.
Definition configureStore (o : ConfigureStoreOptions) : M unit := ret tt.
Definition waitForVeleroReady : M unit := ret tt.
Definition buildNFSStore (ns : string) (c : Cluster) : result unit := Ok tt.
Definition installFromNFSStore (s : unit) (ns : string) (o : KotsadmOptions) (wait : bool)
  : M unit := ret tt.
Definition configureVeleroDeployment (ns : string) (o : KotsadmOptions) : M unit := ret tt.

(** A store with an application scheduled weekly and kept for a week, an
    application that was never configured, and one cluster. *)
Definition pendingX : ScheduledSnapshot :=
  {| SnapshotID := "x"; OwnerID := "app-1"; ScheduledTimestamp := 950400 |}.
Definition pendingOther : ScheduledSnapshot :=
  {| SnapshotID := "o"; OwnerID := "app-2"; ScheduledTimestamp := 950400 |}.
Definition pendingI : ScheduledSnapshot :=
  {| SnapshotID := "i"; OwnerID := "this-cluster"; ScheduledTimestamp := 950400 |}.

Definition store0 : Store :=
  {| storeFaults := fun _ => None;
     apps := <["app-1" := {| RowSlug := "sentry"; RowSnapshotTTL := "168h";
                             RowSnapshotSchedule := "0 0 * * MON" |}]>
             (<["app-2" := {| RowSlug := "fresh"; RowSnapshotTTL := "";
                              RowSnapshotSchedule := "" |}]> ∅);
     clusters := [{| ClusterID := "this-cluster";
                     ClusterSnapshotSchedule := "0 0 * * MON";
                     ClusterSnapshotTTL := "720h" |}];
     scheduledSnapshots := [pendingX; pendingOther];
     scheduledInstanceSnapshots := [pendingI] |}.

(** A store whose only cluster has never been configured. *)
Definition storeFresh : Store :=
  setClusters store0 [{| ClusterID := "this-cluster"; ClusterSnapshotSchedule := "";
                         ClusterSnapshotTTL := "" |}].

Definition saveRequest (quantity schedule : string) (auto : bool) : SaveSnapshotConfigRequest :=
  {| ReqAppID := "app-1"; ReqInputValue := quantity; ReqInputTimeUnit := "month";
     ReqSchedule := schedule; ReqAutoEnabled := auto |}.

Definition saveInstanceRequest (quantity schedule : string) (auto : bool)
  : SaveInstanceSnapshotConfigRequest :=
  {| IReqInputValue := quantity; IReqInputTimeUnit := "month";
     IReqSchedule := schedule; IReqAutoEnabled := auto |}.

End Fixture.

(* ===================================================================== *)
(** ** Notions the statements use *)
(* ===================================================================== *)

Module Notions.
Import Regexp Snapshot Handlers.

(** [s'] is what is left of [s] after reading some of it. *)
Inductive Rest (s' : string) : string -> Prop :=
| rest_here : Rest s' s'
| rest_later a s : Rest s' s -> Rest s' (String a s).

(** No byte of [s] is an [@] or a [:]. *)
Fixpoint noSeparator (s : string) : bool :=
  match s with
  | EmptyString => true
  | String a s' => negb (isAtOrColon a) && noSeparator s'
  end.

Fixpoint hasSlash (s : string) : bool :=
  match s with
  | EmptyString => false
  | String a s' => isSlash a || hasSlash s'
  end.

(** The last path component of an image reference: in
    [[registry/][namespace/]repository[:tag|@digest]] the repository with
    its tag or digest. *)
Fixpoint lastComponent (s : string) : string :=
  match s with
  | EmptyString => EmptyString
  | String a s' => if hasSlash s then lastComponent s' else s
  end.

(** The reference carries neither a tag nor a digest. *)
Definition noTagOrDigest (image : string) : bool := noSeparator (lastComponent image).

(** [cs] with the image of its first container replaced. *)
Definition withFirstImage (cs : list Container) (image : string) : list Container :=
  match cs with
  | [] => []
  | c0 :: rest =>
      {| ContainerName := ContainerName c0; Image := image; Args := Args c0 |} :: rest
  end.

(** The pod spec [ps] with three fields replaced: the pull secrets, the
    image of the first init container and the image of the first
    container. *)
Definition patchThree (ps : PodSpec) (pullSecrets : list LocalObjectReference)
    (initImage mainImage : string) : PodSpec :=
  {| ImagePullSecrets := pullSecrets;
     InitContainers := withFirstImage (InitContainers ps) initImage;
     Containers := withFirstImage (Containers ps) mainImage;
     ServiceAccountName := ServiceAccountName ps;
     NodeSelector := NodeSelector ps |}.

(** The pod spec [ps] with two fields replaced: the pull secrets and the
    image of the first container. *)
Definition patchTwo (ps : PodSpec) (pullSecrets : list LocalObjectReference)
    (mainImage : string) : PodSpec :=
  {| ImagePullSecrets := pullSecrets;
     InitContainers := InitContainers ps;
     Containers := withFirstImage (Containers ps) mainImage;
     ServiceAccountName := ServiceAccountName ps;
     NodeSelector := NodeSelector ps |}.

(** The image configuration is skipped: an embedded cluster with kotsadm
    in the default namespace. *)
Definition skipped (IsKurl : Cluster -> bool) (c : Cluster) (kotsadmNamespace : string) : bool :=
  IsKurl c && String.eqb kotsadmNamespace NamespaceDefault.

(** The restic config map as [Create] stores it in the engine namespace. *)
Definition storedResticConfigMap (image : string) : ConfigMap :=
  {| ConfigMapType := ConfigMapType (resticConfigMapResource image);
     ConfigMapMeta := inNamespace veleroNamespace (ConfigMapMeta (resticConfigMapResource image));
     Data := Data (resticConfigMapResource image) |}.

(** The config map [cm] with [Data["image"]] set. *)
Definition withImage (cm : ConfigMap) (image : string) : ConfigMap :=
  {| ConfigMapType := ConfigMapType cm; ConfigMapMeta := ConfigMapMeta cm;
     Data := Some (<["image" := image]> (default ∅ (Data cm))) |}.

(** The stored schedules of all applications. *)
Definition appSchedules (st : Store) : gmap string string :=
  RowSnapshotSchedule <$> apps st.

(** The stored schedules of all clusters, in order. *)
Definition clusterSchedules (st : Store) : list (string * string) :=
  map (fun c => (ClusterID c, ClusterSnapshotSchedule c)) (clusters st).

(** No call to the store fails. *)
Definition storeUp (st : Store) : Prop := forall k, storeFaults st k = None.

End Notions.

(* ===================================================================== *)
(** ** pkg/snapshot: velero.go as the command calls it *)
(* ===================================================================== *)

(** The version of velero.go that [kots backup configure-nfs] is built
    against: two images are rewritten and [ConfigureVeleroDeployment]
    patches the velero deployment only. *)
Module VeleroDeployment.

(** The three values this [rewriteVeleroImages] returns next to its
    error. *)
Record VeleroImages := {
  veleroImage : string;
  pluginImage : string;
  imagePullSecrets : list LocalObjectReference;
}.

Section Images.

Variable IsKurl : Cluster -> bool.
Variable ImageRewriteKotsadmRegistry :
  string -> Snapshot.KotsadmOptions -> string -> bool ->
  result (string * list LocalObjectReference).
Variable EnsurePrivateKotsadmRegistrySecret :
  string -> Snapshot.KotsadmOptions -> Secrets -> result Secrets.

Definition rewriteVeleroImages (c : Cluster) (kotsadmNamespace : string)
    (kotsadmRegistryOptions : Snapshot.KotsadmOptions) : result VeleroImages :=
  if negb (IsKurl c) || negb (String.eqb kotsadmNamespace NamespaceDefault) then
    let imageRewriteFn := ImageRewriteKotsadmRegistry kotsadmNamespace kotsadmRegistryOptions in
    match imageRewriteFn Snapshot.defaultVeleroImage false with
    | Err err => Err (ErrWrap err "failed to rewrite velero image")
    | Ok (veleroImage, imagePullSecrets) =>
    match imageRewriteFn Snapshot.defaultVeleroAWSPluginImage false with
    | Err err => Err (ErrWrap err "failed to rewrite plugin image")
    | Ok (pluginImage, _) =>
        Ok {| veleroImage := veleroImage;
              pluginImage := pluginImage;
              imagePullSecrets := imagePullSecrets |}
    end end
  else
    Ok {| veleroImage := Snapshot.defaultVeleroImage;
          pluginImage := Snapshot.defaultVeleroAWSPluginImage;
          imagePullSecrets := [] |}.

(** [ConfigureVeleroDeployment] rewrites the velero images and adds or
    removes the pull secrets; it has no early return for embedded
    clusters. *)
Definition ConfigureVeleroDeployment (kotsadmNamespace : string)
    (kotsadmRegistryOptions : Snapshot.KotsadmOptions) : M unit :=
  fun c =>
  (images <- wrap "failed to rewrite images"
               (ofResult (rewriteVeleroImages c kotsadmNamespace kotsadmRegistryOptions)) ;;
   wrap "failed to ensure private kotsadm registry secret"
     (Snapshot.ensureRegistrySecret EnsurePrivateKotsadmRegistrySecret
        Snapshot.veleroNamespace kotsadmRegistryOptions) ;;;
   d <- wrap "failed to get velero deployment"
          (GetDeployment Snapshot.veleroNamespace Snapshot.veleroDeploymentName) ;;
   let ps0 := Snapshot.setImagePullSecrets (Snapshot.podSpecOf d) (imagePullSecrets images) in
   inits <- Snapshot.setFirstImage (InitContainers ps0) (pluginImage images) ;;
   let ps1 := Snapshot.setInitContainers ps0 inits in
   mains <- Snapshot.setFirstImage (Containers ps1) (veleroImage images) ;;
   let ps2 := Snapshot.setContainers ps1 mains in
   wrap "failed to update velero deployment"
     (UpdateDeployment Snapshot.veleroNamespace (Snapshot.withPodSpec d ps2)) ;;;
   ret tt)%cluster c.

End Images.

End VeleroDeployment.

(* ===================================================================== *)
(** ** cmd/kots/cli: backup-configure-nfs.go, the version that sets up
       the bucket itself *)
(* ===================================================================== *)

(** The version of the command under cmd/kots/cli: after the deploy it
    waits for NFS Minio, creates the default bucket, and installs velero
    from install options it builds itself. *)
Module CliSetup.
Import Snapshot Cli.

(** [types.StoreNFS]: the fields the command reads. *)
Record StoreNFS := {
  AccessKeyID : string;
  SecretAccessKey : string;
  ObjectStoreClusterIP : string;
  Endpoint : string;
}.

(** [snapshot.VeleroInstallOptions], as the command fills it in. *)
Record VeleroInstallOptions := {
  InstallPlugins : list string;
  ProviderName : string;
  BucketName : string;
  SecretData : string;
  BackupStorageConfig : gmap string string;
  VolumeSnapshotConfig : gmap string string;
  InstallWait : bool;
}.

Section Command.

Variable validateNamespace : string -> option error.
Variable IsOpenShift : Cluster -> bool.
Variable getRegistryConfig : Flags -> result KotsadmOptions.

(** [snapshot.WaitForNFSMinioReady(ctx, clientset, namespace,
    time.Minute*5)] and [snapshot.CreateNFSBucket(ctx, clientset,
    namespace)]. *)
Variable WaitForNFSMinioReady : string -> M unit.
Variable CreateNFSBucket : string -> M unit.

(** [snapshot.BuildNFSStore(clientset, namespace)] and the constants
    [snapshot.NFSMinioProvider], [NFSMinioBucketName], [NFSMinioRegion]
    and [NFSMinioServicePort]. *)
Variable BuildNFSStore : string -> Cluster -> result StoreNFS.
Variable NFSMinioProvider : string.
Variable NFSMinioBucketName : string.
Variable NFSMinioRegion : string.
Variable NFSMinioServicePort : Z.

(** [formatCredentials], which writes the two keys as an ini file with
    gopkg.in/ini.v1. *)
Variable formatCredentials : string -> string -> result string.

(** [snapshot.InstallVelero(opts, registryOptions)],
    [snapshot.GetGlobalStore(nil)], whose store is not used, and
    [snapshot.ConfigureStore(options)]. *)
Variable InstallVelero : VeleroInstallOptions -> KotsadmOptions -> M unit.
Variable GetGlobalStore : Cluster -> option error.
Variable ConfigureStore : ConfigureStoreOptions -> M unit.

Definition onCluster {A} (m : M A) (s : CliState) : CliState * exit A :=
  let '(c, r) := m (cluster s) in (withCluster c s, r).

(** What [RunE] does once the NFS backend is deployed. *)
Definition setUpAndConfigure (v : Flags) (registryOptions : KotsadmOptions)
    (s : CliState) : CliState * CliExit :=
  let namespace := FlagNamespace v in
  let s := logged (ActionWithSpinner "Waiting for NFS Minio to be ready") s in
  match onCluster (WaitForNFSMinioReady namespace) s with
  | (s1, Panic) => (s1, Panicked)
  | (s1, Raise err) =>
      (logged FinishSpinnerWithError s1,
       Returned (Some (ErrWrap err "failed to wait for nfs minio")))
  | (s1, Value _) =>
  let s2 := logged (ActionWithSpinner "Creating default bucket") (logged FinishSpinner s1) in
  match onCluster (CreateNFSBucket namespace) s2 with
  | (s3, Panic) => (s3, Panicked)
  | (s3, Raise err) =>
      (logged FinishSpinnerWithError s3,
       Returned (Some (ErrWrap err "failed to create default bucket")))
  | (s3, Value _) =>
  let s4 := logged FinishSpinner s3 in
  match DetectVeleroNamespace (cluster s4) with
  | Err err => (s4, Returned (Some (ErrWrap err "failed to detect velero namespace")))
  | Ok veleroNamespace =>
  if String.eqb veleroNamespace "" then
    (* velero not found, install and configure velero *)
    let s5 := logged (ActionWithoutSpinner "Installing and configuring Velero") s4 in
    match BuildNFSStore namespace (cluster s5) with
    | Err err => (s5, Returned (Some (ErrWrap err "failed to build nfs store")))
    | Ok nfsStore =>
    match formatCredentials (AccessKeyID nfsStore) (SecretAccessKey nfsStore) with
    | Err err => (s5, Returned (Some (ErrWrap err "failed to format credentials")))
    | Ok creds =>
    let publicURL :=
      "http://" +:+ ObjectStoreClusterIP nfsStore +:+ ":" +:+
      Handlers.FormatInt NFSMinioServicePort in
    let opts :=
      {| InstallPlugins := ["velero/velero-plugin-for-aws:v1.1.0"];
         ProviderName := NFSMinioProvider;
         BucketName := NFSMinioBucketName;
         SecretData := creds;
         BackupStorageConfig :=
           <["region" := NFSMinioRegion]>
           (<["s3ForcePathStyle" := "true"]>
            (<["s3Url" := Endpoint nfsStore]>
             (<["publicURL" := publicURL]> ∅)));
         VolumeSnapshotConfig := <["region" := NFSMinioRegion]> ∅;
         InstallWait := true |} in
    match onCluster (InstallVelero opts registryOptions) s5 with
    | (s6, Panic) => (s6, Panicked)
    | (s6, Raise err) => (s6, Returned (Some (ErrWrap err "failed to install velero")))
    | (s6, Value _) =>
        (logged (ActionWithoutSpinner "NFS configured successfully.") s6, Returned None)
    end end end
  else
    let s5 := logged (ActionWithSpinner "Configuring Velero") s4 in
    match GetGlobalStore (cluster s5) with
    | Some err =>
        (logged FinishSpinnerWithError s5,
         Returned (Some (ErrWrap err "failed to get global store")))
    | None =>
    match onCluster (ConfigureStore {| Snapshot.StoreNFS := true; KotsadmNamespace := namespace |}) s5 with
    | (s6, Panic) => (s6, Panicked)
    | (s6, Raise err) =>
        (logged FinishSpinnerWithError s6,
         Returned (Some (ErrWrap err "failed to configure store")))
    | (s6, Value _) =>
        (logged (ActionWithoutSpinner "NFS configured successfully.")
           (logged FinishSpinner s6), Returned None)
    end end
  end end end.

(** [RunE] of this [BackupConfigureNFSCmd]. *)
Definition BackupConfigureNFSCmd (v : Flags) (s : CliState) : CliState * CliExit :=
  let namespace := FlagNamespace v in
  match validateNamespace namespace with
  | Some err => (s, Returned (Some err))
  | None =>
  let nfsPath := FlagPath v in
  if String.eqb nfsPath "" then (s, Returned (Some (ErrNew "path is rquired"))) else
  let nfsServer := FlagServer v in
  if String.eqb nfsServer "" then (s, Returned (Some (ErrNew "server is rquired"))) else
  match faults (cluster s) CallClientset with
  | Some err => (s, Returned (Some (ErrWrap err "failed to get clientset")))
  | None =>
  match getRegistryConfig v with
  | Err err => (s, Returned (Some (ErrWrap err "failed to get registry config")))
  | Ok registryOptions =>
  let s := logged (ActionWithSpinner "Setting up NFS Minio") s in
  let deployOptions (forceReset : bool) :=
    {| DeployNamespace := namespace;
       Snapshot.IsOpenShift := IsOpenShift (cluster s);
       ForceReset := forceReset;
       DeployNFSConfig := {| Path := nfsPath; Server := nfsServer |};
       Wait := false |} in
  let continue (s : CliState) :=
    setUpAndConfigure v registryOptions (logged FinishSpinner s) in
  match onCluster (DeployNFSMinio (deployOptions false) registryOptions) s with
  | (s1, Panic) => (s1, Panicked)
  | (s1, Value _) => continue s1
  | (s1, Raise err) =>
      if isResetNFSError err then
        let s2 := logged FinishSpinnerWithError s1 in
        match promptForNFSReset (Error err) s2 with
        | (s3, inr e) => (s3, e)
        | (s3, inl forceReset) =>
            if forceReset then
              let s4 := logged (ActionWithSpinner "Re-configuring NFS Minio") s3 in
              match onCluster (DeployNFSMinio (deployOptions true) registryOptions) s4 with
              | (s5, Panic) => (s5, Panicked)
              | (s5, Raise err) =>
                  (logged FinishSpinnerWithError s5,
                   Returned (Some (ErrWrap err "failed to force deploy nfs minio")))
              | (s5, Value _) => continue s5
              end
            else continue s3
        end
      else
        (logged FinishSpinnerWithError s1,
         Returned (Some (ErrWrap err "failed to deploy nfs minio")))
  end end end end.

End Command.

End CliSetup.

(* ===================================================================== *)
(** ** kotsadm/pkg/handlers: velero status and global snapshot settings *)
(* ===================================================================== *)

Module Settings.
Import Snapshot Handlers.

(** The handlers' [VeleroStatus]: [{IsVeleroInstalled}]. *)
Record VeleroStatus := { IsVeleroInstalled : bool }.

Definition GetVeleroStatus (c : Cluster) : HttpResponse VeleroStatus :=
  match DetectVelero c with
  | Panic => Aborted
  | Raise _ => JSON 500 {| IsVeleroInstalled := false |}
  | Value None => JSON 200 {| IsVeleroInstalled := false |}
  | Value (Some _) => JSON 200 {| IsVeleroInstalled := true |}
  end.

Section GlobalSettings.

(** [kotssnapshottypes.StoreAWS], [StoreGoogle], [StoreAzure] and
    [StoreOther]: the handler passes them on unread. *)
Variables StoreAWS StoreGoogle StoreAzure StoreOther : Type.

(** [kotssnapshottypes.Store] and whether its [NFS] field is set. *)
Variable SnapshotStore : Type.
Variable storeHasNFS : SnapshotStore -> bool.

(** [ErrorResponse] and [NewErrorResponse] of the handlers package. *)
Variable ErrorResponse : Type.
Variable NewErrorResponse : error -> ErrorResponse.

Record UpdateGlobalSnapshotSettingsRequest := {
  UpdProvider : string;
  UpdBucket : string;
  UpdPath : string;
  UpdAWS : option StoreAWS;
  UpdGoogle : option StoreGoogle;
  UpdAzure : option StoreAzure;
  UpdOther : option StoreOther;
  UpdInternal : bool;
  UpdNFS : option NFSOptions;
}.

(** [kotssnapshot.ConfigureStoreOptions], as this handler fills it in. *)
Record ConfigureStoreOptions := {
  OptProvider : string;
  OptBucket : string;
  OptStorePath : string;
  OptAWS : option StoreAWS;
  OptGoogle : option StoreGoogle;
  OptAzure : option StoreAzure;
  OptOther : option StoreOther;
  OptInternal : bool;
  OptNFS : bool;
  OptKotsadmNamespace : string;
}.

Record GlobalSnapshotSettingsResponse := {
  VeleroVersion : string;
  VeleroPlugins : list string;
  IsVeleroRunning : bool;
  ResticVersion_ : string;
  IsResticRunning : bool;
  SettingsIsKurl : bool;
  SettingsStore : option SnapshotStore;
  SettingsNFSConfig : option NFSConfig;
  SettingsSuccess : bool;
  SettingsError : string;
}.

Variable IsKotsadmOpenShift : Cluster -> bool.
Variable GetKotsadmOptionsFromCluster : string -> Cluster -> result KotsadmOptions.

(** [kurl.IsKurl()] of kotsadm. *)
Variable kurlIsKurl : Cluster -> bool.

(** [kotssnapshot.ConfigureStore(options)], the test
    [errors.Cause(err).( *kotssnapshot.InvalidStoreDataError)] and
    [kotssnapshot.GetCurrentNFSConfig(ctx, namespace)]. *)
Variable ConfigureStore : ConfigureStoreOptions -> M SnapshotStore.
Variable isInvalidStoreDataError : error -> bool.
Variable GetCurrentNFSConfig : string -> Cluster -> result (option NFSConfig).

(** The response before velero is looked at: every field zero. *)
Definition settingsResponse0 : GlobalSnapshotSettingsResponse :=
  {| VeleroVersion := ""; VeleroPlugins := []; IsVeleroRunning := false;
     ResticVersion_ := ""; IsResticRunning := false; SettingsIsKurl := false;
     SettingsStore := None; SettingsNFSConfig := None;
     SettingsSuccess := false; SettingsError := "" |}.

Definition withSettingsError (r : GlobalSnapshotSettingsResponse) (msg : string)
  : GlobalSnapshotSettingsResponse :=
  {| VeleroVersion := VeleroVersion r; VeleroPlugins := VeleroPlugins r;
     IsVeleroRunning := IsVeleroRunning r; ResticVersion_ := ResticVersion_ r;
     IsResticRunning := IsResticRunning r; SettingsIsKurl := SettingsIsKurl r;
     SettingsStore := SettingsStore r; SettingsNFSConfig := SettingsNFSConfig r;
     SettingsSuccess := SettingsSuccess r; SettingsError := msg |}.

(** The response once velero was detected. *)
Definition withVeleroStatus (veleroStatus : Snapshot.VeleroStatus) (c : Cluster)
  : GlobalSnapshotSettingsResponse :=
  {| VeleroVersion := Version veleroStatus;
     VeleroPlugins := Plugins veleroStatus;
     IsVeleroRunning := String.eqb (Status veleroStatus) "Ready";
     ResticVersion_ := ResticVersion veleroStatus;
     IsResticRunning := String.eqb (ResticStatus veleroStatus) "Ready";
     SettingsIsKurl := kurlIsKurl c;
     SettingsStore := None; SettingsNFSConfig := None;
     SettingsSuccess := false; SettingsError := "" |}.

Definition succeeded (r : GlobalSnapshotSettingsResponse) (store : SnapshotStore)
    (nfsConfig : option NFSConfig) : GlobalSnapshotSettingsResponse :=
  {| VeleroVersion := VeleroVersion r; VeleroPlugins := VeleroPlugins r;
     IsVeleroRunning := IsVeleroRunning r; ResticVersion_ := ResticVersion_ r;
     IsResticRunning := IsResticRunning r; SettingsIsKurl := SettingsIsKurl r;
     SettingsStore := Some store; SettingsNFSConfig := nfsConfig;
     SettingsSuccess := true; SettingsError := SettingsError r |}.

(** The part of [UpdateGlobalSnapshotSettings] after the NFS backend, if
    one was asked for, is in place: update/configure store. *)
Definition configureStoreAndAnswer (namespace : string)
    (request : UpdateGlobalSnapshotSettingsRequest)
    (response : GlobalSnapshotSettingsResponse) (c : Cluster)
  : Cluster * HttpResponse (GlobalSnapshotSettingsResponse + ErrorResponse) :=
  let options :=
    {| OptProvider := UpdProvider request;
       OptBucket := UpdBucket request;
       OptStorePath := UpdPath request;
       OptAWS := UpdAWS request;
       OptGoogle := UpdGoogle request;
       OptAzure := UpdAzure request;
       OptOther := UpdOther request;
       OptInternal := UpdInternal request;
       OptNFS := match UpdNFS request with Some _ => true | None => false end;
       OptKotsadmNamespace := namespace |} in
  match ConfigureStore options c with
  | (c1, Panic) => (c1, Aborted)
  | (c1, Raise err) =>
      if isInvalidStoreDataError (Cause err)
      then (c1, JSON StatusBadRequest (inr (NewErrorResponse err)))
      else (c1, WriteHeader StatusInternalServerError)
  | (c1, Value updatedStore) =>
      if storeHasNFS updatedStore then
        match GetCurrentNFSConfig namespace c1 with
        | Err _ => (c1, WriteHeader StatusInternalServerError)
        | Ok nfsConfig => (c1, JSON StatusOK (inl (succeeded response updatedStore nfsConfig)))
        end
      else (c1, JSON StatusOK (inl (succeeded response updatedStore None)))
  end.

(** [namespace] is [os.Getenv("POD_NAMESPACE")], [body] the decoded
    request, [None] when decoding fails. *)
Definition UpdateGlobalSnapshotSettings (namespace : string)
    (body : option UpdateGlobalSnapshotSettingsRequest) (c : Cluster)
  : Cluster * HttpResponse (GlobalSnapshotSettingsResponse + ErrorResponse) :=
  match body with
  | None =>
      (c, JSON StatusBadRequest
            (inl (withSettingsError settingsResponse0 "failed to decode request body")))
  | Some request =>
  match DetectVelero c with
  | Panic => (c, Aborted)
  | Raise _ =>
      (c, JSON StatusInternalServerError
            (inl (withSettingsError settingsResponse0 "failed to detect velero")))
  | Value None => (c, JSON StatusOK (inl settingsResponse0))
  | Value (Some veleroStatus) =>
  let response := withVeleroStatus veleroStatus c in
  match UpdNFS request with
  | Some opts =>
      (* make sure NFS Minio is configured and deployed first *)
      match faults c CallClientset with
      | Some _ => (c, WriteHeader StatusInternalServerError)
      | None =>
      match configureNFSMinio IsKotsadmOpenShift GetKotsadmOptionsFromCluster
              namespace opts c with
      | (c1, Raise err) =>
          if isResetNFSError err
          then (c1, JSON StatusConflict (inl (withSettingsError response (Error err))))
          else (c1, WriteHeader StatusInternalServerError)
      | (c1, Panic) => (c1, Aborted)
      | (c1, Value _) => configureStoreAndAnswer namespace request response c1
      end end
  | None => configureStoreAndAnswer namespace request response c
  end end end.

(** [kotssnapshot.GetGlobalStore(nil)] and [kotssnapshot.Redact(store)],
    which redacts the store it is given in place. *)
Variable GetGlobalStore : Cluster -> result SnapshotStore.
Variable Redact : SnapshotStore -> result SnapshotStore.

Definition GetGlobalSnapshotSettings (namespace : string) (c : Cluster)
  : HttpResponse GlobalSnapshotSettingsResponse :=
  match DetectVelero c with
  | Panic => Aborted
  | Raise _ =>
      JSON StatusInternalServerError
        (withSettingsError settingsResponse0 "failed to detect velero")
  | Value None => JSON StatusOK settingsResponse0
  | Value (Some veleroStatus) =>
  let response := withVeleroStatus veleroStatus c in
  match GetGlobalStore c with
  | Err _ => JSON StatusInternalServerError (withSettingsError response "failed to get store")
  | Ok store =>
  match Redact store with
  | Err _ => JSON StatusInternalServerError (withSettingsError response "failed to redact")
  | Ok store =>
  if storeHasNFS store then
    match GetCurrentNFSConfig namespace c with
    | Err _ =>
        JSON StatusInternalServerError (withSettingsError response "failed to get nfs config")
    | Ok nfsConfig => JSON StatusOK (succeeded response store nfsConfig)
    end
  else JSON StatusOK (succeeded response store None)
  end end end.

End GlobalSettings.

Arguments UpdProvider {StoreAWS StoreGoogle StoreAzure StoreOther} u.
Arguments UpdBucket {StoreAWS StoreGoogle StoreAzure StoreOther} u.
Arguments UpdPath {StoreAWS StoreGoogle StoreAzure StoreOther} u.
Arguments UpdAWS {StoreAWS StoreGoogle StoreAzure StoreOther} u.
Arguments UpdGoogle {StoreAWS StoreGoogle StoreAzure StoreOther} u.
Arguments UpdAzure {StoreAWS StoreGoogle StoreAzure StoreOther} u.
Arguments UpdOther {StoreAWS StoreGoogle StoreAzure StoreOther} u.
Arguments UpdInternal {StoreAWS StoreGoogle StoreAzure StoreOther} u.
Arguments UpdNFS {StoreAWS StoreGoogle StoreAzure StoreOther} u.
Arguments VeleroVersion {SnapshotStore} g.
Arguments VeleroPlugins {SnapshotStore} g.
Arguments IsVeleroRunning {SnapshotStore} g.
Arguments ResticVersion_ {SnapshotStore} g.
Arguments IsResticRunning {SnapshotStore} g.
Arguments SettingsIsKurl {SnapshotStore} g.
Arguments SettingsStore {SnapshotStore} g.
Arguments SettingsNFSConfig {SnapshotStore} g.
Arguments SettingsSuccess {SnapshotStore} g.
Arguments SettingsError {SnapshotStore} g.
Arguments settingsResponse0 {SnapshotStore}.
Arguments withSettingsError {SnapshotStore} r msg.
Arguments withVeleroStatus {SnapshotStore} kurlIsKurl veleroStatus c.
Arguments succeeded {SnapshotStore} r store nfsConfig.

End Settings.

(* ===================================================================== *)
(** ** Further notions the statements use *)
(* ===================================================================== *)

Module Shapes.
Import Regexp Snapshot Handlers Cli.

(** Every byte of [s] is in the class [p]. *)
Fixpoint allOf (p : ascii -> bool) (s : string) : bool :=
  match s with
  | EmptyString => true
  | String a s' => p a && allOf p s'
  end.

(** The tokenizer finds its five entries in [image]. *)
Definition tokenizes (image : string) : bool :=
  (length (dockerImageNameSubmatch image) =? 5)%nat.

(** The names of the init containers of the deployments [ds], in order. *)
Definition initContainerNames (ds : list Deployment) : list string :=
  concat (map (fun d => map ContainerName (InitContainers (podSpecOf d))) ds).

(** [c'] differs from [c] at most in the registry pull secrets, the
    deployment velero/velero, the daemon set velero/restic and the config
    map velero/restic-restore-action-config: the requests it rejects, its
    backup storage locations, its NFS backend and the lists of its other
    deployments, daemon sets and config maps are the same. *)
Definition sameOutsideVelero (c c' : Cluster) : Prop :=
  rejects c' = rejects c /\
  backupStorageLocations c' = backupStorageLocations c /\
  nfsBackend c' = nfsBackend c /\
  removeObject DeploymentMeta veleroNamespace veleroDeploymentName (deployments c')
  = removeObject DeploymentMeta veleroNamespace veleroDeploymentName (deployments c) /\
  removeObject DaemonSetMeta veleroNamespace resticDaemonSetName (daemonSets c')
  = removeObject DaemonSetMeta veleroNamespace resticDaemonSetName (daemonSets c) /\
  removeObject ConfigMapMeta veleroNamespace resticConfigMapName (configMaps c')
  = removeObject ConfigMapMeta veleroNamespace resticConfigMapName (configMaps c).

(** The clusters of [l] other than those with identifier [a]. *)
Definition otherClusters (a : string) (l : list DownstreamCluster) : list DownstreamCluster :=
  List.filter (fun x => negb (String.eqb (ClusterID x) a)) l.

(** Whether a spinner started by [ActionWithSpinner] is still running
    after the events [l]. *)
Definition spinnerStep (running : bool) (e : LogEvent) : bool :=
  match e with
  | ActionWithSpinner _ => true
  | FinishSpinner | FinishSpinnerWithError => false
  | ActionWithoutSpinner _ | ColoredInfo _ => running
  end.

Definition spinnerRunning (l : list LogEvent) : bool := fold_left spinnerStep l false.

(** The answer settles the question of [promptForNFSReset]: the prompt
    was interrupted, or the text is one of y, Y, n and N. *)
Definition settles (a : PromptAnswer) : bool :=
  Interrupted a ||
  String.eqb (Resp a) "y" || String.eqb (Resp a) "Y" ||
  String.eqb (Resp a) "n" || String.eqb (Resp a) "N".

(** The answer is a yes: not interrupted, and y or Y. *)
Definition confirms (a : PromptAnswer) : bool :=
  negb (Interrupted a) && (String.eqb (Resp a) "y" || String.eqb (Resp a) "Y").

End Shapes.

(* ===================================================================== *)
(** ** Further sample states *)
(* ===================================================================== *)

Module Samples.
Import Snapshot Handlers Cli Fixture.

(** Velero installed without restic: no daemon set. *)
Definition withoutRestic : Cluster := setDaemonSets installed [].

(** Velero installed without a plugin: the deployment has no init
    container. *)
Definition withoutPlugin : Cluster :=
  setDeployments installed
    [withPodSpec (veleroDeploymentWith defaultVeleroImage)
       (podSpec [] [{| ContainerName := "velero"; Image := defaultVeleroImage;
                       Args := ["server"] |}])].

(** An embedded cluster whose velero runs an image from a registry of
    its own, pulled with a secret. *)
Definition embeddedCustom : Cluster :=
  setDeployments embedded
    [withPodSpec (veleroDeploymentWith "registry.example.com/velero/velero:v1.5.1")
       (setImagePullSecrets
          (podSpecOf (veleroDeploymentWith "registry.example.com/velero/velero:v1.5.1"))
          [{| RefName := registrySecretName |}])].

(** Doubles for the settings handler: a store that is just the flag
    "backed by NFS", configured without touching the cluster. *)
Definition configureGlobalStore
    (o : Settings.ConfigureStoreOptions unit unit unit unit) : M bool :=
  ret (Settings.OptNFS unit unit unit unit o).
Definition nfsOf (store : bool) : bool := store.
Definition neverInvalid (e : error) : bool := false.
Definition currentNFSConfig (ns : string) (c : Cluster) : result (option NFSConfig) :=
  Ok (RecordedConfig <$> nfsBackend c).

Definition globalStore (c : Cluster) : result (string * bool) :=
  Ok ("secret-access-key", match nfsBackend c with Some _ => true | None => false end).
Definition redact (store : string * bool) : result (string * bool) :=
  Ok ("--- REDACTED ---", snd store).

(** Doubles for the command that sets up the bucket itself. *)
Definition waitForNFSMinioReady (ns : string) : M unit := ret tt.
Definition createNFSBucket (ns : string) : M unit := ret tt.
Definition buildStoreNFS (ns : string) (c : Cluster) : result CliSetup.StoreNFS :=
  Ok {| CliSetup.AccessKeyID := "key"; CliSetup.SecretAccessKey := "secret";
        CliSetup.ObjectStoreClusterIP := "10.96.0.10";
        CliSetup.Endpoint := "http://kotsadm-nfs-minio." +:+ ns +:+ ":9000" |}.
Definition credentialsOf (accessKeyID secretAccessKey : string) : result string :=
  Ok (accessKeyID +:+ ":" +:+ secretAccessKey).
Definition installVelero (o : CliSetup.VeleroInstallOptions) (r : KotsadmOptions) : M unit :=
  ret tt.
Definition globalStoreFound (c : Cluster) : option error := None.

Definition updateToShareB (force : bool)
  : Settings.UpdateGlobalSnapshotSettingsRequest unit unit unit unit :=
  {| Settings.UpdProvider := ""; Settings.UpdBucket := ""; Settings.UpdPath := "";
     Settings.UpdAWS := None; Settings.UpdGoogle := None; Settings.UpdAzure := None;
     Settings.UpdOther := None; Settings.UpdInternal := false;
     Settings.UpdNFS := Some {| OptPath := "/export/b"; OptServer := "10.0.0.2";
                                OptForceReset := force |} |}.

End Samples.

(* ===================================================================== *)
(** ** Facts about the tokenizer *)
(* ===================================================================== *)

Module RegexpFacts.
Import Regexp Snapshot Notions.

Lemma Rest_trans s1 s2 s3 : Rest s1 s2 -> Rest s2 s3 -> Rest s1 s3.
Proof.
  intros H12 H23. induction H23 as [|a s H IH]; [assumption|].
  constructor. exact IH.
Qed.

Lemma noSeparator_Rest s' s : Rest s' s -> noSeparator s = true -> noSeparator s' = true.
Proof.
  induction 1 as [|a s H IH]; [tauto|].
  simpl. intros Hs. apply andb_true_iff in Hs. tauto.
Qed.

(** A successful [p+] hands a remainder of its input to its continuation. *)
Lemma plus_class_rest {R} p s (k : string -> option R) x :
  plus_class p s k = Some x -> exists s', Rest s' s /\ k s' = Some x.
Proof.
  revert x. induction s as [|a s IH]; intros x; simpl; [discriminate|].
  destruct (p a); [|discriminate].
  destruct (plus_class p s k) as [y|] eqn:E.
  - intros [= <-]. destruct (IH y eq_refl) as (s' & Hs' & Hk).
    exists s'. split; [constructor|]; assumption.
  - intros Hk. exists s. split; [repeat constructor | assumption].
Qed.

(** So does every expression: the continuation of a successful match runs
    on a remainder of the input. *)
Lemma match_here_rest {R} r : forall s c (k : string -> captures -> option R) x,
  match_here r s c k = Some x ->
  exists s' c', Rest s' s /\ k s' c' = Some x.
Proof.
  induction r as [p|p|r1 IH1 r2 IH2|r1 IH1|i r1 IH1]; intros s c k x; simpl.
  - destruct s as [|a s]; [discriminate|].
    destruct (p a); [|discriminate]. intros Hk.
    exists s, c. split; [repeat constructor | assumption].
  - intros H. apply plus_class_rest in H as (s' & Hs' & Hk). eauto.
  - intros H. apply IH1 in H as (s1 & c1 & Hs1 & H).
    apply IH2 in H as (s2 & c2 & Hs2 & H).
    exists s2, c2. split; [eapply Rest_trans; eassumption | assumption].
  - destruct (match_here r1 s c k) as [y|] eqn:E.
    + intros [= <-]. eapply IH1. exact E.
    + intros Hk. exists s, c. split; [constructor | assumption].
  - intros H. apply IH1 in H as (s1 & c1 & Hs1 & H). eauto.
Qed.

Lemma match_here_Cat {R} r1 r2 s c (k : string -> captures -> option R) :
  match_here (Cat r1 r2) s c k
  = match_here r1 s c (fun s' c' => match_here r2 s' c' k).
Proof. reflexivity. Qed.

(** The tokenizer cannot match at the head of a text without [@] and [:]. *)
Lemma match_at_needs_separator s :
  noSeparator s = true -> match_at 4 dockerImageNameRegex s = None.
Proof.
  intros Hs. destruct (match_at 4 dockerImageNameRegex s) as [m|] eqn:E; [|reflexivity].
  exfalso. unfold match_at, dockerImageNameRegex in E.
  rewrite match_here_Cat in E.
  apply match_here_rest in E as (s1 & c1 & Hs1 & E). cbv beta in E.
  rewrite match_here_Cat in E.
  apply match_here_rest in E as (s2 & c2 & Hs2 & E). cbv beta in E.
  rewrite match_here_Cat in E.
  apply match_here_rest in E as (s3 & c3 & Hs3 & E). cbv beta in E.
  rewrite match_here_Cat in E. cbn [match_here] in E.
  assert (H3 : noSeparator s3 = true).
  { eapply noSeparator_Rest; [exact Hs3|].
    eapply noSeparator_Rest; [exact Hs2|].
    eapply noSeparator_Rest; [exact Hs1|exact Hs]. }
  destruct s3 as [|a s3]; [discriminate|].
  simpl in H3. apply andb_true_iff in H3 as [Ha _].
  destruct (isAtOrColon a); discriminate.
Qed.

Lemma find_from_needs_separator s :
  noSeparator s = true -> find_from 4 dockerImageNameRegex s = None.
Proof.
  induction s as [|a s IH]; intros Hs.
  - reflexivity.
  - cbn [find_from]. rewrite (match_at_needs_separator _ Hs).
    simpl in Hs. apply andb_true_iff in Hs as [_ Hs]. auto.
Qed.

(** An image reference without [@] and [:] is not tokenized: the
    submatch slice is [nil]. *)
Lemma tokenizer_needs_separator image :
  noSeparator image = true -> dockerImageNameSubmatch image = [].
Proof.
  intros Hs. unfold dockerImageNameSubmatch, FindStringSubmatch.
  now rewrite find_from_needs_separator.
Qed.

(** The default engine image is tokenized with its tag as fourth group. *)
Lemma tokenizer_default_image :
  dockerImageNameSubmatch "velero/velero:v1.5.1"
  = ["velero/velero:v1.5.1"; "velero"; ""; "velero"; "v1.5.1"].
Proof. vm_compute. reflexivity. Qed.

End RegexpFacts.

(* ===================================================================== *)
(** ** Engine detection *)
(* ===================================================================== *)

Module DetectionFacts.
Import Regexp Snapshot Notions.

Lemma find_none_of_Forall {A} (p : A -> bool) l :
  Forall (fun x => p x = false) l -> List.find p l = None.
Proof.
  induction 1 as [|x l Hx _ IH]; simpl; [reflexivity|]. now rewrite Hx.
Qed.

(** Whatever the listing of backup storage locations answers, namespace
    detection returns no error once the client could be built. *)
Lemma DetectVeleroNamespace_total c :
  faults c CallGetConfig = None ->
  faults c CallNewVeleroClient = None ->
  exists ns, DetectVeleroNamespace c = Ok ns.
Proof.
  intros H1 H2. unfold DetectVeleroNamespace. rewrite H1, H2.
  destruct (ListBackupStorageLocations c) as [items|err].
  - destruct (List.find _ items); eauto.
  - destruct (IsNotFound (Some err)); eauto.
Qed.

(** C5.  Engine detection does not fail on absence.  On a cluster whose
    client configuration can be obtained, if listing the backup storage
    locations errors, or no listed location is named "default", then
    [DetectVeleroNamespace] returns the empty namespace without an error
    and [DetectVelero] returns [nil] without an error, whatever workloads
    the cluster runs (in particular with none). *)
Theorem detection_does_not_fail_on_absence (c : Cluster) :
  faults c CallGetConfig = None ->
  faults c CallNewVeleroClient = None ->
  faults c CallNewClientset = None ->
  ((exists err, ListBackupStorageLocations c = Err err) \/
   (exists items, ListBackupStorageLocations c = Ok items /\
      Forall (fun b => Name (BSLMeta b) <> "default") items)) ->
  DetectVeleroNamespace c = Ok "" /\ DetectVelero c = Value None.
Proof.
  intros Hcfg Hvc Hcs Habsent.
  assert (Hns : DetectVeleroNamespace c = Ok "").
  { unfold DetectVeleroNamespace. rewrite Hcfg, Hvc.
    destruct Habsent as [[err ->] | (items & -> & Hnone)].
    - now destruct (IsNotFound (Some err)).
    - rewrite find_none_of_Forall; [reflexivity|].
      eapply Forall_impl; [exact Hnone|]. simpl. intros b Hb.
      now apply String.eqb_neq. }
  split; [exact Hns|].
  unfold DetectVelero. now rewrite Hcfg, Hcs, Hns.
Qed.

Lemma detection_does_not_fail_on_absence_witness :
  faults Fixture.bare CallGetConfig = None /\
  ListBackupStorageLocations Fixture.bare = Ok [] /\
  DetectVeleroNamespace Fixture.bare = Ok "" /\
  DetectVelero Fixture.bare = Value None.
Proof.
  split; [reflexivity|]. split; [reflexivity|].
  apply (detection_does_not_fail_on_absence Fixture.bare); try reflexivity.
  right. exists []. split; [reflexivity | constructor].
Defined.

(** With a location named "default" the engine counts as installed even
    when no workload matches: the status returned is not [nil]. *)
Lemma detected_namespace_without_workloads :
  DetectVelero (setDaemonSets (setDeployments Fixture.installed []) [])
  = Value (Some {| Version := ""; Plugins := []; Status := "";
                   ResticVersion := ""; ResticStatus := "" |}).
Proof. vm_compute. reflexivity. Qed.

(** Deployments whose first image has neither [@] nor [:] leave the
    version as it was. *)
Lemma scanDeployments_without_separator ds : forall st st',
  Forall (fun d => exists c0 rest, Containers (podSpecOf d) = c0 :: rest /\
                                   noSeparator (Image c0) = true) ds ->
  scanDeployments ds st = Value st' ->
  Version st' = Version st /\ Status st' = Status st.
Proof.
  induction ds as [|d ds IH]; intros st st' Hall; simpl.
  - intros [= <-]. tauto.
  - inversion Hall as [|? ? (c0 & rest & Hc & Hsep) Hall']; subst.
    rewrite Hc, (RegexpFacts.tokenizer_needs_separator _ Hsep). simpl.
    intros H. apply IH in H; [|assumption]. exact H.
Qed.

(** C7.  The tokenizer yields the tag of "velero/velero:v1.5.1" as the
    version, but it also tokenizes "localhost:5000/velero", a reference
    with a registry port and neither tag nor digest: the slice has five
    entries and [DetectVelero] reports the version "5000/velero". *)
Theorem tokenizer_reads_registry_port_as_tag :
  nth 4 (dockerImageNameSubmatch "velero/velero:v1.5.1") "" = "v1.5.1" /\
  noTagOrDigest "localhost:5000/velero" = true /\
  dockerImageNameSubmatch "localhost:5000/velero"
  = ["localhost:5000/velero"; ""; ""; "localhost"; "5000/velero"] /\
  DetectVelero Fixture.untagged
  = Value (Some {| Version := "5000/velero";
                   Plugins := ["velero-plugin-for-aws"];
                   Status := "Ready";
                   ResticVersion := "v1.5.1";
                   ResticStatus := "Ready" |}).
Proof. repeat split; vm_compute; reflexivity. Qed.

End DetectionFacts.

(* ===================================================================== *)
(** ** Facts about the cluster operations *)
(* ===================================================================== *)

Module ClusterFacts.

Lemma bind_Value {A B} (m : M A) (f : A -> M B) c c2 b :
  K8s.bind m f c = (c2, Value b) ->
  exists a c1, m c = (c1, Value a) /\ f a c1 = (c2, Value b).
Proof.
  unfold K8s.bind. destruct (m c) as [c1 [a|e|]]; intros H; try discriminate.
  eauto.
Qed.

Lemma wrap_Value {A} msg (m : M A) c c1 a :
  wrap msg m c = (c1, Value a) -> m c = (c1, Value a).
Proof.
  unfold wrap. destruct (m c) as [c' [x|e|]]; intros H; try discriminate; exact H.
Qed.

Lemma call_Value {A} k (m : M A) c c1 a :
  call k m c = (c1, Value a) -> m c = (c1, Value a).
Proof.
  unfold call. destruct (faults c k); intros H; [discriminate | exact H].
Qed.

Lemma ofResult_Value {A} (r : result A) c c1 a :
  ofResult r c = (c1, Value a) -> r = Ok a /\ c1 = c.
Proof.
  destruct r; simpl; unfold ret, raise; intros [= -> ->]; auto.
Qed.

Lemma metaIs_other ns name ns' name' m :
  (ns, name) <> (ns', name') -> metaIs ns name m = true -> metaIs ns' name' m = false.
Proof.
  unfold metaIs. intros Hne H. apply andb_true_iff in H as [H1 H2].
  apply String.eqb_eq in H1, H2. subst.
  destruct (String.eqb_spec (Namespace m) ns'); [|reflexivity].
  destruct (String.eqb_spec (Name m) name'); [|reflexivity].
  congruence.
Qed.

Section Objects.
Context {A : Type} (meta : A -> ObjectMeta).

Lemma lookup_replace_same ns name d l x :
  lookupObject meta ns name l = Some x -> metaIs ns name (meta d) = true ->
  lookupObject meta ns name (replaceObject meta ns name d l) = Some d.
Proof.
  unfold lookupObject, replaceObject. intros Hf Hd.
  induction l as [|y l IH]; simpl in *; [discriminate|].
  destruct (metaIs ns name (meta y)) eqn:E.
  - now rewrite Hd.
  - rewrite E. auto.
Qed.

Lemma lookup_replace_other ns name d l ns' name' :
  (ns, name) <> (ns', name') -> metaIs ns name (meta d) = true ->
  lookupObject meta ns' name' (replaceObject meta ns name d l)
  = lookupObject meta ns' name' l.
Proof.
  unfold lookupObject, replaceObject. intros Hne Hd.
  induction l as [|y l IH]; simpl; [reflexivity|].
  destruct (metaIs ns name (meta y)) eqn:E.
  - rewrite (metaIs_other _ _ _ _ _ Hne Hd), (metaIs_other _ _ _ _ _ Hne E). exact IH.
  - rewrite IH. reflexivity.
Qed.

Lemma lookup_remove_same ns name l :
  lookupObject meta ns name (removeObject meta ns name l) = None.
Proof.
  unfold lookupObject, removeObject. induction l as [|y l IH]; simpl; [reflexivity|].
  destruct (metaIs ns name (meta y)) eqn:E; simpl; [exact IH|].
  now rewrite E.
Qed.

Lemma lookup_remove_other ns name l ns' name' :
  (ns, name) <> (ns', name') ->
  lookupObject meta ns' name' (removeObject meta ns name l)
  = lookupObject meta ns' name' l.
Proof.
  unfold lookupObject, removeObject. intros Hne.
  induction l as [|y l IH]; simpl; [reflexivity|].
  destruct (metaIs ns name (meta y)) eqn:E; simpl.
  - now rewrite (metaIs_other _ _ _ _ _ Hne E).
  - now rewrite IH.
Qed.

Lemma lookup_add_same ns name d l :
  lookupObject meta ns name l = None -> metaIs ns name (meta d) = true ->
  lookupObject meta ns name (l ++ [d])%list = Some d.
Proof.
  unfold lookupObject. intros Hf Hd. induction l as [|y l IH]; simpl in *.
  - now rewrite Hd.
  - destruct (metaIs ns name (meta y)); [discriminate | auto].
Qed.

Lemma lookup_add_other ns name d l ns' name' :
  (ns, name) <> (ns', name') -> metaIs ns name (meta d) = true ->
  lookupObject meta ns' name' (l ++ [d])%list = lookupObject meta ns' name' l.
Proof.
  unfold lookupObject. intros Hne Hd. induction l as [|y l IH]; simpl.
  - now rewrite (metaIs_other _ _ _ _ _ Hne Hd).
  - now rewrite IH.
Qed.

Lemma lookup_meta ns name l x :
  lookupObject meta ns name l = Some x -> metaIs ns name (meta x) = true.
Proof.
  unfold lookupObject. intros H. apply find_some in H. tauto.
Qed.

End Objects.

End ClusterFacts.

(* ===================================================================== *)
(** ** Image configuration *)
(* ===================================================================== *)

Module ImageFacts.
Import Snapshot Notions ClusterFacts.

Lemma setConfigMaps_same c : setConfigMaps c (configMaps c) = c.
Proof. now destruct c. Qed.

Lemma metaIs_names ns name m : metaIs ns name m = true -> Namespace m = ns /\ Name m = name.
Proof.
  unfold metaIs. intros H. apply andb_true_iff in H as [H1 H2].
  now apply String.eqb_eq in H1, H2.
Qed.

Section Images.
Variable IsKurl : Cluster -> bool.
Variable ImageRewriteKotsadmRegistry :
  string -> KotsadmOptions -> string -> bool ->
  result (string * list LocalObjectReference).
Variable EnsurePrivateKotsadmRegistrySecret :
  string -> KotsadmOptions -> Secrets -> result Secrets.

Local Abbreviation rewriteVeleroImages := (rewriteVeleroImages IsKurl ImageRewriteKotsadmRegistry).
Local Abbreviation ConfigureVeleroImages :=
  (ConfigureVeleroImages IsKurl ImageRewriteKotsadmRegistry EnsurePrivateKotsadmRegistrySecret).

(** What a successful restic config map step leaves behind. *)
Lemma configureResticConfigMap_Value image c c' :
  configureResticConfigMap image c = (c', Value tt) ->
  c' = setConfigMaps c (configMaps c') /\
  (image <> defaultVeleroResticRestoreHelperImage ->
     findConfigMap c' veleroNamespace resticConfigMapName
     = Some match findConfigMap c veleroNamespace resticConfigMapName with
            | None => storedResticConfigMap image
            | Some cm => withImage cm image
            end) /\
  (image = defaultVeleroResticRestoreHelperImage ->
     findConfigMap c' veleroNamespace resticConfigMapName = None) /\
  (forall ns name, (veleroNamespace, resticConfigMapName) <> (ns, name) ->
     findConfigMap c' ns name = findConfigMap c ns name).
Proof.
  unfold configureResticConfigMap.
  destruct (String.eqb_spec image defaultVeleroResticRestoreHelperImage) as [Heq|Hne]; simpl.
  - (* the default image: the config map is deleted *)
    unfold DeleteConfigMap, call, faults.
    destruct (rejects c _); [discriminate|].
    destruct (findConfigMap c veleroNamespace resticConfigMapName) as [cm|] eqn:Hget.
    + intros [= <-]. simpl. repeat split; try congruence.
      * intros _. apply lookup_remove_same.
      * intros ns name Hother. now apply lookup_remove_other.
    + simpl. intros [= <-]. rewrite setConfigMaps_same. repeat split; congruence.
  - (* a rewritten image: the config map is created or updated *)
    unfold GetConfigMap, call, faults.
    destruct (rejects c _); [discriminate|].
    destruct (findConfigMap c veleroNamespace resticConfigMapName) as [cm|] eqn:Hget.
    + pose proof (lookup_meta _ _ _ _ _ Hget) as Hmeta.
      destruct (metaIs_names _ _ _ Hmeta) as [_ Hname].
      unfold wrap, K8s.bind, UpdateConfigMap, call, faults. simpl.
      rewrite Hname. destruct (rejects c _); [discriminate|].
      rewrite Hget. unfold ret. intros [= <-]. simpl. repeat split; try congruence.
      * intros _. unfold findConfigMap. simpl.
        erewrite lookup_replace_same; [|exact Hget|exact Hmeta].
        unfold withImage, setData. now destruct (Data cm).
      * intros ns name Hother. unfold findConfigMap. simpl.
        now apply lookup_replace_other.
    + simpl. unfold wrap, K8s.bind, CreateConfigMap, call, faults. simpl.
      destruct (rejects c _); [discriminate|].
      change (findConfigMap c veleroNamespace "restic-restore-action-config")
        with (findConfigMap c veleroNamespace resticConfigMapName).
      rewrite Hget. unfold ret. intros [= <-]. simpl. repeat split; try congruence.
      * intros _. unfold findConfigMap. simpl.
        now apply (lookup_add_same ConfigMapMeta veleroNamespace resticConfigMapName).
      * intros ns name Hother. unfold findConfigMap. simpl.
        now apply (lookup_add_other ConfigMapMeta veleroNamespace resticConfigMapName).
Qed.

Lemma setFirstImage_Value cs image c c1 cs' :
  setFirstImage cs image c = (c1, Value cs') ->
  cs <> [] /\ cs' = withFirstImage cs image /\ c1 = c.
Proof.
  destruct cs as [|c0 rest]; simpl; unfold panic, ret; intros [= <- <-].
  repeat split. discriminate.
Qed.

(** The steps of a successful run that was not skipped. *)
Lemma ConfigureVeleroImages_Value ns opts c c' :
  skipped IsKurl c ns = false ->
  ConfigureVeleroImages ns opts c = (c', Value tt) ->
  exists images s d ds c2 c3,
    rewriteVeleroImages c ns opts = Ok images /\
    EnsurePrivateKotsadmRegistrySecret veleroNamespace opts (secrets c) = Ok s /\
    findDeployment c veleroNamespace veleroDeploymentName = Some d /\
    InitContainers (podSpecOf d) <> [] /\
    Containers (podSpecOf d) <> [] /\
    c2 = setDeployments (setSecrets c s)
           (replaceObject DeploymentMeta veleroNamespace veleroDeploymentName
              (withPodSpec d (patchThree (podSpecOf d) (imagePullSecrets images)
                                (awsPluginImage images) (veleroImage images)))
              (deployments c)) /\
    configureResticConfigMap (resticRestoreHelperImage images) c2 = (c3, Value tt) /\
    findDaemonSet c veleroNamespace resticDaemonSetName = Some ds /\
    Containers (dsPodSpecOf ds) <> [] /\
    c' = setDaemonSets c3
           (replaceObject DaemonSetMeta veleroNamespace resticDaemonSetName
              (dsWithPodSpec ds (patchTwo (dsPodSpecOf ds) (imagePullSecrets images)
                                   (veleroImage images)))
              (daemonSets c)).
Proof.
  unfold skipped, Snapshot.ConfigureVeleroImages. intros -> H.
  apply bind_Value in H as (images & c1 & Hrw & H).
  apply wrap_Value, ofResult_Value in Hrw as [Hrw ->].
  apply bind_Value in H as ([] & c1 & Hens & H).
  apply wrap_Value in Hens. unfold ensureRegistrySecret in Hens.
  destruct (EnsurePrivateKotsadmRegistrySecret _ _ _) as [s|] eqn:Hs; [|discriminate].
  injection Hens as <-.
  apply bind_Value in H as (d & c1 & Hget & H).
  apply wrap_Value, call_Value in Hget.
  destruct (findDeployment (setSecrets c s) _ _) as [d0|] eqn:Hd; [|discriminate].
  injection Hget as <- <-. rename d0 into d.
  change (findDeployment c veleroNamespace veleroDeploymentName = Some d) in Hd.
  apply bind_Value in H as (inits & c1 & Hinit & H).
  apply setFirstImage_Value in Hinit as (Hi & -> & ->). simpl in Hi.
  apply bind_Value in H as (mains & c1 & Hmain & H).
  apply setFirstImage_Value in Hmain as (Hm & -> & ->). simpl in Hm.
  apply bind_Value in H as (d' & c2 & Hupd & H).
  apply wrap_Value, call_Value in Hupd. simpl in Hupd.
  pose proof (lookup_meta _ _ _ _ _ Hd) as Hmeta.
  destruct (metaIs_names _ _ _ Hmeta) as [_ Hname]. rewrite Hname in Hupd.
  change (findDeployment (setSecrets c s) veleroNamespace veleroDeploymentName)
    with (findDeployment c veleroNamespace veleroDeploymentName) in Hupd.
  rewrite Hd in Hupd. injection Hupd as <- <-.
  apply bind_Value in H as ([] & c3 & Hcm & H).
  apply bind_Value in H as (ds & c4 & Hgds & H).
  apply wrap_Value, call_Value in Hgds.
  destruct (findDaemonSet c3 _ _) as [ds0|] eqn:Hds; [|discriminate].
  injection Hgds as <- <-. rename ds0 into ds.
  apply bind_Value in H as (dsMains & c1 & Hdm & H).
  apply setFirstImage_Value in Hdm as (Hn & -> & ->). simpl in Hn.
  apply bind_Value in H as (ds' & c5 & Hupds & H).
  apply wrap_Value, call_Value in Hupds. simpl in Hupds.
  pose proof (lookup_meta _ _ _ _ _ Hds) as Hdmeta.
  destruct (metaIs_names _ _ _ Hdmeta) as [_ Hdname]. rewrite Hdname in Hupds.
  rewrite Hds in Hupds. injection Hupds as <- <-.
  unfold ret in H. injection H as <-.
  destruct (configureResticConfigMap_Value _ _ _ Hcm) as (Hc3 & _).
  assert (Hdsets : daemonSets c3 = daemonSets c) by (rewrite Hc3; reflexivity).
  exists images, s, d, ds. eexists. exists c3.
  unfold findDaemonSet in Hds. rewrite Hdsets in Hds.
  repeat split; try eassumption; try reflexivity.
  now rewrite Hdsets.
Qed.

(** C6.  For every registry options, on an embedded (kurl) cluster with
    kotsadm in the default namespace image rewriting is a no-op: the
    three image references returned are the default constants, the list
    of pull secrets is empty, and [ConfigureVeleroImages] returns [nil]
    leaving the cluster, its workloads included, as it was. *)
Theorem embedded_default_namespace_is_noop (opts : KotsadmOptions) (c : Cluster) :
  IsKurl c = true ->
  rewriteVeleroImages c NamespaceDefault opts
  = Ok {| veleroImage := defaultVeleroImage;
          awsPluginImage := defaultVeleroAWSPluginImage;
          resticRestoreHelperImage := defaultVeleroResticRestoreHelperImage;
          imagePullSecrets := [] |} /\
  ConfigureVeleroImages NamespaceDefault opts c = (c, Value tt).
Proof.
  intros Hkurl.
  unfold Snapshot.rewriteVeleroImages, Snapshot.ConfigureVeleroImages.
  rewrite Hkurl. simpl. split; reflexivity.
Qed.

(** C8, amended.  A successful image configuration that is not skipped
    replaces exactly three fields of the velero deployment's pod spec
    (pull secrets, image of the first init container, image of the first
    container) and exactly two fields of the restic daemon set's pod
    spec (pull secrets, image of the first container; its init
    containers are not written).  Everything else in the two workloads,
    and every other deployment and daemon set, is as before. *)
Theorem image_patch_touches_three_and_two_fields
    (kotsadmNamespace : string) (opts : KotsadmOptions) (c c' : Cluster) :
  skipped IsKurl c kotsadmNamespace = false ->
  ConfigureVeleroImages kotsadmNamespace opts c = (c', Value tt) ->
  exists images d ds,
    rewriteVeleroImages c kotsadmNamespace opts = Ok images /\
    findDeployment c veleroNamespace veleroDeploymentName = Some d /\
    findDaemonSet c veleroNamespace resticDaemonSetName = Some ds /\
    findDeployment c' veleroNamespace veleroDeploymentName
    = Some (withPodSpec d (patchThree (podSpecOf d) (imagePullSecrets images)
                             (awsPluginImage images) (veleroImage images))) /\
    findDaemonSet c' veleroNamespace resticDaemonSetName
    = Some (dsWithPodSpec ds (patchTwo (dsPodSpecOf ds) (imagePullSecrets images)
                                (veleroImage images))) /\
    (forall ns name, (veleroNamespace, veleroDeploymentName) <> (ns, name) ->
       findDeployment c' ns name = findDeployment c ns name) /\
    (forall ns name, (veleroNamespace, resticDaemonSetName) <> (ns, name) ->
       findDaemonSet c' ns name = findDaemonSet c ns name).
Proof.
  intros Hskip Hrun.
  destruct (ConfigureVeleroImages_Value _ _ _ _ Hskip Hrun)
    as (images & s & d & ds & c2 & c3 & Hrw & _ & Hd & _ & _ & Hc2 & Hcm & Hds & _ & Hc').
  destruct (configureResticConfigMap_Value _ _ _ Hcm) as (Hc3 & _).
  assert (Hdeps : deployments c' = deployments c2)
    by (rewrite Hc', Hc3; reflexivity).
  exists images, d, ds. repeat split; try assumption.
  - unfold findDeployment. rewrite Hdeps, Hc2. simpl.
    eapply lookup_replace_same; [exact Hd|]. apply (lookup_meta _ _ _ _ _ Hd).
  - rewrite Hc'. unfold findDaemonSet. simpl.
    eapply lookup_replace_same; [exact Hds|]. apply (lookup_meta _ _ _ _ _ Hds).
  - intros ns name Hother. unfold findDeployment. rewrite Hdeps, Hc2. simpl.
    apply lookup_replace_other; [exact Hother|]. apply (lookup_meta _ _ _ _ _ Hd).
  - intros ns name Hother. rewrite Hc'. unfold findDaemonSet. simpl.
    apply lookup_replace_other; [exact Hother|]. apply (lookup_meta _ _ _ _ _ Hds).
Qed.

(** C10, amended.  After a successful image configuration that is not
    skipped: if the restore-helper image was rewritten away from its
    default, the config map "restic-restore-action-config" exists in the
    engine namespace with [Data["image"]] equal to the rewritten
    reference (the fresh resource if there was none, the old one with
    that entry set otherwise); if the image is the default, there is no
    such config map. *)
Theorem restic_config_map_follows_helper_image
    (kotsadmNamespace : string) (opts : KotsadmOptions) (c c' : Cluster) :
  skipped IsKurl c kotsadmNamespace = false ->
  ConfigureVeleroImages kotsadmNamespace opts c = (c', Value tt) ->
  exists images,
    rewriteVeleroImages c kotsadmNamespace opts = Ok images /\
    (resticRestoreHelperImage images <> defaultVeleroResticRestoreHelperImage ->
       findConfigMap c' veleroNamespace resticConfigMapName
       = Some match findConfigMap c veleroNamespace resticConfigMapName with
              | None => storedResticConfigMap (resticRestoreHelperImage images)
              | Some cm => withImage cm (resticRestoreHelperImage images)
              end /\
       exists cm data,
         findConfigMap c' veleroNamespace resticConfigMapName = Some cm /\
         Data cm = Some data /\
         data !! "image" = Some (resticRestoreHelperImage images)) /\
    (resticRestoreHelperImage images = defaultVeleroResticRestoreHelperImage ->
       findConfigMap c' veleroNamespace resticConfigMapName = None).
Proof.
  intros Hskip Hrun.
  destruct (ConfigureVeleroImages_Value _ _ _ _ Hskip Hrun)
    as (images & s & d & ds & c2 & c3 & Hrw & _ & _ & _ & _ & Hc2 & Hcm & _ & _ & Hc').
  destruct (configureResticConfigMap_Value _ _ _ Hcm) as (_ & Hset & Hdel & _).
  assert (Hbefore : findConfigMap c2 veleroNamespace resticConfigMapName
                    = findConfigMap c veleroNamespace resticConfigMapName)
    by (rewrite Hc2; reflexivity).
  assert (Hafter : findConfigMap c' veleroNamespace resticConfigMapName
                   = findConfigMap c3 veleroNamespace resticConfigMapName)
    by (rewrite Hc'; reflexivity).
  exists images. split; [exact Hrw|]. rewrite Hafter, <- Hbefore. split.
  - intros Hne. specialize (Hset Hne). split; [exact Hset|].
    rewrite Hset.
    destruct (findConfigMap c2 veleroNamespace resticConfigMapName) as [cm|].
    + eexists _, _. split; [reflexivity|]. split; [reflexivity|].
      apply lookup_insert_eq.
    + eexists _, _. split; [reflexivity|]. split; [reflexivity|].
      apply lookup_insert_eq.
  - exact Hdel.
Qed.

End Images.

Import Fixture.

Lemma embedded_default_namespace_is_noop_witness :
  isKurl embedded = true /\
  rewriteVeleroImages isKurl imageRewrite embedded NamespaceDefault privateRegistry
  = Ok {| veleroImage := defaultVeleroImage;
          awsPluginImage := defaultVeleroAWSPluginImage;
          resticRestoreHelperImage := defaultVeleroResticRestoreHelperImage;
          imagePullSecrets := [] |} /\
  ConfigureVeleroImages isKurl imageRewrite ensureSecret NamespaceDefault privateRegistry embedded
  = (embedded, Value tt).
Proof.
  split; [reflexivity|].
  apply (embedded_default_namespace_is_noop isKurl imageRewrite ensureSecret
           privateRegistry embedded).
  reflexivity.
Defined.

(** The images the test registry yields. *)
Lemma rewritten_images :
  rewriteVeleroImages isKurl imageRewrite installed NamespaceDefault privateRegistry
  = Ok {| veleroImage := "registry.example.com/velero/velero:v1.5.1";
          awsPluginImage := "registry.example.com/velero/velero-plugin-for-aws:v1.1.0";
          resticRestoreHelperImage :=
            "registry.example.com/velero/velero-restic-restore-helper:v1.5.1";
          imagePullSecrets := [{| RefName := registrySecretName |}] |}.
Proof. reflexivity. Qed.

Lemma image_patch_touches_three_and_two_fields_witness :
  skipped isKurl installed NamespaceDefault = false /\
  ConfigureVeleroImages isKurl imageRewrite ensureSecret NamespaceDefault privateRegistry installed
  = (configured, Value tt) /\
  exists images d ds,
    rewriteVeleroImages isKurl imageRewrite installed NamespaceDefault privateRegistry
    = Ok images /\
    findDeployment installed veleroNamespace veleroDeploymentName = Some d /\
    findDaemonSet installed veleroNamespace resticDaemonSetName = Some ds /\
    findDeployment configured veleroNamespace veleroDeploymentName
    = Some (withPodSpec d (patchThree (podSpecOf d) (imagePullSecrets images)
                             (awsPluginImage images) (veleroImage images))) /\
    findDaemonSet configured veleroNamespace resticDaemonSetName
    = Some (dsWithPodSpec ds (patchTwo (dsPodSpecOf ds) (imagePullSecrets images)
                                (veleroImage images))) /\
    (forall ns name, (veleroNamespace, veleroDeploymentName) <> (ns, name) ->
       findDeployment configured ns name = findDeployment installed ns name) /\
    (forall ns name, (veleroNamespace, resticDaemonSetName) <> (ns, name) ->
       findDaemonSet configured ns name = findDaemonSet installed ns name).
Proof.
  assert (Hskip : skipped isKurl installed NamespaceDefault = false) by reflexivity.
  assert (Hrun : ConfigureVeleroImages isKurl imageRewrite ensureSecret
                   NamespaceDefault privateRegistry installed = (configured, Value tt))
    by (vm_compute; reflexivity).
  split; [exact Hskip|]. split; [exact Hrun|].
  exact (image_patch_touches_three_and_two_fields isKurl imageRewrite ensureSecret
           NamespaceDefault privateRegistry installed configured Hskip Hrun).
Defined.

(** C8, as stated, fails on the restic daemon set: after a successful
    image configuration its first init container still has the image it
    had, not the rewritten plugin image, so its pod spec is not the
    three-field patch of the one before. *)
Lemma restic_daemon_set_init_image_is_not_written :
  ConfigureVeleroImages isKurl imageRewrite ensureSecret NamespaceDefault privateRegistry installed
  = (configured, Value tt) /\
  findDaemonSet installed veleroNamespace resticDaemonSetName = Some resticDaemonSet /\
  (InitContainers <$> (dsPodSpecOf <$> findDaemonSet configured veleroNamespace resticDaemonSetName))
  = Some [{| ContainerName := "wait-for-mount"; Image := "busybox:1.33"; Args := [] |}] /\
  findDaemonSet configured veleroNamespace resticDaemonSetName
  <> Some (dsWithPodSpec resticDaemonSet
             (patchThree (dsPodSpecOf resticDaemonSet)
                [{| RefName := registrySecretName |}]
                "registry.example.com/velero/velero-plugin-for-aws:v1.1.0"
                "registry.example.com/velero/velero:v1.5.1")).
Proof.
  repeat split; try (vm_compute; reflexivity).
  vm_compute. intros H. discriminate H.
Qed.

Lemma restic_config_map_follows_helper_image_witness :
  skipped isKurl installed NamespaceDefault = false /\
  ConfigureVeleroImages isKurl imageRewrite ensureSecret NamespaceDefault privateRegistry installed
  = (configured, Value tt) /\
  exists images,
    rewriteVeleroImages isKurl imageRewrite installed NamespaceDefault privateRegistry
    = Ok images /\
    (resticRestoreHelperImage images <> defaultVeleroResticRestoreHelperImage ->
       findConfigMap configured veleroNamespace resticConfigMapName
       = Some match findConfigMap installed veleroNamespace resticConfigMapName with
              | None => storedResticConfigMap (resticRestoreHelperImage images)
              | Some cm => withImage cm (resticRestoreHelperImage images)
              end /\
       exists cm data,
         findConfigMap configured veleroNamespace resticConfigMapName = Some cm /\
         Data cm = Some data /\
         data !! "image" = Some (resticRestoreHelperImage images)) /\
    (resticRestoreHelperImage images = defaultVeleroResticRestoreHelperImage ->
       findConfigMap configured veleroNamespace resticConfigMapName = None).
Proof.
  assert (Hskip : skipped isKurl installed NamespaceDefault = false) by reflexivity.
  assert (Hrun : ConfigureVeleroImages isKurl imageRewrite ensureSecret
                   NamespaceDefault privateRegistry installed = (configured, Value tt))
    by (vm_compute; reflexivity).
  split; [exact Hskip|]. split; [exact Hrun|].
  exact (restic_config_map_follows_helper_image isKurl imageRewrite ensureSecret
           NamespaceDefault privateRegistry installed configured Hskip Hrun).
Defined.

(** C10, as stated, fails when the configuration is skipped: on an
    embedded cluster with kotsadm in the default namespace the operation
    succeeds, the restore-helper image is the default one, and a config
    map "restic-restore-action-config" left in the engine namespace is
    still there. *)
Lemma skipped_configuration_keeps_restic_config_map :
  ConfigureVeleroImages isKurl imageRewrite ensureSecret NamespaceDefault noRegistry embedded
  = (embedded, Value tt) /\
  (resticRestoreHelperImage <$>
     match rewriteVeleroImages isKurl imageRewrite embedded NamespaceDefault noRegistry with
     | Ok images => Some images
     | Err _ => None
     end) = Some defaultVeleroResticRestoreHelperImage /\
  findConfigMap embedded veleroNamespace resticConfigMapName = Some staleResticConfig.
Proof. repeat split; vm_compute; reflexivity. Qed.

End ImageFacts.

(* ===================================================================== *)
(** ** Snapshot schedules and retention *)
(* ===================================================================== *)

Module ScheduleFacts.
Import Snapshot Handlers Notions.

Lemma storeCall_up k f st : storeUp st -> storeCall k f st = Ok (f st).
Proof. intros Hup. unfold storeCall. now rewrite Hup. Qed.

Lemma pendingOf_purged owner l :
  pendingOf owner (List.filter (notOwnedBy owner) l) = [].
Proof.
  unfold pendingOf, notOwnedBy. induction l as [|s l IH]; simpl; [reflexivity|].
  destruct (String.eqb (OwnerID s) owner) eqn:E; simpl; [exact IH|].
  now rewrite E.
Qed.

Lemma pendingOf_purged_other owner o l :
  o <> owner -> pendingOf o (List.filter (notOwnedBy owner) l) = pendingOf o l.
Proof.
  unfold pendingOf, notOwnedBy. intros Hne. induction l as [|s l IH]; simpl; [reflexivity|].
  destruct (String.eqb_spec (OwnerID s) owner) as [Heq|Hneq]; simpl.
  - destruct (String.eqb_spec (OwnerID s) o); [congruence | exact IH].
  - now rewrite IH.
Qed.

Lemma pendingOf_app owner l1 l2 :
  pendingOf owner (l1 ++ l2)%list = (pendingOf owner l1 ++ pendingOf owner l2)%list.
Proof. unfold pendingOf. apply List.filter_app. Qed.

(** Writing the retention or the schedule of one application leaves the
    other column of every row alone. *)
Lemma schedules_after_ttl id ttl (m : gmap string AppRow) :
  RowSnapshotSchedule <$>
    alter (fun r => {| RowSlug := RowSlug r; RowSnapshotTTL := ttl;
                       RowSnapshotSchedule := RowSnapshotSchedule r |}) id m
  = RowSnapshotSchedule <$> m.
Proof.
  apply map_eq. intros j. rewrite !lookup_fmap, lookup_alter.
  destruct (decide (id = j)) as [<-|]; [|reflexivity].
  now destruct (m !! id).
Qed.

Lemma cluster_schedules_after_ttl id ttl (l : list DownstreamCluster) :
  map (fun c => (ClusterID c, ClusterSnapshotSchedule c))
    (map (fun c => if String.eqb (ClusterID c) id
                   then {| ClusterID := ClusterID c;
                           ClusterSnapshotSchedule := ClusterSnapshotSchedule c;
                           ClusterSnapshotTTL := ttl |}
                   else c) l)
  = map (fun c => (ClusterID c, ClusterSnapshotSchedule c)) l.
Proof.
  rewrite List.map_map. apply List.map_ext. intros c.
  now destruct (String.eqb (ClusterID c) id).
Qed.

Section Handlers.
Variable CronSchedule : Type.
Variable ParseStandard : string -> result CronSchedule.
Variable Next : CronSchedule -> Z -> Z.
Variable FormatTTL : string -> string -> result string.
Variable ParseTTL : string -> result ParsedTTL.

Local Abbreviation SaveSnapshotConfig :=
  (SaveSnapshotConfig CronSchedule ParseStandard Next FormatTTL).
Local Abbreviation SaveInstanceSnapshotConfig :=
  (SaveInstanceSnapshotConfig CronSchedule ParseStandard Next FormatTTL).
Local Abbreviation GetSnapshotConfig := (GetSnapshotConfig ParseTTL).
Local Abbreviation GetInstanceSnapshotConfig := (GetInstanceSnapshotConfig ParseTTL).

(** The store after the retention step of a save, when no call fails. *)
Lemma ttl_step_app st app retention :
  storeUp st ->
  exists st1,
    (if negb (String.eqb (SnapshotTTL app) retention)
     then SetSnapshotTTL (ID app) retention st else Ok st) = Ok st1 /\
    storeUp st1 /\
    scheduledSnapshots st1 = scheduledSnapshots st /\
    appSchedules st1 = appSchedules st.
Proof.
  intros Hup. destruct (negb _).
  - unfold SetSnapshotTTL. rewrite storeCall_up by assumption.
    eexists. split; [reflexivity|]. repeat split; try assumption.
    apply schedules_after_ttl.
  - exists st. auto.
Qed.

Lemma ttl_step_cluster st c retention :
  storeUp st ->
  exists st1,
    (if negb (String.eqb (ClusterSnapshotTTL c) retention)
     then SetInstanceSnapshotTTL (ClusterID c) retention st else Ok st) = Ok st1 /\
    storeUp st1 /\
    scheduledInstanceSnapshots st1 = scheduledInstanceSnapshots st /\
    clusterSchedules st1 = clusterSchedules st.
Proof.
  intros Hup. destruct (negb _).
  - unfold SetInstanceSnapshotTTL. rewrite storeCall_up by assumption.
    eexists. split; [reflexivity|]. repeat split; try assumption.
    apply cluster_schedules_after_ttl.
  - exists st. auto.
Qed.

(** C9.  Reading the snapshot config of a workload whose stored retention
    is empty answers quantity "1", unit "month" and duration "720h";
    reading that of a workload whose stored schedule is empty answers the
    schedule "0 0 * * MON" with auto-scheduling off (given that its
    retention is empty or parses).  This holds for applications, read by
    slug, and for the instance, read as the first cluster. *)
Theorem unset_config_reads_as_defaults :
  (forall st slug app,
     GetAppFromSlug st slug = Ok app ->
     (SnapshotTTL app = "" ->
      exists config, GetSnapshotConfig slug st = JSON StatusOK config /\
        TTl config = {| InputValue := "1"; InputTimeUnit := "month"; Converted := "720h" |}) /\
     (SnapshotSchedule app = "" ->
      (SnapshotTTL app = "" \/ exists p, ParseTTL (SnapshotTTL app) = Ok p) ->
      exists config, GetSnapshotConfig slug st = JSON StatusOK config /\
        AutoSchedule config = {| Schedule := "0 0 * * MON" |} /\
        AutoEnabled config = false)) /\
  (forall st c rest,
     ListClusters st = Ok (c :: rest) ->
     (ClusterSnapshotTTL c = "" ->
      exists config, GetInstanceSnapshotConfig st = JSON StatusOK config /\
        TTl config = {| InputValue := "1"; InputTimeUnit := "month"; Converted := "720h" |}) /\
     (ClusterSnapshotSchedule c = "" ->
      (ClusterSnapshotTTL c = "" \/ exists p, ParseTTL (ClusterSnapshotTTL c) = Ok p) ->
      exists config, GetInstanceSnapshotConfig st = JSON StatusOK config /\
        AutoSchedule config = {| Schedule := "0 0 * * MON" |} /\
        AutoEnabled config = false)).
Proof.
  assert (Hview : forall stored,
             stored = "" \/ (exists p, ParseTTL stored = Ok p) ->
             exists ttl, ttlView ParseTTL stored = Ok ttl).
  { intros stored [-> | [p Hp]]; unfold ttlView.
    - eexists. reflexivity.
    - destruct (negb _); rewrite ?Hp; eexists; reflexivity. }
  split.
  - intros st slug app Hget. unfold Handlers.GetSnapshotConfig. rewrite Hget. split.
    + intros ->. eexists. split; reflexivity.
    + intros Hs Httl. destruct (Hview _ Httl) as [ttl ->]. rewrite Hs.
      eexists. repeat split.
  - intros st c rest Hlist. unfold Handlers.GetInstanceSnapshotConfig. rewrite Hlist. split.
    + intros ->. eexists. split; reflexivity.
    + intros Hs Httl. destruct (Hview _ Httl) as [ttl ->]. rewrite Hs.
      eexists. repeat split.
Qed.

Lemma GetApp_row st id app :
  GetApp st id = Ok app ->
  exists r, apps st !! id = Some r /\ app = appOfRow id r.
Proof.
  unfold GetApp. destruct (storeFaults st CallGetApp); [discriminate|].
  destruct (apps st !! id) as [r|]; [|discriminate].
  intros [= <-]. eauto.
Qed.

(** C4.  Saving a snapshot config with auto-scheduling off, with a valid
    retention and a store that answers, succeeds, leaves the workload
    with the empty string as stored cron expression and with no pending
    snapshot request, and keeps the pending requests of every other
    workload.  This holds for applications and for the instance (the
    first cluster), whether or not the workload was enabled before. *)
Theorem disabling_clears_schedule_and_purges :
  (forall now id req st app retention,
     storeUp st ->
     GetApp st (ReqAppID req) = Ok app ->
     FormatTTL (ReqInputValue req) (ReqInputTimeUnit req) = Ok retention ->
     ReqAutoEnabled req = false ->
     snd (SaveSnapshotConfig now id (Some req) st) = JSON StatusOK saved /\
     appSchedules (fst (SaveSnapshotConfig now id (Some req) st)) !! ID app = Some "" /\
     pendingOf (ID app)
       (scheduledSnapshots (fst (SaveSnapshotConfig now id (Some req) st))) = [] /\
     (forall o, o <> ID app ->
        pendingOf o (scheduledSnapshots (fst (SaveSnapshotConfig now id (Some req) st)))
        = pendingOf o (scheduledSnapshots st))) /\
  (forall now id req st c rest retention,
     storeUp st ->
     ListClusters st = Ok (c :: rest) ->
     FormatTTL (IReqInputValue req) (IReqInputTimeUnit req) = Ok retention ->
     IReqAutoEnabled req = false ->
     snd (SaveInstanceSnapshotConfig now id (Some req) st) = JSON StatusOK saved /\
     head (clusterSchedules (fst (SaveInstanceSnapshotConfig now id (Some req) st)))
     = Some (ClusterID c, "") /\
     pendingOf (ClusterID c)
       (scheduledInstanceSnapshots (fst (SaveInstanceSnapshotConfig now id (Some req) st)))
     = [] /\
     (forall o, o <> ClusterID c ->
        pendingOf o
          (scheduledInstanceSnapshots (fst (SaveInstanceSnapshotConfig now id (Some req) st)))
        = pendingOf o (scheduledInstanceSnapshots st))).
Proof.
  split.
  - intros now id req st app retention Hup Hget Hfmt Hauto.
    unfold Handlers.SaveSnapshotConfig. rewrite Hget, Hfmt, Hauto.
    destruct (ttl_step_app st app retention Hup) as (st1 & -> & Hup1 & Hpend & Hsched).
    simpl. unfold SetSnapshotSchedule, DeletePendingScheduledSnapshots.
    rewrite !storeCall_up by (try assumption; exact Hup1). simpl.
    split; [reflexivity|]. rewrite Hpend. split; [|split].
    + unfold appSchedules. simpl. rewrite lookup_fmap, lookup_alter_eq.
      apply GetApp_row in Hget as (r & Hr & ->). simpl.
      assert (Hr1 : is_Some (apps st1 !! ReqAppID req)).
      { assert (H : appSchedules st1 !! ReqAppID req = appSchedules st !! ReqAppID req)
          by now rewrite Hsched.
        unfold appSchedules in H. rewrite !lookup_fmap, Hr in H.
        destruct (apps st1 !! ReqAppID req); [eauto | discriminate]. }
      destruct Hr1 as [r1 ->]. reflexivity.
    + apply pendingOf_purged.
    + intros o Ho. now apply pendingOf_purged_other.
  - intros now id req st c rest retention Hup Hlist Hfmt Hauto.
    unfold Handlers.SaveInstanceSnapshotConfig. rewrite Hlist, Hfmt, Hauto.
    destruct (ttl_step_cluster st c retention Hup) as (st1 & -> & Hup1 & Hpend & Hsched).
    simpl. unfold SetInstanceSnapshotSchedule, DeletePendingScheduledInstanceSnapshots.
    rewrite !storeCall_up by (try assumption; exact Hup1). simpl.
    split; [reflexivity|]. rewrite Hpend. split; [|split].
    + assert (Hhead : head (clusterSchedules st1)
                      = Some (ClusterID c, ClusterSnapshotSchedule c)).
      { rewrite Hsched. unfold ListClusters in Hlist.
        destruct (storeFaults st CallListClusters); [discriminate|].
        injection Hlist as Hl. unfold clusterSchedules. now rewrite Hl. }
      unfold clusterSchedules in *. simpl.
      destruct (clusters st1) as [|c1 l1]; [discriminate|].
      simpl in *. injection Hhead as Hid _. rewrite Hid, String.eqb_refl.
      reflexivity.
    + apply pendingOf_purged.
    + intros o Ho. now apply pendingOf_purged_other.
Qed.

(** C2.  With auto-scheduling on, a valid cron expression C, a valid
    retention and a store that answers, saving succeeds and: if C differs
    from the stored schedule S, the pending requests of the workload are
    deleted and exactly one is created, with the identifier drawn for it
    and the time [Next C now], so that it is the only pending request of
    the workload, those of other workloads are kept, and C is stored; if
    C equals S, the pending requests are as before.  This holds for
    applications and for the instance (the first cluster). *)
Theorem new_schedule_requeues_one_request :
  (forall now id req st app retention cronSchedule,
     storeUp st ->
     GetApp st (ReqAppID req) = Ok app ->
     FormatTTL (ReqInputValue req) (ReqInputTimeUnit req) = Ok retention ->
     ReqAutoEnabled req = true ->
     ParseStandard (ReqSchedule req) = Ok cronSchedule ->
     snd (SaveSnapshotConfig now id (Some req) st) = JSON StatusOK saved /\
     (ReqSchedule req <> SnapshotSchedule app ->
        scheduledSnapshots (fst (SaveSnapshotConfig now id (Some req) st))
        = (List.filter (notOwnedBy (ID app)) (scheduledSnapshots st) ++
           [{| SnapshotID := id; OwnerID := ID app;
               ScheduledTimestamp := Next cronSchedule now |}])%list /\
        pendingOf (ID app)
          (scheduledSnapshots (fst (SaveSnapshotConfig now id (Some req) st)))
        = [{| SnapshotID := id; OwnerID := ID app;
              ScheduledTimestamp := Next cronSchedule now |}] /\
        (forall o, o <> ID app ->
           pendingOf o (scheduledSnapshots (fst (SaveSnapshotConfig now id (Some req) st)))
           = pendingOf o (scheduledSnapshots st)) /\
        appSchedules (fst (SaveSnapshotConfig now id (Some req) st)) !! ID app
        = Some (ReqSchedule req)) /\
     (ReqSchedule req = SnapshotSchedule app ->
        scheduledSnapshots (fst (SaveSnapshotConfig now id (Some req) st))
        = scheduledSnapshots st)) /\
  (forall now id req st c rest retention cronSchedule,
     storeUp st ->
     ListClusters st = Ok (c :: rest) ->
     FormatTTL (IReqInputValue req) (IReqInputTimeUnit req) = Ok retention ->
     IReqAutoEnabled req = true ->
     ParseStandard (IReqSchedule req) = Ok cronSchedule ->
     snd (SaveInstanceSnapshotConfig now id (Some req) st) = JSON StatusOK saved /\
     (IReqSchedule req <> ClusterSnapshotSchedule c ->
        scheduledInstanceSnapshots (fst (SaveInstanceSnapshotConfig now id (Some req) st))
        = (List.filter (notOwnedBy (ClusterID c)) (scheduledInstanceSnapshots st) ++
           [{| SnapshotID := id; OwnerID := ClusterID c;
               ScheduledTimestamp := Next cronSchedule now |}])%list /\
        pendingOf (ClusterID c)
          (scheduledInstanceSnapshots (fst (SaveInstanceSnapshotConfig now id (Some req) st)))
        = [{| SnapshotID := id; OwnerID := ClusterID c;
              ScheduledTimestamp := Next cronSchedule now |}] /\
        (forall o, o <> ClusterID c ->
           pendingOf o
             (scheduledInstanceSnapshots (fst (SaveInstanceSnapshotConfig now id (Some req) st)))
           = pendingOf o (scheduledInstanceSnapshots st)) /\
        head (clusterSchedules (fst (SaveInstanceSnapshotConfig now id (Some req) st)))
        = Some (ClusterID c, IReqSchedule req)) /\
     (IReqSchedule req = ClusterSnapshotSchedule c ->
        scheduledInstanceSnapshots (fst (SaveInstanceSnapshotConfig now id (Some req) st))
        = scheduledInstanceSnapshots st)).
Proof.
  split.
  - intros now id req st app retention cronSchedule Hup Hget Hfmt Hauto Hparse.
    unfold Handlers.SaveSnapshotConfig. rewrite Hget, Hfmt, Hauto, Hparse.
    destruct (ttl_step_app st app retention Hup) as (st1 & -> & Hup1 & Hpend & Hsched).
    simpl.
    destruct (String.eqb_spec (ReqSchedule req) (SnapshotSchedule app)) as [Heq|Hne]; simpl.
    + split; [reflexivity|]. split; [contradiction | intros _; exact Hpend].
    + unfold DeletePendingScheduledSnapshots, SetSnapshotSchedule, CreateScheduledSnapshot.
      rewrite !storeCall_up by (try assumption; exact Hup1). simpl.
      split; [reflexivity|]. split; [intros _ | contradiction].
      rewrite Hpend. split; [reflexivity|]. split; [|split].
      * rewrite pendingOf_app, pendingOf_purged. unfold pendingOf. simpl.
        now rewrite String.eqb_refl.
      * intros o Ho. rewrite pendingOf_app, pendingOf_purged_other by assumption.
        unfold pendingOf at 2. simpl.
        destruct (String.eqb_spec (ID app) o); [congruence|]. apply List.app_nil_r.
      * unfold appSchedules. simpl. rewrite lookup_fmap, lookup_alter_eq.
        apply GetApp_row in Hget as (r & Hr & ->). simpl.
        assert (H : appSchedules st1 !! ReqAppID req = appSchedules st !! ReqAppID req)
          by now rewrite Hsched.
        unfold appSchedules in H. rewrite !lookup_fmap, Hr in H.
        destruct (apps st1 !! ReqAppID req); [reflexivity | discriminate].
  - intros now id req st c rest retention cronSchedule Hup Hlist Hfmt Hauto Hparse.
    unfold Handlers.SaveInstanceSnapshotConfig. rewrite Hlist, Hfmt, Hauto, Hparse.
    destruct (ttl_step_cluster st c retention Hup) as (st1 & -> & Hup1 & Hpend & Hsched).
    simpl.
    destruct (String.eqb_spec (IReqSchedule req) (ClusterSnapshotSchedule c)) as [Heq|Hne];
      simpl.
    + split; [reflexivity|]. split; [contradiction | intros _; exact Hpend].
    + unfold DeletePendingScheduledInstanceSnapshots, SetInstanceSnapshotSchedule,
        CreateScheduledInstanceSnapshot.
      rewrite !storeCall_up by (try assumption; exact Hup1). simpl.
      split; [reflexivity|]. split; [intros _ | contradiction].
      rewrite Hpend. split; [reflexivity|]. split; [|split].
      * rewrite pendingOf_app, pendingOf_purged. unfold pendingOf. simpl.
        now rewrite String.eqb_refl.
      * intros o Ho. rewrite pendingOf_app, pendingOf_purged_other by assumption.
        unfold pendingOf at 2. simpl.
        destruct (String.eqb_spec (ClusterID c) o); [congruence|]. apply List.app_nil_r.
      * assert (Hhead : head (clusterSchedules st1)
                        = Some (ClusterID c, ClusterSnapshotSchedule c)).
        { rewrite Hsched. unfold ListClusters in Hlist.
          destruct (storeFaults st CallListClusters); [discriminate|].
          injection Hlist as Hl. unfold clusterSchedules. now rewrite Hl. }
        unfold clusterSchedules in *. simpl.
        destruct (clusters st1) as [|c1 l1]; [discriminate|].
        simpl in *. injection Hhead as Hid _. rewrite Hid, String.eqb_refl.
        reflexivity.
Qed.

(** C3, amended.  A save with auto-scheduling on whose cron expression
    does not parse changes neither the stored schedule of any workload
    nor any pending snapshot request, and it is answered with a
    bad-request status whenever the workload is found and the store
    accepts the retention write.  This holds for applications and for the
    instance. *)
Theorem invalid_cron_keeps_schedule_and_pending :
  (forall now id req st err,
     ReqAutoEnabled req = true ->
     ParseStandard (ReqSchedule req) = Err err ->
     appSchedules (fst (SaveSnapshotConfig now id (Some req) st)) = appSchedules st /\
     clusterSchedules (fst (SaveSnapshotConfig now id (Some req) st)) = clusterSchedules st /\
     scheduledSnapshots (fst (SaveSnapshotConfig now id (Some req) st))
     = scheduledSnapshots st /\
     scheduledInstanceSnapshots (fst (SaveSnapshotConfig now id (Some req) st))
     = scheduledInstanceSnapshots st /\
     (forall app, GetApp st (ReqAppID req) = Ok app ->
        storeFaults st CallSetSnapshotTTL = None ->
        statusCode (snd (SaveSnapshotConfig now id (Some req) st)) = Some StatusBadRequest)) /\
  (forall now id req st err,
     IReqAutoEnabled req = true ->
     ParseStandard (IReqSchedule req) = Err err ->
     appSchedules (fst (SaveInstanceSnapshotConfig now id (Some req) st)) = appSchedules st /\
     clusterSchedules (fst (SaveInstanceSnapshotConfig now id (Some req) st))
     = clusterSchedules st /\
     scheduledSnapshots (fst (SaveInstanceSnapshotConfig now id (Some req) st))
     = scheduledSnapshots st /\
     scheduledInstanceSnapshots (fst (SaveInstanceSnapshotConfig now id (Some req) st))
     = scheduledInstanceSnapshots st /\
     (forall c rest, ListClusters st = Ok (c :: rest) ->
        storeFaults st CallSetInstanceSnapshotTTL = None ->
        statusCode (snd (SaveInstanceSnapshotConfig now id (Some req) st))
        = Some StatusBadRequest)).
Proof.
  split.
  - intros now id req st err Hauto Hparse. unfold Handlers.SaveSnapshotConfig.
    rewrite Hauto, Hparse.
    destruct (GetApp st (ReqAppID req)) as [app|e1]; [|simpl; repeat split; discriminate].
    destruct (FormatTTL _ _) as [retention|e2];
      [|simpl; repeat split; intros; reflexivity].
    destruct (negb (String.eqb (SnapshotTTL app) retention)).
    + unfold SetSnapshotTTL, storeCall.
      destruct (storeFaults st CallSetSnapshotTTL) as [e3|]; simpl.
      * repeat split; intros; congruence.
      * repeat split; try reflexivity. apply schedules_after_ttl.
    + simpl. repeat split; reflexivity.
  - intros now id req st err Hauto Hparse. unfold Handlers.SaveInstanceSnapshotConfig.
    rewrite Hauto, Hparse.
    destruct (ListClusters st) as [[|c rest]|e1]; try (simpl; repeat split; discriminate).
    destruct (FormatTTL _ _) as [retention|e2];
      [|simpl; repeat split; intros; reflexivity].
    destruct (negb (String.eqb (ClusterSnapshotTTL c) retention)).
    + unfold SetInstanceSnapshotTTL, storeCall.
      destruct (storeFaults st CallSetInstanceSnapshotTTL) as [e3|]; simpl.
      * repeat split; intros; congruence.
      * repeat split; try reflexivity. apply cluster_schedules_after_ttl.
    + simpl. repeat split; reflexivity.
Qed.

End Handlers.

Import Fixture.

Lemma store0_up : storeUp store0.
Proof. intros k. reflexivity. Qed.

Lemma unset_config_reads_as_defaults_witness :
  GetAppFromSlug store0 "fresh"
  = Ok {| ID := "app-2"; Slug := "fresh"; SnapshotTTL := ""; SnapshotSchedule := "" |} /\
  (exists config,
     GetSnapshotConfig parseTTL "fresh" store0 = JSON StatusOK config /\
     TTl config = {| InputValue := "1"; InputTimeUnit := "month"; Converted := "720h" |}) /\
  (exists config,
     GetSnapshotConfig parseTTL "fresh" store0 = JSON StatusOK config /\
     AutoSchedule config = {| Schedule := "0 0 * * MON" |} /\
     AutoEnabled config = false) /\
  (exists config,
     GetInstanceSnapshotConfig parseTTL storeFresh = JSON StatusOK config /\
     AutoSchedule config = {| Schedule := "0 0 * * MON" |} /\
     AutoEnabled config = false).
Proof.
  assert (Hget : GetAppFromSlug store0 "fresh"
                 = Ok {| ID := "app-2"; Slug := "fresh"; SnapshotTTL := "";
                         SnapshotSchedule := "" |}) by (vm_compute; reflexivity).
  split; [exact Hget|].
  destruct (unset_config_reads_as_defaults parseTTL) as [Happ Hinstance].
  destruct (Happ store0 "fresh" _ Hget) as [Httl Hschedule].
  split; [apply Httl; reflexivity|].
  split; [apply Hschedule; [reflexivity | left; reflexivity]|].
  apply (proj2 (Hinstance storeFresh _ [] eq_refl)).
  - reflexivity.
  - left. reflexivity.
Defined.

Lemma disabling_clears_schedule_and_purges_witness :
  appSchedules store0 !! "app-1" = Some "0 0 * * MON" /\
  pendingOf "app-1" (scheduledSnapshots store0) = [pendingX] /\
  snd (SaveSnapshotConfig schedule parseStandard next formatTTL 1000000 "new"
         (Some (saveRequest "1" "0 0 * * MON" false)) store0) = JSON StatusOK saved /\
  appSchedules (fst (SaveSnapshotConfig schedule parseStandard next formatTTL 1000000 "new"
                       (Some (saveRequest "1" "0 0 * * MON" false)) store0)) !! "app-1"
  = Some "" /\
  pendingOf "app-1"
    (scheduledSnapshots (fst (SaveSnapshotConfig schedule parseStandard next formatTTL
                                1000000 "new"
                                (Some (saveRequest "1" "0 0 * * MON" false)) store0))) = [] /\
  (forall o, o <> "app-1" ->
     pendingOf o
       (scheduledSnapshots (fst (SaveSnapshotConfig schedule parseStandard next formatTTL
                                   1000000 "new"
                                   (Some (saveRequest "1" "0 0 * * MON" false)) store0)))
     = pendingOf o (scheduledSnapshots store0)) /\
  snd (SaveInstanceSnapshotConfig schedule parseStandard next formatTTL 1000000 "new"
         (Some (saveInstanceRequest "1" "0 0 * * MON" false)) store0) = JSON StatusOK saved /\
  scheduledInstanceSnapshots
    (fst (SaveInstanceSnapshotConfig schedule parseStandard next formatTTL 1000000 "new"
            (Some (saveInstanceRequest "1" "0 0 * * MON" false)) store0)) = [].
Proof.
  split; [vm_compute; reflexivity|]. split; [vm_compute; reflexivity|].
  destruct (disabling_clears_schedule_and_purges schedule parseStandard next formatTTL)
    as [Happ Hinstance].
  destruct (Happ 1000000 "new" (saveRequest "1" "0 0 * * MON" false) store0
              {| ID := "app-1"; Slug := "sentry"; SnapshotTTL := "168h";
                 SnapshotSchedule := "0 0 * * MON" |} "720h"
              store0_up eq_refl eq_refl eq_refl) as (Hok & Hcleared & Hpurged & Hothers).
  split; [exact Hok|]. split; [exact Hcleared|]. split; [exact Hpurged|].
  split; [exact Hothers|].
  destruct (Hinstance 1000000 "new" (saveInstanceRequest "1" "0 0 * * MON" false) store0
              _ [] "720h" store0_up eq_refl eq_refl eq_refl) as (Hiok & _).
  split; [exact Hiok|]. vm_compute. reflexivity.
Defined.

Lemma new_schedule_requeues_one_request_witness :
  parseStandard "@daily" = Ok EveryDay /\
  "@daily" <> "0 0 * * MON" /\
  snd (SaveSnapshotConfig schedule parseStandard next formatTTL 1000000 "new"
         (Some (saveRequest "1" "@daily" true)) store0) = JSON StatusOK saved /\
  scheduledSnapshots (fst (SaveSnapshotConfig schedule parseStandard next formatTTL 1000000 "new"
                             (Some (saveRequest "1" "@daily" true)) store0))
  = [pendingOther;
     {| SnapshotID := "new"; OwnerID := "app-1"; ScheduledTimestamp := 1036800 |}].
Proof.
  assert (Hne : "@daily" <> "0 0 * * MON") by discriminate.
  split; [reflexivity|]. split; [exact Hne|].
  destruct (proj1 (new_schedule_requeues_one_request schedule parseStandard next formatTTL)
              1000000 "new" (saveRequest "1" "@daily" true) store0
              {| ID := "app-1"; Slug := "sentry"; SnapshotTTL := "168h";
                 SnapshotSchedule := "0 0 * * MON" |} "720h" EveryDay
              store0_up eq_refl eq_refl eq_refl eq_refl) as (Hok & Hnew & _).
  split; [exact Hok|].
  destruct (Hnew Hne) as (Hlist & _). exact Hlist.
Defined.

Lemma invalid_cron_keeps_schedule_and_pending_witness :
  (exists err, parseStandard "not-a-cron" = Err err) /\
  appSchedules (fst (SaveSnapshotConfig schedule parseStandard next formatTTL 1000000 "new"
                       (Some (saveRequest "1" "not-a-cron" true)) store0))
  = appSchedules store0 /\
  scheduledSnapshots (fst (SaveSnapshotConfig schedule parseStandard next formatTTL 1000000 "new"
                             (Some (saveRequest "1" "not-a-cron" true)) store0))
  = scheduledSnapshots store0 /\
  statusCode (snd (SaveSnapshotConfig schedule parseStandard next formatTTL 1000000 "new"
                     (Some (saveRequest "1" "not-a-cron" true)) store0))
  = Some StatusBadRequest.
Proof.
  split; [eexists; reflexivity|].
  destruct (proj1 (invalid_cron_keeps_schedule_and_pending schedule parseStandard next formatTTL)
              1000000 "new" (saveRequest "1" "not-a-cron" true) store0
              (ErrNew "Expected exactly 5 fields") eq_refl eq_refl)
    as (Hs & _ & Hp & _ & Hcode).
  split; [exact Hs|]. split; [exact Hp|].
  apply (Hcode {| ID := "app-1"; Slug := "sentry"; SnapshotTTL := "168h";
                  SnapshotSchedule := "0 0 * * MON" |}); reflexivity.
Defined.

(** C3, as stated, fails twice.  With auto-scheduling on, a save whose
    cron expression does not parse is rejected only after the new
    retention has been written; with auto-scheduling off the cron
    expression is not looked at: the save succeeds, clears the schedule
    and purges the pending requests. *)
Lemma invalid_cron_save_changes_stored_state :
  (exists err, parseStandard "not-a-cron" = Err err) /\
  snd (SaveSnapshotConfig schedule parseStandard next formatTTL 1000000 "new"
         (Some (saveRequest "1" "not-a-cron" true)) store0)
  = JSON StatusBadRequest (failed "Invalid cron schedule expression: not-a-cron") /\
  RowSnapshotTTL <$> apps store0 !! "app-1" = Some "168h" /\
  RowSnapshotTTL <$>
    apps (fst (SaveSnapshotConfig schedule parseStandard next formatTTL 1000000 "new"
                 (Some (saveRequest "1" "not-a-cron" true)) store0)) !! "app-1"
  = Some "720h" /\
  snd (SaveSnapshotConfig schedule parseStandard next formatTTL 1000000 "new"
         (Some (saveRequest "1" "not-a-cron" false)) store0)
  = JSON StatusOK saved /\
  appSchedules store0 !! "app-1" = Some "0 0 * * MON" /\
  appSchedules (fst (SaveSnapshotConfig schedule parseStandard next formatTTL 1000000 "new"
                       (Some (saveRequest "1" "not-a-cron" false)) store0)) !! "app-1"
  = Some "" /\
  pendingOf "app-1" (scheduledSnapshots store0) = [pendingX] /\
  pendingOf "app-1"
    (scheduledSnapshots (fst (SaveSnapshotConfig schedule parseStandard next formatTTL
                                1000000 "new"
                                (Some (saveRequest "1" "not-a-cron" false)) store0))) = [].
Proof.
  split; [eexists; reflexivity|].
  repeat split; vm_compute; reflexivity.
Qed.

End ScheduleFacts.

(* ===================================================================== *)
(** ** Reconfiguring the NFS-backed store *)
(* ===================================================================== *)

Module NFSFacts.
Import Snapshot Handlers Cli Notions Shapes.

Lemma NFSConfig_eqb_eq a b : NFSConfig_eqb a b = true <-> a = b.
Proof.
  destruct a as [p1 s1], b as [p2 s2]. unfold NFSConfig_eqb. simpl.
  rewrite andb_true_iff, !String.eqb_eq. split; [intros [-> ->] | intros [= -> ->]]; auto.
Qed.

Lemma NFSConfig_eqb_neq a b : a <> b -> NFSConfig_eqb a b = false.
Proof.
  intros Hne. destruct (NFSConfig_eqb a b) eqn:E; [|reflexivity].
  now apply NFSConfig_eqb_eq in E.
Qed.

(** After a successful deploy the backend records the requested share. *)
Lemma DeployNFSMinio_records o ro c0 c :
  DeployNFSMinio o ro c0 = (c, Value tt) ->
  exists g, nfsBackend c
            = Some {| RecordedConfig := DeployNFSConfig o; CredentialsGeneration := g |}.
Proof.
  unfold DeployNFSMinio. destruct (nfsBackend c0) as [prior|] eqn:Hprior.
  - destruct (NFSConfig_eqb (RecordedConfig prior) (DeployNFSConfig o)) eqn:E.
    + intros [= <-]. apply NFSConfig_eqb_eq in E. rewrite Hprior, <- E.
      destruct prior. eauto.
    + destruct (ForceReset o); intros [= <-]; simpl; eauto.
  - intros [= <-]. simpl. eauto.
Qed.

Lemma lowerAscii_y a : lowerAscii a = "y"%char <-> a = "y"%char \/ a = "Y"%char.
Proof.
  destruct a as [[] [] [] [] [] [] [] []]; vm_compute;
    (split; [intros H; try discriminate H; auto | intros [H|H]; try discriminate H; auto]).
Qed.

Lemma lowerAscii_n a : lowerAscii a = "n"%char <-> a = "n"%char \/ a = "N"%char.
Proof.
  destruct a as [[] [] [] [] [] [] [] []]; vm_compute;
    (split; [intros H; try discriminate H; auto | intros [H|H]; try discriminate H; auto]).
Qed.

Lemma ToLower_empty s : ToLower s = "" -> s = "".
Proof. destruct s; [reflexivity | discriminate]. Qed.

(** [strings.ToLower(resp) == "y"] holds for y and Y only, and
    [strings.ToLower(resp) == "n"] for n and N only. *)
Lemma ToLower_is_y s :
  String.eqb (ToLower s) "y" = String.eqb s "y" || String.eqb s "Y".
Proof.
  destruct (String.eqb_spec (ToLower s) "y") as [H|H].
  - destruct s as [|a s]; [discriminate|]. simpl in H. injection H as Ha Hs.
    apply ToLower_empty in Hs. subst s. apply lowerAscii_y in Ha as [-> | ->]; reflexivity.
  - destruct (String.eqb_spec s "y") as [->|_]; [now contradiction H|].
    destruct (String.eqb_spec s "Y") as [->|_]; [now contradiction H | reflexivity].
Qed.

Lemma ToLower_is_n s :
  String.eqb (ToLower s) "n" = String.eqb s "n" || String.eqb s "N".
Proof.
  destruct (String.eqb_spec (ToLower s) "n") as [H|H].
  - destruct s as [|a s]; [discriminate|]. simpl in H. injection H as Ha Hs.
    apply ToLower_empty in Hs. subst s. apply lowerAscii_n in Ha as [-> | ->]; reflexivity.
  - destruct (String.eqb_spec s "n") as [->|_]; [now contradiction H|].
    destruct (String.eqb_spec s "N") as [->|_]; [now contradiction H | reflexivity].
Qed.

Lemma promptLoop_skips junk todo :
  Forall (fun a => settles a = false) junk ->
  promptLoop (junk ++ todo)%list = promptLoop todo.
Proof.
  induction 1 as [|a junk Ha _ IH]; [reflexivity|].
  cbn [app promptLoop]. rewrite ToLower_is_n, ToLower_is_y.
  unfold settles in Ha.
  destruct (Interrupted a), (String.eqb (Resp a) "y"), (String.eqb (Resp a) "Y"),
    (String.eqb (Resp a) "n"), (String.eqb (Resp a) "N"); try discriminate Ha.
  exact IH.
Qed.

Lemma promptForNFSReset_first warningMsg s junk a rest :
  answers s = (junk ++ a :: rest)%list ->
  Forall (fun x => settles x = false) junk ->
  settles a = true ->
  promptForNFSReset warningMsg s
  = if confirms a
    then (logged (ActionWithoutSpinner "")
            (withAnswers rest (logged (ColoredInfo (String "010" warningMsg)) s)),
          inl true)
    else (withAnswers rest (logged (ColoredInfo (String "010" warningMsg)) s),
          inr (Exited (-1))).
Proof.
  intros Hanswers Hjunk Ha.
  unfold promptForNFSReset. simpl answers. rewrite Hanswers, promptLoop_skips by assumption.
  cbn [promptLoop]. rewrite ToLower_is_n, ToLower_is_y.
  unfold settles in Ha. unfold confirms.
  destruct (Interrupted a); [reflexivity|]. simpl in *.
  destruct (String.eqb_spec (Resp a) "n") as [Hn|_].
  { rewrite Hn. reflexivity. }
  destruct (String.eqb_spec (Resp a) "N") as [Hn|_].
  { rewrite Hn. reflexivity. }
  simpl. rewrite !orb_false_r in Ha. now rewrite Ha.
Qed.

Lemma promptForNFSReset_unsettled warningMsg s :
  Forall (fun x => settles x = false) (answers s) ->
  promptForNFSReset warningMsg s
  = (withAnswers [] (logged (ColoredInfo (String "010" warningMsg)) s), inr Blocked).
Proof.
  intros Hall. unfold promptForNFSReset. simpl answers.
  rewrite <- (List.app_nil_r (answers s)), promptLoop_skips by assumption.
  reflexivity.
Qed.

Section Callers.
Variable IsKurl : Cluster -> bool.
Variable ImageRewriteKotsadmRegistry :
  string -> KotsadmOptions -> string -> bool ->
  result (string * list LocalObjectReference).
Variable EnsurePrivateKotsadmRegistrySecret :
  string -> KotsadmOptions -> Secrets -> result Secrets.
Variable IsKotsadmClusterScoped : Cluster -> bool.
Variable IsOpenShift : Cluster -> bool.
Variable GetKotsadmOptionsFromCluster : string -> Cluster -> result KotsadmOptions.
Variable InstallVeleroFromStoreNFS : string -> KotsadmOptions -> bool -> M unit.
Variable ConfigureStore : ConfigureStoreOptions -> M unit.
Variable WaitForVeleroReady : M unit.
Variable validateNamespace : string -> option error.
Variable getRegistryConfig : Flags -> result KotsadmOptions.
Variable NFSStore : Type.
Variable BuildNFSStore : string -> Cluster -> result NFSStore.
Variable InstallVeleroFromNFSStore : NFSStore -> string -> KotsadmOptions -> bool -> M unit.
Variable ConfigureVeleroDeployment : string -> KotsadmOptions -> M unit.

Local Abbreviation ConfigureNFSSnapshots :=
  (ConfigureNFSSnapshots IsKurl ImageRewriteKotsadmRegistry EnsurePrivateKotsadmRegistrySecret
     IsKotsadmClusterScoped IsOpenShift GetKotsadmOptionsFromCluster
     InstallVeleroFromStoreNFS ConfigureStore WaitForVeleroReady).
Local Abbreviation BackupConfigureNFSCmd :=
  (BackupConfigureNFSCmd validateNamespace IsOpenShift getRegistryConfig NFSStore
     BuildNFSStore InstallVeleroFromNFSStore ConfigureVeleroDeployment ConfigureStore
     WaitForVeleroReady).
Local Abbreviation configureVelero :=
  (configureVelero NFSStore BuildNFSStore InstallVeleroFromNFSStore
     ConfigureVeleroDeployment ConfigureStore WaitForVeleroReady).

(** C1.  Let the self-hosted backend have been provisioned against A
    (a deploy with A succeeded) and let B differ from A.  Then
    (1) a deploy with B and [ForceReset = false] changes nothing and
        fails with a [ResetNFSError] that carries the description of the
        mismatch, and with [ForceReset = true] it succeeds and records B;
    (2) the handler [ConfigureNFSSnapshots], once past its own checks,
        answers that request with the conflict status and the
        description as error text;
    (3) the command [BackupConfigureNFSCmd] shows the description and
        asks for confirmation.  Answers that are neither an interrupt
        nor one of y, Y, n and N are asked again.  The first answer that
        counts decides: on y or Y the command deploys again with
        [ForceReset = true] and goes on from the reset backend; on n, N
        or an interrupt it exits with status -1 and the backend is as it
        was;
    (4) with no answer that counts the command waits at the prompt and
        the backend is as it was: the reset is never applied without a
        yes. *)
Theorem reset_conflict_is_surfaced_for_confirmation
    (A B : NFSConfig) (optsA : NFSDeployOptions) (roA : KotsadmOptions) (c0 c : Cluster) :
  A <> B ->
  DeployNFSConfig optsA = A ->
  DeployNFSMinio optsA roA c0 = (c, Value tt) ->
  (forall ns openshift wait ro,
     DeployNFSMinio {| DeployNamespace := ns; Snapshot.IsOpenShift := openshift;
                       ForceReset := false; DeployNFSConfig := B; Wait := wait |} ro c
     = (c, Raise (ErrResetNFS (resetNFSWarning A B))) /\
     snd (DeployNFSMinio {| DeployNamespace := ns; Snapshot.IsOpenShift := openshift;
                            ForceReset := true; DeployNFSConfig := B; Wait := wait |} ro c)
     = Value tt /\
     RecordedConfig <$>
       nfsBackend (fst (DeployNFSMinio
                          {| DeployNamespace := ns; Snapshot.IsOpenShift := openshift;
                             ForceReset := true; DeployNFSConfig := B; Wait := wait |} ro c))
     = Some B) /\
  (forall namespace ro,
     faults c CallClientset = None ->
     IsKotsadmClusterScoped c = true ->
     GetKotsadmOptionsFromCluster namespace c = Ok ro ->
     ConfigureNFSSnapshots namespace
       (Some {| ReqNFSOptions := {| OptPath := Path B; OptServer := Server B;
                                    OptForceReset := false |} |}) c
     = (c, JSON StatusConflict (nfsResponse false (resetNFSWarning A B) false))) /\
  (forall v ro s junk a rest,
     cluster s = c ->
     FlagPath v = Path B -> FlagServer v = Server B ->
     Path B <> "" -> Server B <> "" ->
     validateNamespace (FlagNamespace v) = None ->
     faults c CallClientset = None ->
     getRegistryConfig v = Ok ro ->
     answers s = (junk ++ a :: rest)%list ->
     Forall (fun x => settles x = false) junk ->
     settles a = true ->
     BackupConfigureNFSCmd v s
     = if confirms a
       then
         configureVelero v ro
           {| cluster :=
                fst (DeployNFSMinio
                       {| DeployNamespace := FlagNamespace v;
                          Snapshot.IsOpenShift := IsOpenShift c;
                          ForceReset := true; DeployNFSConfig := B; Wait := true |} ro c);
              log := (log s ++
                      [ActionWithSpinner "Setting up NFS Minio";
                       FinishSpinnerWithError;
                       ColoredInfo (String "010" (resetNFSWarning A B));
                       ActionWithoutSpinner "";
                       ActionWithSpinner "Re-configuring NFS Minio";
                       FinishSpinner])%list;
              answers := rest |}
       else
         ({| cluster := c;
             log := (log s ++
                     [ActionWithSpinner "Setting up NFS Minio";
                      FinishSpinnerWithError;
                      ColoredInfo (String "010" (resetNFSWarning A B))])%list;
             answers := rest |},
          Exited (-1))) /\
  (forall v ro s,
     cluster s = c ->
     FlagPath v = Path B -> FlagServer v = Server B ->
     Path B <> "" -> Server B <> "" ->
     validateNamespace (FlagNamespace v) = None ->
     faults c CallClientset = None ->
     getRegistryConfig v = Ok ro ->
     Forall (fun x => settles x = false) (answers s) ->
     BackupConfigureNFSCmd v s
     = ({| cluster := c;
           log := (log s ++
                   [ActionWithSpinner "Setting up NFS Minio";
                    FinishSpinnerWithError;
                    ColoredInfo (String "010" (resetNFSWarning A B))])%list;
           answers := [] |},
        Blocked)).
Proof.
  intros Hne HA Hdeploy.
  destruct (DeployNFSMinio_records _ _ _ _ Hdeploy) as [g Hrec]. rewrite HA in Hrec.
  assert (Hplain : forall ns openshift wait ro,
             DeployNFSMinio {| DeployNamespace := ns; Snapshot.IsOpenShift := openshift;
                               ForceReset := false; DeployNFSConfig := B; Wait := wait |} ro c
             = (c, Raise (ErrResetNFS (resetNFSWarning A B)))).
  { intros. unfold DeployNFSMinio. rewrite Hrec. simpl.
    now rewrite (NFSConfig_eqb_neq _ _ Hne). }
  assert (Hforce : forall ns openshift wait ro,
             DeployNFSMinio {| DeployNamespace := ns; Snapshot.IsOpenShift := openshift;
                               ForceReset := true; DeployNFSConfig := B; Wait := wait |} ro c
             = (setNFSBackend c (Some {| RecordedConfig := B;
                                         CredentialsGeneration := S g |}), Value tt)).
  { intros. unfold DeployNFSMinio. rewrite Hrec. simpl.
    now rewrite (NFSConfig_eqb_neq _ _ Hne). }
  split; [|split; [|split]].
  - intros. rewrite Hplain, Hforce. auto.
  - intros namespace ro Hcs Hscoped Hopts.
    unfold Handlers.ConfigureNFSSnapshots, configureNFSMinio.
    rewrite Hcs, Hscoped, Hopts. simpl. destruct B as [pB sB]. simpl.
    now rewrite Hplain.
  - intros v ro s junk a rest Hc Hpath Hserver HpathB HserverB Hns Hcs Hro Hans Hjunk Ha.
    unfold Cli.BackupConfigureNFSCmd. rewrite Hns.
    apply String.eqb_neq in HpathB, HserverB.
    rewrite Hpath, Hserver, HpathB, HserverB, Hc, Hcs, Hro.
    unfold onCluster. simpl. rewrite Hc.
    destruct B as [pB sB]. simpl. rewrite Hplain. simpl.
    erewrite promptForNFSReset_first; [|exact Hans|exact Hjunk|exact Ha].
    destruct (confirms a).
    + simpl. rewrite ?Hc, Hforce. simpl. unfold logged, withCluster, withAnswers. simpl.
      rewrite <- !List.app_assoc. reflexivity.
    + unfold logged, withCluster, withAnswers. simpl. rewrite ?Hc.
      rewrite <- !List.app_assoc. reflexivity.
  - intros v ro s Hc Hpath Hserver HpathB HserverB Hns Hcs Hro Hall.
    unfold Cli.BackupConfigureNFSCmd. rewrite Hns.
    apply String.eqb_neq in HpathB, HserverB.
    rewrite Hpath, Hserver, HpathB, HserverB, Hc, Hcs, Hro.
    unfold onCluster. simpl. rewrite Hc.
    destruct B as [pB sB]. simpl. rewrite Hplain. simpl.
    rewrite promptForNFSReset_unsettled by exact Hall.
    unfold logged, withCluster, withAnswers. simpl. rewrite ?Hc.
    rewrite <- !List.app_assoc. reflexivity.
Qed.

End Callers.

Import Fixture.

Lemma shares_differ : shareA <> shareB.
Proof. discriminate. Qed.

Lemma reset_conflict_is_surfaced_for_confirmation_witness :
  shareA <> shareB /\
  DeployNFSMinio deployA noRegistry installed = (onShareA, Value tt) /\
  ConfigureNFSSnapshots isKurl imageRewrite ensureSecret clusterScoped notOpenShift
    optionsInCluster installFromStoreNFS configureStore waitForVeleroReady
    "default" (Some (requestB false)) onShareA
  = (onShareA, JSON StatusConflict (nfsResponse false (resetNFSWarning shareA shareB) false)) /\
  BackupConfigureNFSCmd anyNamespace notOpenShift optionsFromFlags unit buildNFSStore
    installFromNFSStore configureVeleroDeployment configureStore waitForVeleroReady
    flagsB (terminal onShareA ["maybe"; "Y"; "n"])
  = configureVelero unit buildNFSStore installFromNFSStore configureVeleroDeployment
      configureStore waitForVeleroReady flagsB noRegistry
      {| cluster :=
           setNFSBackend onShareA
             (Some {| RecordedConfig := shareB; CredentialsGeneration := 1 |});
         log := [ActionWithSpinner "Setting up NFS Minio";
                 FinishSpinnerWithError;
                 ColoredInfo (String "010" (resetNFSWarning shareA shareB));
                 ActionWithoutSpinner "";
                 ActionWithSpinner "Re-configuring NFS Minio";
                 FinishSpinner];
         answers := [{| Resp := "n"; Interrupted := false |}] |} /\
  BackupConfigureNFSCmd anyNamespace notOpenShift optionsFromFlags unit buildNFSStore
    installFromNFSStore configureVeleroDeployment configureStore waitForVeleroReady
    flagsB (terminal onShareA ["maybe"; "n"; "y"])
  = ({| cluster := onShareA;
        log := [ActionWithSpinner "Setting up NFS Minio";
                FinishSpinnerWithError;
                ColoredInfo (String "010" (resetNFSWarning shareA shareB))];
        answers := [{| Resp := "y"; Interrupted := false |}] |},
     Exited (-1)) /\
  BackupConfigureNFSCmd anyNamespace notOpenShift optionsFromFlags unit buildNFSStore
    installFromNFSStore configureVeleroDeployment configureStore waitForVeleroReady
    flagsB (terminal onShareA ["maybe"; "yes"])
  = ({| cluster := onShareA;
        log := [ActionWithSpinner "Setting up NFS Minio";
                FinishSpinnerWithError;
                ColoredInfo (String "010" (resetNFSWarning shareA shareB))];
        answers := [] |},
     Blocked).
Proof.
  assert (Hdeploy : DeployNFSMinio deployA noRegistry installed = (onShareA, Value tt))
    by reflexivity.
  split; [exact shares_differ|]. split; [exact Hdeploy|].
  destruct (reset_conflict_is_surfaced_for_confirmation
              isKurl imageRewrite ensureSecret clusterScoped notOpenShift optionsInCluster
              installFromStoreNFS configureStore waitForVeleroReady
              anyNamespace optionsFromFlags unit buildNFSStore installFromNFSStore
              configureVeleroDeployment
              shareA shareB deployA noRegistry installed onShareA
              shares_differ eq_refl Hdeploy) as (_ & Hhandler & Hanswered & Hwaiting).
  split; [|split; [|split]].
  - apply (Hhandler "default" noRegistry); reflexivity.
  - apply (Hanswered flagsB noRegistry (terminal onShareA ["maybe"; "Y"; "n"])
             [{| Resp := "maybe"; Interrupted := false |}]
             {| Resp := "Y"; Interrupted := false |}
             [{| Resp := "n"; Interrupted := false |}]);
      try reflexivity; try discriminate.
    repeat constructor.
  - apply (Hanswered flagsB noRegistry (terminal onShareA ["maybe"; "n"; "y"])
             [{| Resp := "maybe"; Interrupted := false |}]
             {| Resp := "n"; Interrupted := false |}
             [{| Resp := "y"; Interrupted := false |}]);
      try reflexivity; try discriminate.
    repeat constructor.
  - apply (Hwaiting flagsB noRegistry (terminal onShareA ["maybe"; "yes"]));
      try reflexivity; try discriminate.
    repeat constructor.
Defined.

End NFSFacts.

(* ===================================================================== *)
(** ** The tokenizer on well-formed references *)
(* ===================================================================== *)

Module TokenizerFacts.
Import Regexp Snapshot Notions Shapes RegexpFacts.

Lemma append_cons a s t : String a s +:+ t = String a (s +:+ t).
Proof. reflexivity. Qed.

Lemma append_nil t : "" +:+ t = t.
Proof. reflexivity. Qed.

Lemma append_empty s : s +:+ "" = s.
Proof. induction s as [|a s IH]; [reflexivity|]. now rewrite append_cons, IH. Qed.

Lemma slen_append a rest : slen (a +:+ rest) = (slen a + slen rest)%nat.
Proof.
  induction a as [|x a IH]; [reflexivity|].
  rewrite append_cons. simpl. now rewrite IH.
Qed.

Lemma stake_append a rest : stake (slen a) (a +:+ rest) = a.
Proof.
  induction a as [|x a IH]; [now destruct rest|].
  rewrite append_cons. simpl. now rewrite IH.
Qed.

(** Reading [a] off the front of [a ++ rest] consumes [a]. *)
Lemma consumed_append a rest : consumed (a +:+ rest) rest = a.
Proof.
  unfold consumed. rewrite slen_append.
  replace (slen a + slen rest - slen rest)%nat with (slen a) by lia.
  apply stake_append.
Qed.

Lemma consumed_all s : consumed s "" = s.
Proof. rewrite <- (append_empty s) at 1. apply consumed_append. Qed.

Lemma allOf_Rest p s' s : Rest s' s -> allOf p s = true -> allOf p s' = true.
Proof.
  induction 1 as [|a s H IH]; [tauto|].
  simpl. intros Hs. apply andb_true_iff in Hs. tauto.
Qed.

Lemma allOf_append p a b : allOf p (a +:+ b) = allOf p a && allOf p b.
Proof.
  induction a as [|x a IH]; [reflexivity|].
  rewrite append_cons. simpl. now rewrite IH, andb_assoc.
Qed.

Lemma allOf_weaken (p q : ascii -> bool) s :
  (forall a, p a = true -> q a = true) -> allOf p s = true -> allOf q s = true.
Proof.
  intros Hpq. induction s as [|a s IH]; simpl; [reflexivity|].
  intros H. apply andb_true_iff in H as [Ha Hs].
  now rewrite (Hpq _ Ha), IH.
Qed.

(** A greedy [p+] that runs over all of [a] and cannot go further hands
    the rest to its continuation. *)
Lemma plus_class_run {R} p a rest (k : string -> option R) r :
  allOf p a = true -> a <> "" ->
  plus_class p rest k = None -> k rest = Some r ->
  plus_class p (a +:+ rest) k = Some r.
Proof.
  intros Ha Hne Hstop Hk. induction a as [|x a IH]; [congruence|].
  simpl in Ha. apply andb_true_iff in Ha as [Hx Ha].
  rewrite append_cons. cbn [plus_class]. rewrite Hx.
  destruct a as [|y a].
  - rewrite append_nil. now rewrite Hstop.
  - rewrite IH; [reflexivity | exact Ha | discriminate].
Qed.

Lemma plus_class_whole {R} p a (k : string -> option R) r :
  allOf p a = true -> a <> "" -> k "" = Some r -> plus_class p a k = Some r.
Proof.
  intros Ha Hne Hk. rewrite <- (append_empty a).
  now apply plus_class_run.
Qed.

(** A [p+] whose continuation fails on every remainder fails. *)
Lemma plus_class_fails {R} p s (k : string -> option R) :
  (forall s', Rest s' s -> k s' = None) -> plus_class p s k = None.
Proof.
  induction s as [|a s IH]; intros Hk; simpl; [reflexivity|].
  destruct (p a); [|reflexivity].
  rewrite IH.
  - apply Hk. repeat constructor.
  - intros s' Hs'. apply Hk. now constructor.
Qed.

Lemma separator_classes a :
  isAtOrColon a = true -> notAtColonSlash a = false /\ notSlash a = true.
Proof.
  unfold isAtOrColon, notAtColonSlash, notSlash. intros H.
  apply orb_true_iff in H as [H|H]; apply Ascii.eqb_eq in H; subst; split; reflexivity.
Qed.

Lemma name_class_no_slash a : notAtColonSlash a = true -> notSlash a = true.
Proof.
  unfold notAtColonSlash, notSlash. intros H.
  apply negb_true_iff, orb_false_iff in H as [_ H]. now rewrite H.
Qed.

(** An optional path component [(?:([^\/]+)\/)?] in front of a slash is
    taken whole when the rest of the expression matches after it. *)
Lemma component_taken {R} i comp rest c (k : string -> captures -> option R) r :
  allOf notSlash comp = true -> comp <> "" ->
  k rest (<[i := comp]> c) = Some r ->
  match_here (Opt (Cat (Cap i (Plus notSlash)) (Class isSlash)))
    (comp +:+ String "/" rest) c k = Some r.
Proof.
  intros Hcomp Hne Hk. cbn [match_here].
  rewrite (plus_class_run notSlash comp (String "/" rest) _ r); try assumption.
  - reflexivity.
  - reflexivity.
  - rewrite consumed_append. simpl. exact Hk.
Qed.

(** It is skipped when no slash is left in the text. *)
Lemma component_skipped {R} i s c (k : string -> captures -> option R) :
  allOf notSlash s = true ->
  match_here (Opt (Cat (Cap i (Plus notSlash)) (Class isSlash))) s c k = k s c.
Proof.
  intros Hs. cbn [match_here]. rewrite plus_class_fails; [reflexivity|].
  intros s' Hs'. pose proof (allOf_Rest _ _ _ Hs' Hs) as H.
  destruct s' as [|a s']; [reflexivity|].
  simpl in H. apply andb_true_iff in H as [Ha _].
  unfold notSlash in Ha. apply negb_true_iff in Ha.
  unfold isSlash. now rewrite Ha.
Qed.

(** The repository and the tag: [([^@:\/]+)(?:[@:](.+))]. *)
Lemma name_and_tag {R} name sep tag c (k : string -> captures -> option R) r :
  allOf notAtColonSlash name = true -> name <> "" ->
  isAtOrColon sep = true ->
  allOf dot tag = true -> tag <> "" ->
  k "" (<[4%nat := tag]> (<[3%nat := name]> c)) = Some r ->
  match_here (Cat (Cap 3 (Plus notAtColonSlash))
                (Cat (Class isAtOrColon) (Cap 4 (Plus dot))))
    (name +:+ String sep tag) c k = Some r.
Proof.
  intros Hname Hne Hsep Htag Hnt Hk. cbn [match_here].
  destruct (separator_classes _ Hsep) as [Hstop _].
  rewrite (plus_class_run notAtColonSlash name (String sep tag) _ r); try assumption.
  - reflexivity.
  - simpl. now rewrite Hstop.
  - rewrite consumed_append, Hsep.
    rewrite (plus_class_whole dot tag _ r); try assumption; [reflexivity|].
    now rewrite consumed_all.
Qed.

Lemma find_from_head n r s m : match_at n r s = Some m -> find_from n r s = Some m.
Proof. intros H. destruct s; simpl; now rewrite H. Qed.

Lemma submatch_of_match image m :
  match_at 4 dockerImageNameRegex image = Some m -> dockerImageNameSubmatch image = m.
Proof.
  intros H. unfold dockerImageNameSubmatch, FindStringSubmatch.
  now rewrite (find_from_head _ _ _ _ H).
Qed.

(** X1.  The tokenizer on a well-formed tagged reference.  Let a path
    component be a non-empty text without [/], a repository a non-empty
    text without [/], [@] and [:], a separator one of [@] and [:], and a
    tag a non-empty text without a line feed.  Then
    registry/namespace/repository, separator, tag is tokenized into the
    whole reference, the registry, the namespace, the repository and the
    tag; when the tag has no [/] either, namespace/repository gives the
    namespace in the first group and an empty second group, and a bare
    repository gives two empty groups.  The fifth entry is the tag in
    all three cases. *)
Theorem tagged_reference_is_split_at_its_separator
    (registry namespace repository tag : string) (sep : ascii) :
  allOf notSlash registry = true -> registry <> "" ->
  allOf notSlash namespace = true -> namespace <> "" ->
  allOf notAtColonSlash repository = true -> repository <> "" ->
  isAtOrColon sep = true ->
  allOf dot tag = true -> tag <> "" ->
  dockerImageNameSubmatch
    (registry +:+ String "/" (namespace +:+ String "/" (repository +:+ String sep tag)))
  = [registry +:+ String "/" (namespace +:+ String "/" (repository +:+ String sep tag));
     registry; namespace; repository; tag] /\
  (allOf notSlash tag = true ->
   dockerImageNameSubmatch (namespace +:+ String "/" (repository +:+ String sep tag))
   = [namespace +:+ String "/" (repository +:+ String sep tag);
      namespace; ""; repository; tag] /\
   dockerImageNameSubmatch (repository +:+ String sep tag)
   = [repository +:+ String sep tag; ""; ""; repository; tag]).
Proof.
  intros Hreg Hreg0 Hns Hns0 Hrepo Hrepo0 Hsep Htag Htag0.
  assert (Hshort : allOf notSlash tag = true ->
                   allOf notSlash (repository +:+ String sep tag) = true).
  { intros Hslash. rewrite allOf_append. simpl.
    rewrite (allOf_weaken _ _ _ name_class_no_slash Hrepo), Hslash.
    now destruct (separator_classes _ Hsep) as [_ ->]. }
  split; [|intros Hslash; split].
  - apply submatch_of_match. unfold match_at, dockerImageNameRegex.
    rewrite match_here_Cat.
    apply component_taken; try assumption. rewrite match_here_Cat.
    apply component_taken; try assumption.
    apply name_and_tag; try assumption.
    rewrite consumed_all. unfold submatches. simpl. now simplify_map_eq.
  - apply submatch_of_match. unfold match_at, dockerImageNameRegex.
    rewrite match_here_Cat.
    apply component_taken; try assumption. rewrite match_here_Cat.
    rewrite component_skipped by auto.
    apply name_and_tag; try assumption.
    rewrite consumed_all. unfold submatches. simpl. now simplify_map_eq.
  - apply submatch_of_match. unfold match_at, dockerImageNameRegex.
    rewrite match_here_Cat, component_skipped by auto.
    rewrite match_here_Cat, component_skipped by auto.
    apply name_and_tag; try assumption.
    rewrite consumed_all. unfold submatches. simpl. now simplify_map_eq.
Qed.

Lemma tagged_reference_is_split_at_its_separator_witness :
  dockerImageNameSubmatch "registry.example.com/velero/velero:v1.5.1"
  = ["registry.example.com/velero/velero:v1.5.1";
     "registry.example.com"; "velero"; "velero"; "v1.5.1"] /\
  dockerImageNameSubmatch "velero/velero:v1.5.1"
  = ["velero/velero:v1.5.1"; "velero"; ""; "velero"; "v1.5.1"] /\
  dockerImageNameSubmatch "velero:v1.5.1" = ["velero:v1.5.1"; ""; ""; "velero"; "v1.5.1"].
Proof.
  destruct (tagged_reference_is_split_at_its_separator
              "registry.example.com" "velero" "velero" "v1.5.1" ":"%char)
    as [Hfull Hshort]; try reflexivity; try discriminate.
  split; [exact Hfull|]. apply Hshort. reflexivity.
Defined.

Lemma Rest_slen s' s : Rest s' s -> (slen s' <= slen s)%nat.
Proof. induction 1; simpl; lia. Qed.

(** A successful [p+] has read at least one byte. *)
Lemma plus_class_proper {R} p s (k : string -> option R) x :
  plus_class p s k = Some x ->
  exists s', (slen s' < slen s)%nat /\ k s' = Some x.
Proof.
  revert x. induction s as [|a s IH]; intros x; simpl; [discriminate|].
  destruct (p a); [|discriminate].
  destruct (plus_class p s k) as [y|] eqn:E.
  - intros [= <-]. destruct (IH y eq_refl) as (s' & Hs' & Hk).
    exists s'. split; [lia | assumption].
  - intros Hk. exists s. split; [lia | assumption].
Qed.

Lemma consumed_nonempty s s' : (slen s' < slen s)%nat -> consumed s s' <> "".
Proof.
  unfold consumed. intros H.
  destruct (slen s - slen s')%nat as [|n] eqn:E; [lia|].
  destruct s as [|a s]; [simpl in H; lia|]. discriminate.
Qed.

(** A match of the tokenizer has five entries, and its repository and
    tag groups are not empty. *)
Lemma match_at_shape s m :
  match_at 4 dockerImageNameRegex s = Some m ->
  length m = 5%nat /\ nth 3 m "" <> "" /\ nth 4 m "" <> "".
Proof.
  unfold match_at, dockerImageNameRegex. intros E.
  rewrite match_here_Cat in E.
  apply match_here_rest in E as (s1 & c1 & _ & E). cbv beta in E.
  rewrite match_here_Cat in E.
  apply match_here_rest in E as (s2 & c2 & _ & E). cbv beta in E.
  cbn [match_here] in E.
  apply plus_class_proper in E as (s3 & Hs3 & E).
  destruct s3 as [|a t]; [discriminate|].
  destruct (isAtOrColon a); [|discriminate].
  apply plus_class_proper in E as (s4 & Hs4 & E).
  injection E as <-. unfold submatches, captures in *. simpl.
  split; [reflexivity|]. split.
  - rewrite lookup_insert_ne, lookup_insert_eq by lia. simpl.
    now apply consumed_nonempty.
  - rewrite lookup_insert_eq. simpl. now apply consumed_nonempty.
Qed.

Lemma find_from_Some n r s m :
  find_from n r s = Some m -> exists s0, match_at n r s0 = Some m.
Proof.
  induction s as [|a s IH]; cbn [find_from].
  - destruct (match_at n r "") eqn:E; [|discriminate]. intros [= <-]. eauto.
  - destruct (match_at n r (String a s)) eqn:E; [intros [= <-]; eauto | exact IH].
Qed.

(** X2.  What the tokenizer can return.  For every image reference the
    submatch slice is either [nil] or has exactly five entries, of which
    the repository (fourth) and the tag (fifth) are not empty: the test
    [len(matches) == 5] holds exactly when the expression matched, and a
    version read from a match is never empty.  A reference that contains
    neither [@] nor [:] gives [nil]. *)
Theorem tokenizer_yields_nothing_or_five_entries (image : string) :
  (dockerImageNameSubmatch image = [] \/
   (length (dockerImageNameSubmatch image) = 5%nat /\
    nth 3 (dockerImageNameSubmatch image) "" <> "" /\
    nth 4 (dockerImageNameSubmatch image) "" <> "")) /\
  (tokenizes image = true <-> dockerImageNameSubmatch image <> []) /\
  (noSeparator image = true -> dockerImageNameSubmatch image = []).
Proof.
  assert (Hshape : dockerImageNameSubmatch image = [] \/
                   (length (dockerImageNameSubmatch image) = 5%nat /\
                    nth 3 (dockerImageNameSubmatch image) "" <> "" /\
                    nth 4 (dockerImageNameSubmatch image) "" <> "")).
  { unfold dockerImageNameSubmatch, FindStringSubmatch.
    destruct (find_from 4 dockerImageNameRegex image) as [m|] eqn:E; [right | now left].
    apply find_from_Some in E as [s0 E]. simpl. now apply match_at_shape in E. }
  split; [exact Hshape|]. split.
  - unfold tokenizes. rewrite Nat.eqb_eq.
    destruct Hshape as [Hnil | (Hlen & _)].
    + rewrite Hnil. simpl. split; [discriminate | congruence].
    + split; [|intros _; exact Hlen].
      intros _ Hnil. rewrite Hnil in Hlen. discriminate.
  - apply tokenizer_needs_separator.
Qed.

End TokenizerFacts.

(* ===================================================================== *)
(** ** What detection reports *)
(* ===================================================================== *)

Module StatusFacts.
Import Regexp Snapshot Handlers Settings Notions Shapes.

Lemma faults_none c : (forall k, rejects c k = None) -> forall k, faults c k = None.
Proof. intros H k. unfold faults. now rewrite H. Qed.

Lemma Forall_List_filter {A} (P : A -> Prop) f l : Forall P l -> Forall P (List.filter f l).
Proof.
  induction 1 as [|x l Hx _ IH]; simpl; [constructor|].
  destruct (f x); [constructor|]; assumption.
Qed.

Lemma scanDeployments_Value ds : forall st,
  Forall (fun d => Containers (podSpecOf d) <> []) ds ->
  exists st', scanDeployments ds st = Value st'.
Proof.
  induction ds as [|d ds IH]; intros st Hall; simpl; [eauto|].
  inversion Hall as [|? ? Hd Hall']; subst.
  destruct (Containers (podSpecOf d)) as [|c0 cs]; [congruence|].
  destruct (_ =? _)%nat; [eauto | now apply IH].
Qed.

Lemma scanDaemonsets_Value ds : forall st,
  Forall (fun d => Containers (dsPodSpecOf d) <> []) ds ->
  exists st', scanDaemonsets ds st = Value st'.
Proof.
  induction ds as [|d ds IH]; intros st Hall; simpl; [eauto|].
  inversion Hall as [|? ? Hd Hall']; subst.
  destruct (Containers (dsPodSpecOf d)) as [|c0 cs]; [congruence|].
  destruct (_ =? _)%nat; [eauto | now apply IH].
Qed.

(** X3.  The loop of [DetectVelero] over the candidate deployments.  When
    the first containers of the deployments [pre] are not tokenized and
    that of [d] is, the version is the fifth entry for [d], the status is
    "Ready" exactly when [d] has an available replica, the plugins are
    the init-container names of [pre] and of [d] in order, and the
    deployments after [d] are not looked at (they may even have no
    container).  When no first container is tokenized, version and
    status stay as they were and the plugins of every candidate are
    collected all the same. *)
Theorem first_tokenized_deployment_decides_version :
  (forall pre d post c0 cs st,
     Forall (fun x => exists c rest, Containers (podSpecOf x) = c :: rest /\
                                     tokenizes (Image c) = false) pre ->
     Containers (podSpecOf d) = c0 :: cs ->
     tokenizes (Image c0) = true ->
     scanDeployments (pre ++ d :: post)%list st
     = Value {| Version := nth 4 (dockerImageNameSubmatch (Image c0)) "";
                Plugins := (Plugins st ++ initContainerNames (pre ++ [d]))%list;
                Status := if 0 <? AvailableReplicas (DeploymentStatus_ d)
                          then "Ready" else "NotReady";
                ResticVersion := ResticVersion st;
                ResticStatus := ResticStatus st |}) /\
  (forall ds st,
     Forall (fun x => exists c rest, Containers (podSpecOf x) = c :: rest /\
                                     tokenizes (Image c) = false) ds ->
     scanDeployments ds st
     = Value {| Version := Version st;
                Plugins := (Plugins st ++ initContainerNames ds)%list;
                Status := Status st;
                ResticVersion := ResticVersion st;
                ResticStatus := ResticStatus st |}).
Proof.
  split.
  - intros pre d post c0 cs. induction pre as [|x pre IH]; intros st Hpre Hd Htok.
    + simpl. rewrite Hd. unfold tokenizes in Htok. rewrite Htok.
      unfold initContainerNames. simpl. now rewrite List.app_nil_r.
    + inversion Hpre as [|? ? (c & rest & Hc & Hno) Hpre']; subst.
      cbn [app scanDeployments]. rewrite Hc. unfold tokenizes in Hno. rewrite Hno.
      rewrite IH by assumption. simpl.
      unfold initContainerNames. simpl. now rewrite List.app_assoc.
  - intros ds. induction ds as [|x ds IH]; intros st Hall.
    + simpl. unfold initContainerNames. simpl. rewrite List.app_nil_r. now destruct st.
    + inversion Hall as [|? ? (c & rest & Hc & Hno) Hall']; subst.
      cbn [scanDeployments]. rewrite Hc. unfold tokenizes in Hno. rewrite Hno.
      rewrite IH by assumption. simpl.
      unfold initContainerNames. simpl. now rewrite List.app_assoc.
Qed.

Lemma first_tokenized_deployment_decides_version_witness :
  scanDeployments
    [Fixture.veleroDeploymentWith "velero"; Fixture.veleroDeploymentWith "velero/velero:v1.5.1";
     Fixture.veleroDeploymentWith "velero/velero:v1.4.0"]
    {| Version := ""; Plugins := []; Status := ""; ResticVersion := ""; ResticStatus := "" |}
  = Value {| Version := "v1.5.1";
             Plugins := ["velero-plugin-for-aws"; "velero-plugin-for-aws"];
             Status := "Ready"; ResticVersion := ""; ResticStatus := "" |}.
Proof.
  destruct first_tokenized_deployment_decides_version as [Hfound _].
  apply (Hfound [Fixture.veleroDeploymentWith "velero"]
           (Fixture.veleroDeploymentWith "velero/velero:v1.5.1")
           [Fixture.veleroDeploymentWith "velero/velero:v1.4.0"]
           {| ContainerName := "velero"; Image := "velero/velero:v1.5.1"; Args := ["server"] |}
           []).
  - constructor; [|constructor]. eexists _, _. split; reflexivity.
  - reflexivity.
  - reflexivity.
Defined.

(** X4.  The loop of [DetectVelero] over the candidate daemon sets.  The
    first daemon set whose first container is tokenized gives the restic
    version, and the restic status is "Ready" exactly when it has a pod
    available and none unavailable; version, plugins and status of
    velero are not touched.  When none is tokenized the status is
    returned as it was. *)
Theorem first_tokenized_daemon_set_decides_restic_status :
  (forall pre d post c0 cs st,
     Forall (fun x => exists c rest, Containers (dsPodSpecOf x) = c :: rest /\
                                     tokenizes (Image c) = false) pre ->
     Containers (dsPodSpecOf d) = c0 :: cs ->
     tokenizes (Image c0) = true ->
     scanDaemonsets (pre ++ d :: post)%list st
     = Value {| Version := Version st;
                Plugins := Plugins st;
                Status := Status st;
                ResticVersion := nth 4 (dockerImageNameSubmatch (Image c0)) "";
                ResticStatus :=
                  if (0 <? NumberAvailable (DaemonSetStatus_ d)) &&
                     (NumberUnavailable (DaemonSetStatus_ d) =? 0)
                  then "Ready" else "NotReady" |}) /\
  (forall ds st,
     Forall (fun x => exists c rest, Containers (dsPodSpecOf x) = c :: rest /\
                                     tokenizes (Image c) = false) ds ->
     scanDaemonsets ds st = Value st).
Proof.
  split.
  - intros pre d post c0 cs. induction pre as [|x pre IH]; intros st Hpre Hd Htok.
    + simpl. rewrite Hd. unfold tokenizes in Htok. rewrite Htok.
      now destruct (0 <? _), (_ =? 0).
    + inversion Hpre as [|? ? (c & rest & Hc & Hno) Hpre']; subst.
      cbn [app scanDaemonsets]. rewrite Hc. unfold tokenizes in Hno. rewrite Hno.
      now apply IH.
  - intros ds. induction ds as [|x ds IH]; intros st Hall; [reflexivity|].
    inversion Hall as [|? ? (c & rest & Hc & Hno) Hall']; subst.
    cbn [scanDaemonsets]. rewrite Hc. unfold tokenizes in Hno. rewrite Hno.
    now apply IH.
Qed.

Lemma first_tokenized_daemon_set_decides_restic_status_witness :
  scanDaemonsets [Fixture.resticDaemonSet]
    {| Version := "v1.5.1"; Plugins := []; Status := "Ready";
       ResticVersion := ""; ResticStatus := "" |}
  = Value {| Version := "v1.5.1"; Plugins := []; Status := "Ready";
             ResticVersion := "v1.5.1"; ResticStatus := "Ready" |}.
Proof.
  destruct first_tokenized_daemon_set_decides_restic_status as [Hfound _].
  apply (Hfound [] Fixture.resticDaemonSet []
           {| ContainerName := "restic"; Image := defaultVeleroImage;
              Args := ["restic"; "server"] |} []).
  - constructor.
  - reflexivity.
  - reflexivity.
Defined.

(** X5.  [GetVeleroStatus] on a cluster that answers every request and
    whose workloads have at least one container each: the answer is 200,
    and velero is reported installed exactly when the cluster serves
    backup storage locations, one of them is named "default" and the
    first such has a namespace.  The deployments and daemon sets play no
    part in the answer. *)
Theorem velero_counts_as_installed_by_its_default_location (c : Cluster) :
  (forall k, rejects c k = None) ->
  Forall (fun d => Containers (podSpecOf d) <> []) (deployments c) ->
  Forall (fun d => Containers (dsPodSpecOf d) <> []) (daemonSets c) ->
  GetVeleroStatus c
  = JSON 200
      {| IsVeleroInstalled :=
           match backupStorageLocations c with
           | Some items =>
               match List.find (fun b => String.eqb (Name (BSLMeta b)) "default") items with
               | Some location => negb (String.eqb (Namespace (BSLMeta location)) "")
               | None => false
               end
           | None => false
           end |}.
Proof.
  intros Hrej Hdeps Hsets. pose proof (faults_none c Hrej) as Hf.
  unfold GetVeleroStatus, DetectVelero, DetectVeleroNamespace, ListBackupStorageLocations.
  rewrite !Hf.
  destruct (backupStorageLocations c) as [items|]; [|reflexivity].
  destruct (List.find _ items) as [location|]; [|reflexivity].
  destruct (String.eqb (Namespace (BSLMeta location)) ""); [reflexivity|].
  unfold listPossibleVeleroDeployments, listPossibleResticDaemonsets,
    ListDeployments, ListDaemonSets.
  rewrite !Hf.
  match goal with
  | |- context [scanDeployments ?l ?st] =>
      destruct (scanDeployments_Value l st) as [st1 ->]
  end.
  { apply Forall_app; split; now apply Forall_List_filter. }
  match goal with
  | |- context [scanDaemonsets ?l ?st] =>
      destruct (scanDaemonsets_Value l st) as [st2 ->]
  end.
  { apply Forall_app; split; now apply Forall_List_filter. }
  reflexivity.
Qed.

Lemma velero_counts_as_installed_by_its_default_location_witness :
  GetVeleroStatus Fixture.installed = JSON 200 {| IsVeleroInstalled := true |} /\
  GetVeleroStatus (setDaemonSets (setDeployments Fixture.installed []) [])
  = JSON 200 {| IsVeleroInstalled := true |} /\
  GetVeleroStatus Fixture.bare = JSON 200 {| IsVeleroInstalled := false |}.
Proof.
  split; [|split].
  - apply (velero_counts_as_installed_by_its_default_location Fixture.installed).
    + reflexivity.
    + repeat constructor; discriminate.
    + repeat constructor; discriminate.
  - apply (velero_counts_as_installed_by_its_default_location
             (setDaemonSets (setDeployments Fixture.installed []) []));
      [reflexivity | constructor | constructor].
  - apply (velero_counts_as_installed_by_its_default_location Fixture.bare);
      [reflexivity | constructor | constructor].
Defined.

End StatusFacts.

(* ===================================================================== *)
(** ** Image configuration: failures, reach and repetition *)
(* ===================================================================== *)

Module ConfigurationFacts.
Import Snapshot Notions Shapes ClusterFacts ImageFacts StatusFacts.

Section Objects.
Context {A : Type} (meta : A -> ObjectMeta).

Lemma remove_replace ns name d l :
  metaIs ns name (meta d) = true ->
  removeObject meta ns name (replaceObject meta ns name d l) = removeObject meta ns name l.
Proof.
  unfold removeObject, replaceObject. intros Hd.
  induction l as [|x l IH]; simpl; [reflexivity|].
  destruct (metaIs ns name (meta x)) eqn:E; simpl.
  - now rewrite Hd.
  - now rewrite E, IH.
Qed.

Lemma remove_remove ns name l :
  removeObject meta ns name (removeObject meta ns name l) = removeObject meta ns name l.
Proof.
  unfold removeObject. induction l as [|x l IH]; simpl; [reflexivity|].
  destruct (metaIs ns name (meta x)) eqn:E; simpl; [exact IH|].
  now rewrite E, IH.
Qed.

Lemma remove_add ns name d l :
  metaIs ns name (meta d) = true ->
  removeObject meta ns name (l ++ [d])%list = removeObject meta ns name l.
Proof.
  unfold removeObject. intros Hd. rewrite List.filter_app. simpl.
  rewrite Hd. simpl. apply List.app_nil_r.
Qed.

Lemma replace_absent ns name d l :
  lookupObject meta ns name l = None -> replaceObject meta ns name d l = l.
Proof.
  unfold lookupObject, replaceObject. induction l as [|x l IH]; simpl; [reflexivity|].
  destruct (metaIs ns name (meta x)); [discriminate|].
  intros H. now rewrite IH.
Qed.

Lemma replace_replace ns name d l :
  metaIs ns name (meta d) = true ->
  replaceObject meta ns name d (replaceObject meta ns name d l)
  = replaceObject meta ns name d l.
Proof.
  unfold replaceObject. intros Hd. induction l as [|x l IH]; simpl; [reflexivity|].
  destruct (metaIs ns name (meta x)) eqn:E; rewrite ?Hd, ?E, IH; reflexivity.
Qed.

Lemma replace_added ns name d l :
  lookupObject meta ns name l = None -> metaIs ns name (meta d) = true ->
  replaceObject meta ns name d (l ++ [d])%list = (l ++ [d])%list.
Proof.
  intros Hl Hd. unfold replaceObject. rewrite List.map_app.
  fold (replaceObject meta ns name d l). rewrite (replace_absent _ _ _ _ Hl).
  simpl. now rewrite Hd.
Qed.

End Objects.

Lemma setSecrets_same c : setSecrets c (secrets c) = c.
Proof. now destruct c. Qed.

Lemma setDeployments_same c : setDeployments c (deployments c) = c.
Proof. now destruct c. Qed.

Lemma setDaemonSets_same c : setDaemonSets c (daemonSets c) = c.
Proof. now destruct c. Qed.

Lemma withFirstImage_twice cs image :
  withFirstImage (withFirstImage cs image) image = withFirstImage cs image.
Proof. now destruct cs. Qed.

Lemma same_refl c : sameOutsideVelero c c.
Proof. unfold sameOutsideVelero. tauto. Qed.

Lemma same_trans c1 c2 c3 :
  sameOutsideVelero c1 c2 -> sameOutsideVelero c2 c3 -> sameOutsideVelero c1 c3.
Proof.
  unfold sameOutsideVelero.
  intros (H1 & H2 & H3 & H4 & H5 & H6) (K1 & K2 & K3 & K4 & K5 & K6).
  repeat split; congruence.
Qed.

Lemma bind_same {A B} (m : M A) (f : A -> M B) c :
  sameOutsideVelero c (fst (m c)) ->
  (forall a c1, m c = (c1, Value a) -> sameOutsideVelero c1 (fst (f a c1))) ->
  sameOutsideVelero c (fst (K8s.bind m f c)).
Proof.
  unfold K8s.bind. destruct (m c) as [c1 [a|e|]]; simpl; intros H1 H2; try exact H1.
  eapply same_trans; [exact H1 | now apply H2].
Qed.

Lemma wrap_fst {A} msg (m : M A) c : fst (wrap msg m c) = fst (m c).
Proof. unfold wrap. now destruct (m c) as [c1 [a|e|]]. Qed.

Lemma call_same {A} k (m : M A) c :
  sameOutsideVelero c (fst (m c)) -> sameOutsideVelero c (fst (call k m c)).
Proof. unfold call. destruct (faults c k); [intros _; apply same_refl | tauto]. Qed.

Lemma same_update_deployment d c :
  metaIs veleroNamespace veleroDeploymentName (DeploymentMeta d) = true ->
  sameOutsideVelero c (fst (UpdateDeployment veleroNamespace d c)).
Proof.
  intros Hmeta. destruct (metaIs_names _ _ _ Hmeta) as [_ Hname].
  unfold UpdateDeployment. apply call_same. rewrite Hname.
  destruct (findDeployment c veleroNamespace veleroDeploymentName); [|apply same_refl].
  unfold sameOutsideVelero. simpl. repeat split; try reflexivity.
  now apply remove_replace.
Qed.

Lemma same_update_daemon_set d c :
  metaIs veleroNamespace resticDaemonSetName (DaemonSetMeta d) = true ->
  sameOutsideVelero c (fst (UpdateDaemonSet veleroNamespace d c)).
Proof.
  intros Hmeta. destruct (metaIs_names _ _ _ Hmeta) as [_ Hname].
  unfold UpdateDaemonSet. apply call_same. rewrite Hname.
  destruct (findDaemonSet c veleroNamespace resticDaemonSetName); [|apply same_refl].
  unfold sameOutsideVelero. simpl. repeat split; try reflexivity.
  now apply remove_replace.
Qed.

Lemma same_configure_restic image c :
  sameOutsideVelero c (fst (configureResticConfigMap image c)).
Proof.
  unfold configureResticConfigMap. destruct (negb _).
  - unfold GetConfigMap, call at 1, faults at 1.
    destruct (rejects c _); [apply same_refl|].
    destruct (findConfigMap c veleroNamespace resticConfigMapName) as [cm|] eqn:Hget.
    + pose proof (lookup_meta _ _ _ _ _ Hget) as Hmeta.
      destruct (metaIs_names _ _ _ Hmeta) as [_ Hname].
      rewrite wrap_fst. apply bind_same; [|intros; apply same_refl].
      unfold UpdateConfigMap. apply call_same. simpl. rewrite Hname, Hget.
      unfold sameOutsideVelero. simpl. repeat split; try reflexivity.
      now apply remove_replace.
    + simpl. rewrite wrap_fst. apply bind_same; [|intros; apply same_refl].
      unfold CreateConfigMap. apply call_same. simpl.
      change (findConfigMap c veleroNamespace "restic-restore-action-config")
        with (findConfigMap c veleroNamespace resticConfigMapName).
      rewrite Hget. unfold sameOutsideVelero. simpl. repeat split; try reflexivity.
      now apply (remove_add ConfigMapMeta veleroNamespace resticConfigMapName).
  - assert (H : sameOutsideVelero c
                  (fst (DeleteConfigMap veleroNamespace resticConfigMapName c))).
    { unfold DeleteConfigMap. apply call_same.
      destruct (findConfigMap c veleroNamespace resticConfigMapName); [|apply same_refl].
      unfold sameOutsideVelero. simpl. repeat split; try reflexivity.
      apply remove_remove. }
    destruct (DeleteConfigMap veleroNamespace resticConfigMapName c) as [c1 [[]|e|]];
      try exact H.
    now destruct (negb _).
Qed.

Section Images.
Variable IsKurl : Cluster -> bool.
Variable ImageRewriteKotsadmRegistry :
  string -> KotsadmOptions -> string -> bool ->
  result (string * list LocalObjectReference).
Variable EnsurePrivateKotsadmRegistrySecret :
  string -> KotsadmOptions -> Secrets -> result Secrets.

Local Abbreviation rewriteVeleroImages := (rewriteVeleroImages IsKurl ImageRewriteKotsadmRegistry).
Local Abbreviation ConfigureVeleroImages :=
  (ConfigureVeleroImages IsKurl ImageRewriteKotsadmRegistry EnsurePrivateKotsadmRegistrySecret).

(** The run up to and including the update of the velero deployment, on
    a cluster that answers every request. *)
Lemma deployment_step ns opts c images s d :
  skipped IsKurl c ns = false ->
  (forall k, rejects c k = None) ->
  rewriteVeleroImages c ns opts = Ok images ->
  EnsurePrivateKotsadmRegistrySecret veleroNamespace opts (secrets c) = Ok s ->
  findDeployment c veleroNamespace veleroDeploymentName = Some d ->
  ConfigureVeleroImages ns opts c
  = match InitContainers (podSpecOf d), Containers (podSpecOf d) with
    | [], _ | _, [] => (setSecrets c s, Panic)
    | _ :: _, _ :: _ =>
        (configureResticConfigMap (resticRestoreHelperImage images) ;;;
         resticDaemonSet <- wrap "failed to get restic daemonset"
                              (GetDaemonSet veleroNamespace resticDaemonSetName) ;;
         let qs0 := setImagePullSecrets (dsPodSpecOf resticDaemonSet) (imagePullSecrets images) in
         dsMains <- setFirstImage (Containers qs0) (veleroImage images) ;;
         let qs1 := setContainers qs0 dsMains in
         wrap "failed to update restic daemonset"
           (UpdateDaemonSet veleroNamespace (dsWithPodSpec resticDaemonSet qs1)) ;;;
         ret tt)%cluster
          (setDeployments (setSecrets c s)
             (replaceObject DeploymentMeta veleroNamespace veleroDeploymentName
                (withPodSpec d (patchThree (podSpecOf d) (imagePullSecrets images)
                                  (awsPluginImage images) (veleroImage images)))
                (deployments c)))
    end.
Proof.
  intros Hskip Hrej Hrw Hens Hd. pose proof (faults_none c Hrej) as Hf.
  unfold skipped in Hskip.
  unfold Snapshot.ConfigureVeleroImages. rewrite Hskip, Hrw.
  unfold K8s.bind at 1. unfold wrap at 1. unfold ofResult, ret.
  unfold K8s.bind at 1. unfold wrap at 1. unfold ensureRegistrySecret. rewrite Hens.
  unfold K8s.bind at 1. unfold wrap at 1. unfold GetDeployment, call, faults. simpl rejects.
  rewrite Hrej.
  change (findDeployment (setSecrets c s) veleroNamespace veleroDeploymentName)
    with (findDeployment c veleroNamespace veleroDeploymentName).
  rewrite Hd. simpl InitContainers.
  pose proof (lookup_meta _ _ _ _ _ Hd) as Hmeta.
  destruct (metaIs_names _ _ _ Hmeta) as [_ Hname].
  destruct (InitContainers (podSpecOf d)) as [|i0 inits] eqn:Hi.
  { reflexivity. }
  unfold K8s.bind at 1. cbn [setFirstImage ret]. simpl Containers.
  destruct (Containers (podSpecOf d)) as [|m0 mains] eqn:Hm.
  { reflexivity. }
  unfold K8s.bind at 1. cbn [setFirstImage ret].
  unfold K8s.bind at 1. unfold wrap at 1. unfold UpdateDeployment, call, faults.
  simpl rejects. rewrite Hrej. simpl Name. rewrite Hname.
  change (findDeployment (setSecrets c s) veleroNamespace veleroDeploymentName)
    with (findDeployment c veleroNamespace veleroDeploymentName).
  rewrite Hd. unfold patchThree. rewrite Hi, Hm. reflexivity.
Qed.

(** On a cluster that answers every request the restic config map step
    succeeds. *)
Lemma configureResticConfigMap_total image c :
  (forall k, rejects c k = None) ->
  exists c', configureResticConfigMap image c = (c', Value tt).
Proof.
  intros Hrej. unfold configureResticConfigMap.
  destruct (negb _).
  - unfold GetConfigMap, call, faults. rewrite Hrej.
    destruct (findConfigMap c veleroNamespace resticConfigMapName) as [cm|] eqn:Hget.
    + pose proof (lookup_meta _ _ _ _ _ Hget) as Hmeta.
      destruct (metaIs_names _ _ _ Hmeta) as [_ Hname].
      unfold wrap, K8s.bind, UpdateConfigMap, call, faults. simpl.
      rewrite Hname, Hrej, Hget. eauto.
    + simpl. unfold wrap, K8s.bind, CreateConfigMap, call, faults. simpl.
      rewrite Hrej.
      change (findConfigMap c veleroNamespace "restic-restore-action-config")
        with (findConfigMap c veleroNamespace resticConfigMapName).
      rewrite Hget. eauto.
  - unfold DeleteConfigMap, call, faults. rewrite Hrej.
    destruct (findConfigMap c veleroNamespace resticConfigMapName); simpl; eauto.
Qed.

(** The last part of the run, from reading the restic daemon set on. *)
Lemma daemon_set_step (images : VeleroImages) c :
  (forall k, rejects c k = None) ->
  (resticDaemonSet <- wrap "failed to get restic daemonset"
                        (GetDaemonSet veleroNamespace resticDaemonSetName) ;;
   let qs0 := setImagePullSecrets (dsPodSpecOf resticDaemonSet) (imagePullSecrets images) in
   dsMains <- setFirstImage (Containers qs0) (veleroImage images) ;;
   let qs1 := setContainers qs0 dsMains in
   wrap "failed to update restic daemonset"
     (UpdateDaemonSet veleroNamespace (dsWithPodSpec resticDaemonSet qs1)) ;;;
   ret tt)%cluster c
  = match findDaemonSet c veleroNamespace resticDaemonSetName with
    | None =>
        (c, Raise (ErrWrap (notFound "daemonsets.apps" resticDaemonSetName)
                     "failed to get restic daemonset"))
    | Some ds =>
        match Containers (dsPodSpecOf ds) with
        | [] => (c, Panic)
        | _ :: _ =>
            (setDaemonSets c
               (replaceObject DaemonSetMeta veleroNamespace resticDaemonSetName
                  (dsWithPodSpec ds (patchTwo (dsPodSpecOf ds) (imagePullSecrets images)
                                       (veleroImage images)))
                  (daemonSets c)),
             Value tt)
        end
    end.
Proof.
  intros Hrej.
  unfold K8s.bind at 1. unfold wrap at 1. unfold GetDaemonSet, call, faults.
  rewrite Hrej.
  destruct (findDaemonSet c veleroNamespace resticDaemonSetName) as [ds|] eqn:Hds;
    [|reflexivity].
  pose proof (lookup_meta _ _ _ _ _ Hds) as Hmeta.
  destruct (metaIs_names _ _ _ Hmeta) as [_ Hname].
  simpl Containers.
  destruct (Containers (dsPodSpecOf ds)) as [|m0 mains] eqn:Hm; [reflexivity|].
  unfold K8s.bind at 1. cbn [setFirstImage ret].
  unfold K8s.bind at 1. unfold wrap at 1. unfold UpdateDaemonSet, call, faults.
  simpl Name. rewrite Hname, Hrej, Hds.
  unfold patchTwo. rewrite Hm. reflexivity.
Qed.

(** X6.  When image configuration can succeed.  On a cluster that
    answers every request and on which the configuration is not skipped,
    [ConfigureVeleroImages] returns [nil] if and only if the three images
    are rewritten, the registry secret is ensured, the deployment
    velero/velero exists with at least one init container and one
    container, and the daemon set velero/restic exists with at least one
    container. *)
Theorem image_configuration_needs_deployment_and_restic_daemon_set
    (kotsadmNamespace : string) (opts : KotsadmOptions) (c : Cluster) :
  skipped IsKurl c kotsadmNamespace = false ->
  (forall k, rejects c k = None) ->
  (exists c', ConfigureVeleroImages kotsadmNamespace opts c = (c', Value tt)) <->
  (exists images s d ds,
     rewriteVeleroImages c kotsadmNamespace opts = Ok images /\
     EnsurePrivateKotsadmRegistrySecret veleroNamespace opts (secrets c) = Ok s /\
     findDeployment c veleroNamespace veleroDeploymentName = Some d /\
     InitContainers (podSpecOf d) <> [] /\
     Containers (podSpecOf d) <> [] /\
     findDaemonSet c veleroNamespace resticDaemonSetName = Some ds /\
     Containers (dsPodSpecOf ds) <> []).
Proof.
  intros Hskip Hrej. split.
  - intros [c' Hrun].
    destruct (ConfigureVeleroImages_Value _ _ _ _ _ _ _ Hskip Hrun)
      as (images & s & d & ds & c2 & c3 & Hrw & Hs & Hd & Hi & Hm & _ & _ & Hds & Hn & _).
    exists images, s, d, ds. repeat split; assumption.
  - intros (images & s & d & ds & Hrw & Hs & Hd & Hi & Hm & Hds & Hn).
    rewrite (deployment_step _ _ _ _ _ _ Hskip Hrej Hrw Hs Hd).
    destruct (InitContainers (podSpecOf d)) as [|i0 inits]; [congruence|].
    destruct (Containers (podSpecOf d)) as [|m0 mains]; [congruence|].
    unfold K8s.bind at 1.
    match goal with
    | |- context [configureResticConfigMap ?i ?c2] =>
        destruct (configureResticConfigMap_total i c2 Hrej) as [c3 Hcm]
    end.
    rewrite Hcm.
    destruct (configureResticConfigMap_Value _ _ _ Hcm) as (Hc3 & _).
    rewrite daemon_set_step by (rewrite Hc3; exact Hrej).
    assert (Hds3 : findDaemonSet c3 veleroNamespace resticDaemonSetName = Some ds)
      by (rewrite Hc3; exact Hds).
    rewrite Hds3.
    destruct (Containers (dsPodSpecOf ds)) as [|n0 ns]; [congruence|]. eauto.
Qed.

(** X7.  Image configuration is not atomic.  On a cluster that answers
    every request and runs the velero deployment but no daemon set
    velero/restic, [ConfigureVeleroImages] fails with "failed to get
    restic daemonset" wrapping a not-found error, and by then the
    registry secret has been ensured and the velero deployment has been
    updated with the rewritten images and pull secrets: the changes made
    before the failure stay. *)
Theorem missing_restic_daemon_set_fails_after_deployment_update
    (kotsadmNamespace : string) (opts : KotsadmOptions) (c : Cluster)
    (images : VeleroImages) (s : Secrets) (d : Deployment) :
  skipped IsKurl c kotsadmNamespace = false ->
  (forall k, rejects c k = None) ->
  rewriteVeleroImages c kotsadmNamespace opts = Ok images ->
  EnsurePrivateKotsadmRegistrySecret veleroNamespace opts (secrets c) = Ok s ->
  findDeployment c veleroNamespace veleroDeploymentName = Some d ->
  InitContainers (podSpecOf d) <> [] ->
  Containers (podSpecOf d) <> [] ->
  findDaemonSet c veleroNamespace resticDaemonSetName = None ->
  snd (ConfigureVeleroImages kotsadmNamespace opts c)
  = Raise (ErrWrap (notFound "daemonsets.apps" resticDaemonSetName)
             "failed to get restic daemonset") /\
  secrets (fst (ConfigureVeleroImages kotsadmNamespace opts c)) = s /\
  findDeployment (fst (ConfigureVeleroImages kotsadmNamespace opts c))
    veleroNamespace veleroDeploymentName
  = Some (withPodSpec d (patchThree (podSpecOf d) (imagePullSecrets images)
                           (awsPluginImage images) (veleroImage images))).
Proof.
  intros Hskip Hrej Hrw Hs Hd Hi Hm Hds.
  pose (c2 := setDeployments (setSecrets c s)
                (replaceObject DeploymentMeta veleroNamespace veleroDeploymentName
                   (withPodSpec d (patchThree (podSpecOf d) (imagePullSecrets images)
                                     (awsPluginImage images) (veleroImage images)))
                   (deployments c))).
  destruct (configureResticConfigMap_total (resticRestoreHelperImage images) c2 Hrej)
    as [c3 Hcm].
  destruct (configureResticConfigMap_Value _ _ _ Hcm) as (Hc3 & _).
  assert (Hrun : ConfigureVeleroImages kotsadmNamespace opts c
                 = (c3, Raise (ErrWrap (notFound "daemonsets.apps" resticDaemonSetName)
                                 "failed to get restic daemonset"))).
  { rewrite (deployment_step _ _ _ _ _ _ Hskip Hrej Hrw Hs Hd).
    destruct (InitContainers (podSpecOf d)) as [|i0 inits]; [congruence|].
    destruct (Containers (podSpecOf d)) as [|m0 mains] eqn:Hmains; [congruence|].
    unfold K8s.bind at 1. fold c2. rewrite Hcm.
    rewrite daemon_set_step by (rewrite Hc3; exact Hrej).
    assert (Hds3 : findDaemonSet c3 veleroNamespace resticDaemonSetName = None)
      by (rewrite Hc3; exact Hds).
    now rewrite Hds3. }
  rewrite Hrun. simpl. split; [reflexivity|].
  rewrite Hc3. simpl. split; [reflexivity|].
  unfold findDeployment. simpl.
  eapply lookup_replace_same; [exact Hd|]. apply (lookup_meta _ _ _ _ _ Hd).
Qed.

(** X8.  Indexing the first container.  On a cluster that answers every
    request, when the velero deployment has no init container (velero
    installed without a plugin) or no container, [ConfigureVeleroImages]
    does not return: [InitContainers[0]] or [Containers[0]] is out of
    range.  The registry secret has been ensured by then; nothing else
    has changed. *)
Theorem deployment_without_first_container_panics
    (kotsadmNamespace : string) (opts : KotsadmOptions) (c : Cluster)
    (images : VeleroImages) (s : Secrets) (d : Deployment) :
  skipped IsKurl c kotsadmNamespace = false ->
  (forall k, rejects c k = None) ->
  rewriteVeleroImages c kotsadmNamespace opts = Ok images ->
  EnsurePrivateKotsadmRegistrySecret veleroNamespace opts (secrets c) = Ok s ->
  findDeployment c veleroNamespace veleroDeploymentName = Some d ->
  InitContainers (podSpecOf d) = [] \/ Containers (podSpecOf d) = [] ->
  ConfigureVeleroImages kotsadmNamespace opts c = (setSecrets c s, Panic).
Proof.
  intros Hskip Hrej Hrw Hs Hd Hnone.
  rewrite (deployment_step _ _ _ _ _ _ Hskip Hrej Hrw Hs Hd).
  destruct Hnone as [-> | ->]; [reflexivity|].
  now destruct (InitContainers (podSpecOf d)).
Qed.

(** What a successful restic config map step leaves in the list of
    config maps: running the step again on such a list changes nothing. *)
Lemma restic_step_again image c c1 cx :
  configureResticConfigMap image c = (c1, Value tt) ->
  (forall k, rejects cx k = None) ->
  configMaps cx = configMaps c1 ->
  configureResticConfigMap image cx = (cx, Value tt).
Proof.
  intros Hrun Hrej Hmaps.
  assert (Hfind : forall ns name, findConfigMap cx ns name = findConfigMap c1 ns name)
    by (intros; unfold findConfigMap; now rewrite Hmaps).
  unfold configureResticConfigMap in *.
  destruct (negb (String.eqb image defaultVeleroResticRestoreHelperImage)).
  - (* a rewritten image: the config map now carries it *)
    assert (Hshape : exists cm data,
               findConfigMap c1 veleroNamespace resticConfigMapName = Some cm /\
               Data cm = Some (<["image" := image]> data) /\
               replaceObject ConfigMapMeta veleroNamespace resticConfigMapName cm
                 (configMaps c1) = configMaps c1).
    { revert Hrun. unfold GetConfigMap, call at 1, faults at 1.
      destruct (rejects c _); [discriminate|].
      destruct (findConfigMap c veleroNamespace resticConfigMapName) as [cm|] eqn:Hget.
      + pose proof (lookup_meta _ _ _ _ _ Hget) as Hmeta.
        destruct (metaIs_names _ _ _ Hmeta) as [_ Hname].
        unfold wrap, K8s.bind, UpdateConfigMap, call, faults. simpl.
        rewrite Hname. destruct (rejects c _); [discriminate|].
        rewrite Hget. unfold ret. intros [= <-]. simpl.
        eexists _, _. split; [|split].
        * unfold findConfigMap. simpl.
          eapply lookup_replace_same; [exact Hget | exact Hmeta].
        * reflexivity.
        * now apply replace_replace.
      + simpl. unfold wrap, K8s.bind, CreateConfigMap, call, faults. simpl.
        destruct (rejects c _); [discriminate|].
        change (findConfigMap c veleroNamespace "restic-restore-action-config")
          with (findConfigMap c veleroNamespace resticConfigMapName).
        rewrite Hget. unfold ret. intros [= <-]. simpl.
        eexists _, _. split; [|split].
        * unfold findConfigMap. simpl.
          now apply (lookup_add_same ConfigMapMeta veleroNamespace resticConfigMapName).
        * reflexivity.
        * now apply (replace_added ConfigMapMeta veleroNamespace resticConfigMapName). }
    destruct Hshape as (cm & data & Hcm & Hdata & Hrepl).
    pose proof (lookup_meta _ _ _ _ _ Hcm) as Hmeta.
    destruct (metaIs_names _ _ _ Hmeta) as [_ Hname].
    unfold GetConfigMap, call, faults. rewrite Hrej, Hfind, Hcm.
    unfold wrap, K8s.bind, UpdateConfigMap, call, faults. simpl.
    rewrite Hname, Hrej, Hfind, Hcm, Hdata, insert_insert_eq.
    assert (Hsame : setData cm (<["image" := image]> data) = cm).
    { destruct cm as [t m dt]. simpl in Hdata. subst dt. reflexivity. }
    rewrite Hsame, Hmaps, Hrepl, <- Hmaps, setConfigMaps_same. reflexivity.
  - (* the default image: the config map is gone *)
    assert (Hgone : findConfigMap c1 veleroNamespace resticConfigMapName = None).
    { revert Hrun. unfold DeleteConfigMap, call, faults.
      destruct (rejects c _); [discriminate|].
      destruct (findConfigMap c veleroNamespace resticConfigMapName) as [cm|] eqn:Hget.
      - intros [= <-]. apply lookup_remove_same.
      - simpl. intros [= <-]. exact Hget. }
    unfold DeleteConfigMap, call, faults. now rewrite Hrej, Hfind, Hgone.
Qed.

(** X10.  Image configuration is idempotent.  On a cluster that answers
    every request, with a registry-secret step that accepts its own
    result, once [ConfigureVeleroImages] has succeeded a second run with
    the same namespace and options on the resulting cluster (still
    embedded or not, as before) succeeds and changes nothing. *)
Theorem image_configuration_is_idempotent
    (kotsadmNamespace : string) (opts : KotsadmOptions) (c c' : Cluster) :
  (forall k, rejects c k = None) ->
  (forall s s', EnsurePrivateKotsadmRegistrySecret veleroNamespace opts s = Ok s' ->
                EnsurePrivateKotsadmRegistrySecret veleroNamespace opts s' = Ok s') ->
  ConfigureVeleroImages kotsadmNamespace opts c = (c', Value tt) ->
  IsKurl c' = IsKurl c ->
  ConfigureVeleroImages kotsadmNamespace opts c' = (c', Value tt).
Proof.
  intros Hrej Hens Hrun Hkurl.
  destruct (skipped IsKurl c kotsadmNamespace) eqn:Hskip.
  { unfold skipped in Hskip. unfold Snapshot.ConfigureVeleroImages in *.
    rewrite Hskip in Hrun. injection Hrun as <-. now rewrite Hskip. }
  destruct (ConfigureVeleroImages_Value _ _ _ _ _ _ _ Hskip Hrun)
    as (images & s & d & ds & c2 & c3 & Hrw & Hs & Hd & Hi & Hm & Hc2 & Hcm & Hds & Hn & Hc').
  destruct (configureResticConfigMap_Value _ _ _ Hcm) as (Hc3 & _).
  pose (d' := withPodSpec d (patchThree (podSpecOf d) (imagePullSecrets images)
                               (awsPluginImage images) (veleroImage images))).
  pose (ds' := dsWithPodSpec ds (patchTwo (dsPodSpecOf ds) (imagePullSecrets images)
                                   (veleroImage images))).
  pose proof (lookup_meta _ _ _ _ _ Hd) as Hdmeta.
  pose proof (lookup_meta _ _ _ _ _ Hds) as Hdsmeta.
  assert (Hrej' : forall k, rejects c' k = None)
    by (rewrite Hc', Hc3, Hc2; exact Hrej).
  assert (Hsec : secrets c' = s) by (rewrite Hc', Hc3, Hc2; reflexivity).
  assert (Hdeps : deployments c'
                  = replaceObject DeploymentMeta veleroNamespace veleroDeploymentName d'
                      (deployments c))
    by (rewrite Hc', Hc3, Hc2; reflexivity).
  assert (Hsets : daemonSets c'
                  = replaceObject DaemonSetMeta veleroNamespace resticDaemonSetName ds'
                      (daemonSets c))
    by (rewrite Hc'; reflexivity).
  assert (Hmaps : configMaps c' = configMaps c3) by (rewrite Hc'; reflexivity).
  assert (Hd' : findDeployment c' veleroNamespace veleroDeploymentName = Some d').
  { unfold findDeployment. rewrite Hdeps.
    eapply lookup_replace_same; [exact Hd | exact Hdmeta]. }
  assert (Hds' : findDaemonSet c' veleroNamespace resticDaemonSetName = Some ds').
  { unfold findDaemonSet. rewrite Hsets.
    eapply lookup_replace_same; [exact Hds | exact Hdsmeta]. }
  assert (Hskip' : skipped IsKurl c' kotsadmNamespace = false)
    by (unfold skipped in *; now rewrite Hkurl).
  assert (Hrw' : rewriteVeleroImages c' kotsadmNamespace opts = Ok images)
    by (unfold Snapshot.rewriteVeleroImages in *; now rewrite Hkurl).
  assert (Hs' : EnsurePrivateKotsadmRegistrySecret veleroNamespace opts (secrets c')
                = Ok (secrets c'))
    by (rewrite Hsec; eapply Hens; exact Hs).
  rewrite (deployment_step _ _ _ _ _ _ Hskip' Hrej' Hrw' Hs' Hd').
  match goal with
  | |- context [K8s.bind (configureResticConfigMap ?i) ?f] =>
      set (tail := K8s.bind (configureResticConfigMap i) f)
  end.
  subst d'. simpl InitContainers. simpl Containers.
  destruct (InitContainers (podSpecOf d)) as [|i0 inits] eqn:Ei; [congruence|].
  destruct (Containers (podSpecOf d)) as [|m0 mains] eqn:Em; [congruence|].
  cbn [withFirstImage].
  match goal with
  | |- _ ?cx = _ =>
      assert (Hcx : cx = c');
      [|rewrite Hcx]
  end.
  { rewrite setSecrets_same.
    match goal with
    | |- setDeployments _ ?l = _ => assert (Hl : l = deployments c'); [|rewrite Hl]
    end.
    - rewrite Hdeps. unfold patchThree. simpl. rewrite Ei, Em. simpl.
      now apply replace_replace.
    - apply setDeployments_same. }
  subst tail. unfold K8s.bind at 1.
  rewrite (restic_step_again _ _ _ c' Hcm Hrej' Hmaps).
  pose proof (daemon_set_step images c' Hrej') as Hstep. cbv zeta in Hstep.
  rewrite Hstep, Hds'.
  subst ds'. simpl Containers.
  destruct (Containers (dsPodSpecOf ds)) as [|n0 ns] eqn:En; [congruence|].
  cbn [withFirstImage]. f_equal.
  match goal with
  | |- setDaemonSets _ ?l = _ => assert (Hl : l = daemonSets c'); [|rewrite Hl]
  end.
  - rewrite Hsets. unfold patchTwo. simpl. rewrite En. simpl.
    now apply replace_replace.
  - apply setDaemonSets_same.
Qed.

(** X9.  The reach of image configuration.  Whatever its outcome (a
    [nil] return, an error or a panic) and on every cluster, whichever
    requests it rejects, [ConfigureVeleroImages] leaves alone everything
    but the registry pull secrets, the deployment velero/velero, the
    daemon set velero/restic and the config map
    velero/restic-restore-action-config: every other deployment, daemon
    set and config map, in listing order, the backup storage locations
    and the NFS backend are as before. *)
Theorem image_configuration_reaches_velero_objects_only
    (kotsadmNamespace : string) (opts : KotsadmOptions) (c : Cluster) :
  sameOutsideVelero c (fst (ConfigureVeleroImages kotsadmNamespace opts c)).
Proof.
  unfold Snapshot.ConfigureVeleroImages.
  destruct (IsKurl c && _); [apply same_refl|].
  apply bind_same.
  { rewrite wrap_fst. destruct (rewriteVeleroImages _ _ _); apply same_refl. }
  intros images c1 _.
  apply bind_same.
  { rewrite wrap_fst. unfold ensureRegistrySecret.
    destruct (EnsurePrivateKotsadmRegistrySecret _ _ _); [|apply same_refl].
    unfold sameOutsideVelero. simpl. tauto. }
  intros [] c2 _.
  apply bind_same.
  { rewrite wrap_fst. unfold GetDeployment. apply call_same.
    destruct (findDeployment c2 _ _); apply same_refl. }
  intros d c3 Hget. apply wrap_Value, call_Value in Hget.
  destruct (findDeployment c2 _ _) as [d0|] eqn:Hd; [|discriminate].
  injection Hget as <- <-.
  apply bind_same.
  { destruct (InitContainers _); apply same_refl. }
  intros inits c4 _.
  apply bind_same.
  { destruct (Containers _); apply same_refl. }
  intros mains c5 _.
  apply bind_same.
  { rewrite wrap_fst. apply same_update_deployment. simpl.
    apply (lookup_meta _ _ _ _ _ Hd). }
  intros d' c6 _.
  apply bind_same; [apply same_configure_restic|].
  intros [] c7 _.
  apply bind_same.
  { rewrite wrap_fst. unfold GetDaemonSet. apply call_same.
    destruct (findDaemonSet c7 _ _); apply same_refl. }
  intros ds c8 Hgds. apply wrap_Value, call_Value in Hgds.
  destruct (findDaemonSet c7 _ _) as [ds0|] eqn:Hds; [|discriminate].
  injection Hgds as <- <-.
  apply bind_same.
  { destruct (Containers _); apply same_refl. }
  intros dsMains c9 _.
  apply bind_same; [|intros; apply same_refl].
  rewrite wrap_fst. apply same_update_daemon_set. simpl.
  apply (lookup_meta _ _ _ _ _ Hds).
Qed.

End Images.

Import Fixture Samples.

Lemma ensureSecret_settles ns o s s' :
  ensureSecret ns o s = Ok s' -> ensureSecret ns o s' = Ok s'.
Proof.
  unfold ensureSecret. destruct (String.eqb (Username o) ""); intros [= <-]; f_equal.
  - apply delete_delete_eq.
  - apply insert_insert_eq.
Qed.

Lemma configured_run :
  ConfigureVeleroImages isKurl imageRewrite ensureSecret NamespaceDefault privateRegistry installed
  = (configured, Value tt).
Proof. vm_compute. reflexivity. Qed.

Lemma image_configuration_is_idempotent_witness :
  ConfigureVeleroImages isKurl imageRewrite ensureSecret NamespaceDefault privateRegistry configured
  = (configured, Value tt).
Proof.
  apply (image_configuration_is_idempotent isKurl imageRewrite ensureSecret
           NamespaceDefault privateRegistry installed configured).
  - reflexivity.
  - apply ensureSecret_settles.
  - exact configured_run.
  - reflexivity.
Defined.

Lemma image_configuration_needs_deployment_and_restic_daemon_set_witness :
  (exists c', ConfigureVeleroImages isKurl imageRewrite ensureSecret
                NamespaceDefault privateRegistry installed = (c', Value tt)) <->
  (exists images s d ds,
     rewriteVeleroImages isKurl imageRewrite installed NamespaceDefault privateRegistry
     = Ok images /\
     ensureSecret veleroNamespace privateRegistry (secrets installed) = Ok s /\
     findDeployment installed veleroNamespace veleroDeploymentName = Some d /\
     InitContainers (podSpecOf d) <> [] /\
     Containers (podSpecOf d) <> [] /\
     findDaemonSet installed veleroNamespace resticDaemonSetName = Some ds /\
     Containers (dsPodSpecOf ds) <> []).
Proof.
  apply (image_configuration_needs_deployment_and_restic_daemon_set
           isKurl imageRewrite ensureSecret NamespaceDefault privateRegistry installed);
    reflexivity.
Defined.

Lemma missing_restic_daemon_set_fails_after_deployment_update_witness :
  snd (ConfigureVeleroImages isKurl imageRewrite ensureSecret
         NamespaceDefault privateRegistry withoutRestic)
  = Raise (ErrWrap (notFound "daemonsets.apps" resticDaemonSetName)
             "failed to get restic daemonset") /\
  secrets (fst (ConfigureVeleroImages isKurl imageRewrite ensureSecret
                  NamespaceDefault privateRegistry withoutRestic))
  = <[(veleroNamespace, registrySecretName) :=
        <["username" := "kots"]> (<["password" := "secret"]> ∅)]> ∅ /\
  findDeployment (fst (ConfigureVeleroImages isKurl imageRewrite ensureSecret
                         NamespaceDefault privateRegistry withoutRestic))
    veleroNamespace veleroDeploymentName
  = Some (withPodSpec (veleroDeploymentWith defaultVeleroImage)
            (patchThree (podSpecOf (veleroDeploymentWith defaultVeleroImage))
               [{| RefName := registrySecretName |}]
               "registry.example.com/velero/velero-plugin-for-aws:v1.1.0"
               "registry.example.com/velero/velero:v1.5.1")).
Proof.
  apply (missing_restic_daemon_set_fails_after_deployment_update
           isKurl imageRewrite ensureSecret NamespaceDefault privateRegistry withoutRestic
           {| veleroImage := "registry.example.com/velero/velero:v1.5.1";
              awsPluginImage := "registry.example.com/velero/velero-plugin-for-aws:v1.1.0";
              resticRestoreHelperImage :=
                "registry.example.com/velero/velero-restic-restore-helper:v1.5.1";
              imagePullSecrets := [{| RefName := registrySecretName |}] |}
           (<[(veleroNamespace, registrySecretName) :=
                <["username" := "kots"]> (<["password" := "secret"]> ∅)]> ∅)
           (veleroDeploymentWith defaultVeleroImage));
    try reflexivity; discriminate.
Defined.

Lemma deployment_without_first_container_panics_witness :
  ConfigureVeleroImages isKurl imageRewrite ensureSecret
    NamespaceDefault noRegistry withoutPlugin
  = (setSecrets withoutPlugin
       (delete (veleroNamespace, registrySecretName) (secrets withoutPlugin)), Panic).
Proof.
  eapply (deployment_without_first_container_panics
            isKurl imageRewrite ensureSecret NamespaceDefault noRegistry withoutPlugin);
    try reflexivity.
  left. reflexivity.
Defined.

End ConfigurationFacts.

(* ===================================================================== *)
(** ** The deployment-only configuration the command calls *)
(* ===================================================================== *)

Module DeploymentFacts.
Import Snapshot Notions Shapes ClusterFacts ImageFacts StatusFacts ConfigurationFacts.

Section Images.
Variable IsKurl : Cluster -> bool.
Variable ImageRewriteKotsadmRegistry :
  string -> KotsadmOptions -> string -> bool ->
  result (string * list LocalObjectReference).
Variable EnsurePrivateKotsadmRegistrySecret :
  string -> KotsadmOptions -> Secrets -> result Secrets.

Local Abbreviation rewriteVeleroImages := (rewriteVeleroImages IsKurl ImageRewriteKotsadmRegistry).
Local Abbreviation ConfigureVeleroImages :=
  (ConfigureVeleroImages IsKurl ImageRewriteKotsadmRegistry EnsurePrivateKotsadmRegistrySecret).
Local Abbreviation ConfigureVeleroDeployment :=
  (VeleroDeployment.ConfigureVeleroDeployment
     IsKurl ImageRewriteKotsadmRegistry EnsurePrivateKotsadmRegistrySecret).

(** The whole run of [ConfigureVeleroDeployment] on a cluster that
    answers every request. *)
Lemma ConfigureVeleroDeployment_run ns opts c images s d :
  (forall k, rejects c k = None) ->
  VeleroDeployment.rewriteVeleroImages IsKurl ImageRewriteKotsadmRegistry c ns opts
  = Ok images ->
  EnsurePrivateKotsadmRegistrySecret veleroNamespace opts (secrets c) = Ok s ->
  findDeployment c veleroNamespace veleroDeploymentName = Some d ->
  ConfigureVeleroDeployment ns opts c
  = match InitContainers (podSpecOf d), Containers (podSpecOf d) with
    | [], _ | _, [] => (setSecrets c s, Panic)
    | _ :: _, _ :: _ =>
        (setDeployments (setSecrets c s)
           (replaceObject DeploymentMeta veleroNamespace veleroDeploymentName
              (withPodSpec d (patchThree (podSpecOf d)
                                (VeleroDeployment.imagePullSecrets images)
                                (VeleroDeployment.pluginImage images)
                                (VeleroDeployment.veleroImage images)))
              (deployments c)),
         Value tt)
    end.
Proof.
  intros Hrej Hrw Hens Hd.
  unfold VeleroDeployment.ConfigureVeleroDeployment. rewrite Hrw.
  unfold K8s.bind at 1. unfold wrap at 1. unfold ofResult, ret.
  unfold K8s.bind at 1. unfold wrap at 1. unfold ensureRegistrySecret. rewrite Hens.
  unfold K8s.bind at 1. unfold wrap at 1. unfold GetDeployment, call, faults. simpl rejects.
  rewrite Hrej.
  change (findDeployment (setSecrets c s) veleroNamespace veleroDeploymentName)
    with (findDeployment c veleroNamespace veleroDeploymentName).
  rewrite Hd. simpl InitContainers.
  pose proof (lookup_meta _ _ _ _ _ Hd) as Hmeta.
  destruct (metaIs_names _ _ _ Hmeta) as [_ Hname].
  destruct (InitContainers (podSpecOf d)) as [|i0 inits] eqn:Hi.
  { reflexivity. }
  unfold K8s.bind at 1. cbn [setFirstImage ret]. simpl Containers.
  destruct (Containers (podSpecOf d)) as [|m0 mains] eqn:Hm.
  { reflexivity. }
  unfold K8s.bind at 1. cbn [setFirstImage ret].
  unfold K8s.bind at 1. unfold wrap at 1. unfold UpdateDeployment, call, faults.
  simpl rejects. rewrite Hrej. simpl Name. rewrite Hname.
  change (findDeployment (setSecrets c s) veleroNamespace veleroDeploymentName)
    with (findDeployment c veleroNamespace veleroDeploymentName).
  rewrite Hd. unfold patchThree. rewrite Hi, Hm. reflexivity.
Qed.

(** X11.  The two configurations agree on the deployment.  On a cluster
    that answers every request, wherever [ConfigureVeleroImages] succeeds
    without being skipped, [ConfigureVeleroDeployment] succeeds too and
    leaves the same deployments and the same registry secrets; it does
    not touch the daemon sets or the config maps. *)
Theorem deployment_configuration_agrees_with_image_configuration
    (kotsadmNamespace : string) (opts : KotsadmOptions) (c c' : Cluster) :
  skipped IsKurl c kotsadmNamespace = false ->
  (forall k, rejects c k = None) ->
  ConfigureVeleroImages kotsadmNamespace opts c = (c', Value tt) ->
  snd (ConfigureVeleroDeployment kotsadmNamespace opts c) = Value tt /\
  deployments (fst (ConfigureVeleroDeployment kotsadmNamespace opts c)) = deployments c' /\
  secrets (fst (ConfigureVeleroDeployment kotsadmNamespace opts c)) = secrets c' /\
  daemonSets (fst (ConfigureVeleroDeployment kotsadmNamespace opts c)) = daemonSets c /\
  configMaps (fst (ConfigureVeleroDeployment kotsadmNamespace opts c)) = configMaps c.
Proof.
  intros Hskip Hrej Hrun.
  destruct (ConfigureVeleroImages_Value _ _ _ _ _ _ _ Hskip Hrun)
    as (images & s & d & ds & c2 & c3 & Hrw & Hs & Hd & Hi & Hm & Hc2 & Hcm & _ & _ & Hc').
  destruct (configureResticConfigMap_Value _ _ _ Hcm) as (Hc3 & _).
  assert (Hold : VeleroDeployment.rewriteVeleroImages IsKurl ImageRewriteKotsadmRegistry
                   c kotsadmNamespace opts
                 = Ok {| VeleroDeployment.veleroImage := veleroImage images;
                         VeleroDeployment.pluginImage := awsPluginImage images;
                         VeleroDeployment.imagePullSecrets := imagePullSecrets images |}).
  { unfold skipped in Hskip.
    unfold VeleroDeployment.rewriteVeleroImages, Snapshot.rewriteVeleroImages in *.
    assert (Hguard : negb (IsKurl c) || negb (String.eqb kotsadmNamespace NamespaceDefault)
                     = true).
    { destruct (IsKurl c), (String.eqb kotsadmNamespace NamespaceDefault);
        simpl in *; congruence. }
    rewrite Hguard in *.
    destruct (ImageRewriteKotsadmRegistry _ _ defaultVeleroImage false)
      as [[v secs]|]; [|discriminate].
    destruct (ImageRewriteKotsadmRegistry _ _ defaultVeleroAWSPluginImage false)
      as [[p secs']|]; [|discriminate].
    destruct (ImageRewriteKotsadmRegistry _ _ defaultVeleroResticRestoreHelperImage false)
      as [[r secs'']|]; [|discriminate].
    injection Hrw as <-. reflexivity. }
  rewrite (ConfigureVeleroDeployment_run _ _ _ _ _ _ Hrej Hold Hs Hd).
  destruct (InitContainers (podSpecOf d)) as [|i0 inits]; [congruence|].
  destruct (Containers (podSpecOf d)) as [|m0 mains]; [congruence|].
  rewrite Hc', Hc3, Hc2. simpl. repeat split; reflexivity.
Qed.

(** X12.  No early return for embedded clusters.  On an embedded (kurl)
    cluster with kotsadm in the default namespace, where
    [ConfigureVeleroImages] returns at once, [ConfigureVeleroDeployment]
    still ensures the registry secret and updates the velero deployment:
    its first init container and first container are set to the default
    plugin and velero images and its pull secrets to the empty list,
    whatever they were. *)
Theorem deployment_configuration_resets_embedded_cluster_to_defaults
    (opts : KotsadmOptions) (c : Cluster) (s : Secrets) (d : Deployment) :
  IsKurl c = true ->
  (forall k, rejects c k = None) ->
  EnsurePrivateKotsadmRegistrySecret veleroNamespace opts (secrets c) = Ok s ->
  findDeployment c veleroNamespace veleroDeploymentName = Some d ->
  InitContainers (podSpecOf d) <> [] ->
  Containers (podSpecOf d) <> [] ->
  ConfigureVeleroImages NamespaceDefault opts c = (c, Value tt) /\
  ConfigureVeleroDeployment NamespaceDefault opts c
  = (setDeployments (setSecrets c s)
       (replaceObject DeploymentMeta veleroNamespace veleroDeploymentName
          (withPodSpec d (patchThree (podSpecOf d) []
                            defaultVeleroAWSPluginImage defaultVeleroImage))
          (deployments c)),
     Value tt).
Proof.
  intros Hkurl Hrej Hs Hd Hi Hm. split.
  - unfold Snapshot.ConfigureVeleroImages. now rewrite Hkurl.
  - assert (Hold : VeleroDeployment.rewriteVeleroImages IsKurl ImageRewriteKotsadmRegistry
                     c NamespaceDefault opts
                   = Ok {| VeleroDeployment.veleroImage := defaultVeleroImage;
                           VeleroDeployment.pluginImage := defaultVeleroAWSPluginImage;
                           VeleroDeployment.imagePullSecrets := [] |}).
    { unfold VeleroDeployment.rewriteVeleroImages. now rewrite Hkurl. }
    rewrite (ConfigureVeleroDeployment_run _ _ _ _ _ _ Hrej Hold Hs Hd).
    destruct (InitContainers (podSpecOf d)) as [|i0 inits]; [congruence|].
    destruct (Containers (podSpecOf d)) as [|m0 mains]; [congruence|].
    reflexivity.
Qed.

End Images.

Import Fixture Samples.

Lemma deployment_configuration_agrees_with_image_configuration_witness :
  snd (VeleroDeployment.ConfigureVeleroDeployment isKurl imageRewrite ensureSecret
         NamespaceDefault privateRegistry installed) = Value tt /\
  deployments (fst (VeleroDeployment.ConfigureVeleroDeployment isKurl imageRewrite ensureSecret
                      NamespaceDefault privateRegistry installed))
  = deployments configured /\
  secrets (fst (VeleroDeployment.ConfigureVeleroDeployment isKurl imageRewrite ensureSecret
                  NamespaceDefault privateRegistry installed))
  = secrets configured /\
  daemonSets (fst (VeleroDeployment.ConfigureVeleroDeployment isKurl imageRewrite ensureSecret
                     NamespaceDefault privateRegistry installed))
  = daemonSets installed /\
  configMaps (fst (VeleroDeployment.ConfigureVeleroDeployment isKurl imageRewrite ensureSecret
                     NamespaceDefault privateRegistry installed))
  = configMaps installed.
Proof.
  apply (deployment_configuration_agrees_with_image_configuration
           isKurl imageRewrite ensureSecret NamespaceDefault privateRegistry
           installed configured); [reflexivity | reflexivity | exact configured_run].
Defined.

Lemma deployment_configuration_resets_embedded_cluster_to_defaults_witness :
  ConfigureVeleroImages isKurl imageRewrite ensureSecret NamespaceDefault noRegistry embeddedCustom
  = (embeddedCustom, Value tt) /\
  VeleroDeployment.ConfigureVeleroDeployment isKurl imageRewrite ensureSecret
    NamespaceDefault noRegistry embeddedCustom
  = (setDeployments embeddedCustom [veleroDeploymentWith defaultVeleroImage], Value tt).
Proof.
  destruct (deployment_configuration_resets_embedded_cluster_to_defaults
              isKurl imageRewrite ensureSecret noRegistry embeddedCustom
              (secrets embeddedCustom)
              (withPodSpec (veleroDeploymentWith "registry.example.com/velero/velero:v1.5.1")
                 (setImagePullSecrets
                    (podSpecOf (veleroDeploymentWith "registry.example.com/velero/velero:v1.5.1"))
                    [{| RefName := registrySecretName |}])))
    as [Hnew Hold]; try reflexivity; try discriminate.
  split; [exact Hnew|]. rewrite Hold. reflexivity.
Defined.

End DeploymentFacts.

(* ===================================================================== *)
(** ** Saving the snapshot config: every outcome *)
(* ===================================================================== *)

Module SaveFacts.
Import Snapshot Handlers Notions Shapes ScheduleFacts.

Section Handlers.
Variable CronSchedule : Type.
Variable ParseStandard : string -> result CronSchedule.
Variable Next : CronSchedule -> Z -> Z.
Variable FormatTTL : string -> string -> result string.

Local Abbreviation SaveSnapshotConfig :=
  (SaveSnapshotConfig CronSchedule ParseStandard Next FormatTTL).
Local Abbreviation SaveInstanceSnapshotConfig :=
  (SaveInstanceSnapshotConfig CronSchedule ParseStandard Next FormatTTL).

Lemma GetApp_ID st id app : GetApp st id = Ok app -> ID app = id.
Proof. intros H. apply GetApp_row in H as (r & _ & ->). reflexivity. Qed.

(** Every path through [SaveSnapshotConfig]: the tables it does not
    write, the rows of the other applications, and what becomes of the
    pending requests. *)
Lemma SaveSnapshotConfig_outcome now id req st :
  storeFaults (fst (SaveSnapshotConfig now id (Some req) st)) = storeFaults st /\
  clusters (fst (SaveSnapshotConfig now id (Some req) st)) = clusters st /\
  scheduledInstanceSnapshots (fst (SaveSnapshotConfig now id (Some req) st))
  = scheduledInstanceSnapshots st /\
  (forall j, j <> ReqAppID req ->
     apps (fst (SaveSnapshotConfig now id (Some req) st)) !! j = apps st !! j) /\
  (scheduledSnapshots (fst (SaveSnapshotConfig now id (Some req) st))
   = scheduledSnapshots st \/
   scheduledSnapshots (fst (SaveSnapshotConfig now id (Some req) st))
   = List.filter (notOwnedBy (ReqAppID req)) (scheduledSnapshots st) \/
   exists cronSchedule,
     ParseStandard (ReqSchedule req) = Ok cronSchedule /\
     ReqAutoEnabled req = true /\
     snd (SaveSnapshotConfig now id (Some req) st) = JSON 200 saved /\
     appSchedules (fst (SaveSnapshotConfig now id (Some req) st)) !! ReqAppID req
     = Some (ReqSchedule req) /\
     scheduledSnapshots (fst (SaveSnapshotConfig now id (Some req) st))
     = (List.filter (notOwnedBy (ReqAppID req)) (scheduledSnapshots st) ++
        [{| SnapshotID := id; OwnerID := ReqAppID req;
            ScheduledTimestamp := Next cronSchedule now |}])%list).
Proof.
  unfold Handlers.SaveSnapshotConfig.
  destruct (GetApp st (ReqAppID req)) as [app|e0] eqn:Hget; [|simpl; tauto].
  pose proof (GetApp_ID _ _ _ Hget) as Hid. rewrite Hid.
  apply GetApp_row in Hget as (r & Hr & _).
  destruct (FormatTTL _ _) as [retention|e1]; [|simpl; tauto].
  assert (Hother : forall f (m : gmap string AppRow) j,
             j <> ReqAppID req -> alter f (ReqAppID req) m !! j = m !! j).
  { intros f m j Hj. apply lookup_alter_ne. congruence. }
  destruct (negb (String.eqb (SnapshotTTL app) retention));
    unfold SetSnapshotTTL, SetSnapshotSchedule, DeletePendingScheduledSnapshots,
      CreateScheduledSnapshot, storeCall;
    try (destruct (storeFaults st CallSetSnapshotTTL); [simpl; tauto|]);
    (destruct (ReqAutoEnabled req) eqn:Hauto; simpl;
     [ destruct (ParseStandard (ReqSchedule req)) as [cs|e2] eqn:Hparse;
       [|simpl; repeat split; auto];
       destruct (negb (String.eqb (ReqSchedule req) (SnapshotSchedule app)));
       [|simpl; repeat split; auto];
       destruct (storeFaults st CallDeletePendingScheduledSnapshots);
       [simpl; repeat split; auto|]; simpl;
       destruct (storeFaults st CallSetSnapshotSchedule);
       [simpl; repeat split; auto|]; simpl;
       destruct (storeFaults st CallCreateScheduledSnapshot); simpl;
       [ repeat split; auto; intros; rewrite !Hother by assumption; reflexivity
       | repeat split; try reflexivity;
         [ intros; rewrite !Hother by assumption; reflexivity
         | right; right; exists cs; repeat split;
           unfold appSchedules; simpl;
           rewrite lookup_fmap, lookup_alter_eq, ?lookup_alter_eq, Hr; reflexivity ] ]
     | destruct (storeFaults st CallSetSnapshotSchedule);
       [simpl; repeat split; auto|]; simpl;
       destruct (storeFaults st CallDeletePendingScheduledSnapshots); simpl;
       repeat split; auto; intros; rewrite !Hother by assumption; reflexivity ]).
Qed.

Lemma otherClusters_write a (h : DownstreamCluster -> DownstreamCluster) l :
  (forall x, ClusterID (h x) = ClusterID x) ->
  otherClusters a (map (fun x => if String.eqb (ClusterID x) a then h x else x) l)
  = otherClusters a l.
Proof.
  intros Hh. unfold otherClusters. induction l as [|x l IH]; simpl; [reflexivity|].
  destruct (String.eqb (ClusterID x) a) eqn:E; simpl.
  - now rewrite Hh, E.
  - now rewrite E, IH.
Qed.

Lemma ListClusters_head st c rest :
  ListClusters st = Ok (c :: rest) -> clusters st = c :: rest.
Proof.
  unfold ListClusters. destruct (storeFaults st CallListClusters); [discriminate|].
  now intros [= ->].
Qed.

(** Every path through [SaveInstanceSnapshotConfig]. *)
Lemma SaveInstanceSnapshotConfig_outcome now id req st c rest :
  ListClusters st = Ok (c :: rest) ->
  storeFaults (fst (SaveInstanceSnapshotConfig now id (Some req) st)) = storeFaults st /\
  apps (fst (SaveInstanceSnapshotConfig now id (Some req) st)) = apps st /\
  scheduledSnapshots (fst (SaveInstanceSnapshotConfig now id (Some req) st))
  = scheduledSnapshots st /\
  otherClusters (ClusterID c) (clusters (fst (SaveInstanceSnapshotConfig now id (Some req) st)))
  = otherClusters (ClusterID c) (clusters st) /\
  (scheduledInstanceSnapshots (fst (SaveInstanceSnapshotConfig now id (Some req) st))
   = scheduledInstanceSnapshots st \/
   scheduledInstanceSnapshots (fst (SaveInstanceSnapshotConfig now id (Some req) st))
   = List.filter (notOwnedBy (ClusterID c)) (scheduledInstanceSnapshots st) \/
   exists cronSchedule,
     ParseStandard (IReqSchedule req) = Ok cronSchedule /\
     IReqAutoEnabled req = true /\
     snd (SaveInstanceSnapshotConfig now id (Some req) st) = JSON 200 saved /\
     head (clusterSchedules (fst (SaveInstanceSnapshotConfig now id (Some req) st)))
     = Some (ClusterID c, IReqSchedule req) /\
     scheduledInstanceSnapshots (fst (SaveInstanceSnapshotConfig now id (Some req) st))
     = (List.filter (notOwnedBy (ClusterID c)) (scheduledInstanceSnapshots st) ++
        [{| SnapshotID := id; OwnerID := ClusterID c;
            ScheduledTimestamp := Next cronSchedule now |}])%list).
Proof.
  intros Hlist. unfold Handlers.SaveInstanceSnapshotConfig. rewrite Hlist.
  apply ListClusters_head in Hlist.
  destruct (FormatTTL _ _) as [retention|e1]; [|simpl; tauto].
  assert (Hw : forall h l, (forall x, ClusterID (h x) = ClusterID x) ->
             otherClusters (ClusterID c)
               (map (fun x => if String.eqb (ClusterID x) (ClusterID c) then h x else x) l)
             = otherClusters (ClusterID c) l)
    by (intros; now apply otherClusters_write).
  destruct (negb (String.eqb (ClusterSnapshotTTL c) retention));
    unfold SetInstanceSnapshotTTL, SetInstanceSnapshotSchedule,
      DeletePendingScheduledInstanceSnapshots, CreateScheduledInstanceSnapshot, storeCall;
    try (destruct (storeFaults st CallSetInstanceSnapshotTTL); [simpl; tauto|]);
    (destruct (IReqAutoEnabled req) eqn:Hauto; simpl;
     [ destruct (ParseStandard (IReqSchedule req)) as [cs|e2] eqn:Hparse;
       [|simpl; repeat split; auto; rewrite ?Hw by reflexivity; reflexivity];
       destruct (negb (String.eqb (IReqSchedule req) (ClusterSnapshotSchedule c)));
       [|simpl; repeat split; auto; rewrite ?Hw by reflexivity; reflexivity];
       destruct (storeFaults st CallDeletePendingScheduledInstanceSnapshots);
       [simpl; repeat split; auto; rewrite ?Hw by reflexivity; reflexivity|]; simpl;
       destruct (storeFaults st CallSetInstanceSnapshotSchedule);
       [simpl; repeat split; auto; rewrite ?Hw by reflexivity; reflexivity|]; simpl;
       destruct (storeFaults st CallCreateScheduledInstanceSnapshot); simpl;
       [ repeat split; auto; rewrite ?Hw by reflexivity; reflexivity
       | repeat split; try reflexivity;
         [ rewrite ?Hw by reflexivity; reflexivity
         | right; right; exists cs; repeat split;
           unfold clusterSchedules; simpl; rewrite Hlist; simpl;
           rewrite ?String.eqb_refl; simpl; rewrite ?String.eqb_refl; reflexivity ] ]
     | destruct (storeFaults st CallSetInstanceSnapshotSchedule);
       [simpl; repeat split; auto; rewrite ?Hw by reflexivity; reflexivity|]; simpl;
       destruct (storeFaults st CallDeletePendingScheduledInstanceSnapshots); simpl;
       repeat split; auto; rewrite ?Hw by reflexivity; reflexivity ]).
Qed.

Lemma pendingOf_cases owner o l l' :
  l' = l \/ l' = List.filter (notOwnedBy owner) l \/
  (exists n, OwnerID n = owner /\ l' = (List.filter (notOwnedBy owner) l ++ [n])%list) ->
  (o <> owner -> pendingOf o l' = pendingOf o l) /\
  ((length (pendingOf o l) <= 1)%nat -> (length (pendingOf o l') <= 1)%nat).
Proof.
  intros Hl'.
  assert (Hnew : forall n o', pendingOf o' [n] = if String.eqb (OwnerID n) o' then [n] else [])
    by reflexivity.
  destruct (String.eqb_spec owner o) as [<-|Hne].
  - split; [congruence|]. intros Hone.
    destruct Hl' as [-> | [-> | (n & Hn & ->)]]; [exact Hone | |].
    + rewrite pendingOf_purged. simpl. lia.
    + rewrite pendingOf_app, pendingOf_purged, Hnew, Hn, String.eqb_refl. simpl. lia.
  - assert (Hsame : pendingOf o l' = pendingOf o l).
    { destruct Hl' as [-> | [-> | (n & Hn & ->)]]; [reflexivity | |].
      - apply pendingOf_purged_other. congruence.
      - rewrite pendingOf_app, pendingOf_purged_other, Hnew, Hn by congruence.
        apply String.eqb_neq in Hne. rewrite Hne. apply List.app_nil_r. }
    rewrite Hsame. tauto.
Qed.

(** The three things that can happen to the pending requests. *)
Lemma pending_after_save now id req st :
  scheduledSnapshots (fst (SaveSnapshotConfig now id (Some req) st)) = scheduledSnapshots st \/
  scheduledSnapshots (fst (SaveSnapshotConfig now id (Some req) st))
  = List.filter (notOwnedBy (ReqAppID req)) (scheduledSnapshots st) \/
  (exists n, OwnerID n = ReqAppID req /\
     scheduledSnapshots (fst (SaveSnapshotConfig now id (Some req) st))
     = (List.filter (notOwnedBy (ReqAppID req)) (scheduledSnapshots st) ++ [n])%list).
Proof.
  destruct (SaveSnapshotConfig_outcome now id req st) as (_ & _ & _ & _ & Hp).
  destruct Hp as [Hp | [Hp | (cs & _ & _ & _ & _ & Hp)]]; [tauto | tauto |].
  right; right. eexists. split; [|exact Hp]. reflexivity.
Qed.

Lemma pending_after_instance_save now id req st c rest :
  ListClusters st = Ok (c :: rest) ->
  scheduledInstanceSnapshots (fst (SaveInstanceSnapshotConfig now id (Some req) st))
  = scheduledInstanceSnapshots st \/
  scheduledInstanceSnapshots (fst (SaveInstanceSnapshotConfig now id (Some req) st))
  = List.filter (notOwnedBy (ClusterID c)) (scheduledInstanceSnapshots st) \/
  (exists n, OwnerID n = ClusterID c /\
     scheduledInstanceSnapshots (fst (SaveInstanceSnapshotConfig now id (Some req) st))
     = (List.filter (notOwnedBy (ClusterID c)) (scheduledInstanceSnapshots st) ++ [n])%list).
Proof.
  intros Hlist.
  destruct (SaveInstanceSnapshotConfig_outcome now id req st c rest Hlist)
    as (_ & _ & _ & _ & Hp).
  destruct Hp as [Hp | [Hp | (cs & _ & _ & _ & _ & Hp)]]; [tauto | tauto |].
  right; right. eexists. split; [|exact Hp]. reflexivity.
Qed.

(** X13.  A save writes to one workload only, whatever its outcome.
    [SaveSnapshotConfig] leaves the clusters, the pending instance
    requests, the row of every other application and the pending
    requests of every other owner as they were;
    [SaveInstanceSnapshotConfig], which acts on the first cluster, leaves
    the applications, their pending requests, the clusters with another
    identifier and the pending instance requests of every other owner as
    they were.  This holds for every request and whichever calls the
    store fails. *)
Theorem save_touches_one_workload_only :
  (forall now id req st,
     clusters (fst (SaveSnapshotConfig now id (Some req) st)) = clusters st /\
     scheduledInstanceSnapshots (fst (SaveSnapshotConfig now id (Some req) st))
     = scheduledInstanceSnapshots st /\
     (forall j, j <> ReqAppID req ->
        apps (fst (SaveSnapshotConfig now id (Some req) st)) !! j = apps st !! j) /\
     (forall o, o <> ReqAppID req ->
        pendingOf o (scheduledSnapshots (fst (SaveSnapshotConfig now id (Some req) st)))
        = pendingOf o (scheduledSnapshots st))) /\
  (forall now id req st c rest,
     ListClusters st = Ok (c :: rest) ->
     apps (fst (SaveInstanceSnapshotConfig now id (Some req) st)) = apps st /\
     scheduledSnapshots (fst (SaveInstanceSnapshotConfig now id (Some req) st))
     = scheduledSnapshots st /\
     otherClusters (ClusterID c)
       (clusters (fst (SaveInstanceSnapshotConfig now id (Some req) st)))
     = otherClusters (ClusterID c) (clusters st) /\
     (forall o, o <> ClusterID c ->
        pendingOf o
          (scheduledInstanceSnapshots (fst (SaveInstanceSnapshotConfig now id (Some req) st)))
        = pendingOf o (scheduledInstanceSnapshots st))).
Proof.
  split.
  - intros now id req st.
    destruct (SaveSnapshotConfig_outcome now id req st) as (_ & Hc & Hi & Ha & Hp).
    repeat split; try assumption.
    intros o Ho.
    now apply (pendingOf_cases (ReqAppID req) o _ _ (pending_after_save now id req st)).
  - intros now id req st c rest Hlist.
    destruct (SaveInstanceSnapshotConfig_outcome now id req st c rest Hlist)
      as (_ & Ha & Hs & Hc & Hp).
    repeat split; try assumption.
    intros o Ho.
    now apply (pendingOf_cases (ClusterID c) o _ _
                 (pending_after_instance_save now id req st c rest Hlist)).
Qed.

(** X14.  At most one pending request per workload.  If an owner has at
    most one pending request before a save, it has at most one after it,
    for every request, every outcome and whichever calls the store
    fails: the handlers delete the pending requests of the workload
    before they create one.  This holds for applications and for the
    instance. *)
Theorem save_keeps_at_most_one_pending_request :
  (forall now id body st o,
     (length (pendingOf o (scheduledSnapshots st)) <= 1)%nat ->
     (length (pendingOf o (scheduledSnapshots (fst (SaveSnapshotConfig now id body st))))
      <= 1)%nat) /\
  (forall now id body st o,
     (length (pendingOf o (scheduledInstanceSnapshots st)) <= 1)%nat ->
     (length (pendingOf o
                (scheduledInstanceSnapshots (fst (SaveInstanceSnapshotConfig now id body st))))
      <= 1)%nat).
Proof.
  split.
  - intros now id [req|] st o; [|tauto].
    apply (pendingOf_cases (ReqAppID req) o _ _ (pending_after_save now id req st)).
  - intros now id [req|] st o; [|tauto].
    destruct (ListClusters st) as [[|c rest]|e] eqn:Hlist;
      try (unfold Handlers.SaveInstanceSnapshotConfig; rewrite Hlist; tauto).
    apply (pendingOf_cases (ClusterID c) o _ _
             (pending_after_instance_save now id req st c rest Hlist)).
Qed.

(** X15.  A pending request is created only by a save that succeeds.  If
    after a save there is a pending request that was not there before,
    then the save was answered with success, auto-scheduling was on, the
    cron expression parsed, the request is the one with the identifier
    drawn for it, owned by the workload and due at [Next] of the parsed
    schedule, and the schedule stored for the workload is the one of the
    request.  This holds for applications and for the instance. *)
Theorem pending_request_is_created_only_by_successful_save :
  (forall now id req st x,
     In x (scheduledSnapshots (fst (SaveSnapshotConfig now id (Some req) st))) ->
     ~ In x (scheduledSnapshots st) ->
     snd (SaveSnapshotConfig now id (Some req) st) = JSON 200 saved /\
     ReqAutoEnabled req = true /\
     appSchedules (fst (SaveSnapshotConfig now id (Some req) st)) !! ReqAppID req
     = Some (ReqSchedule req) /\
     exists cronSchedule,
       ParseStandard (ReqSchedule req) = Ok cronSchedule /\
       x = {| SnapshotID := id; OwnerID := ReqAppID req;
              ScheduledTimestamp := Next cronSchedule now |}) /\
  (forall now id req st c rest x,
     ListClusters st = Ok (c :: rest) ->
     In x (scheduledInstanceSnapshots (fst (SaveInstanceSnapshotConfig now id (Some req) st))) ->
     ~ In x (scheduledInstanceSnapshots st) ->
     snd (SaveInstanceSnapshotConfig now id (Some req) st) = JSON 200 saved /\
     IReqAutoEnabled req = true /\
     head (clusterSchedules (fst (SaveInstanceSnapshotConfig now id (Some req) st)))
     = Some (ClusterID c, IReqSchedule req) /\
     exists cronSchedule,
       ParseStandard (IReqSchedule req) = Ok cronSchedule /\
       x = {| SnapshotID := id; OwnerID := ClusterID c;
              ScheduledTimestamp := Next cronSchedule now |}).
Proof.
  split.
  - intros now id req st x Hin Hnew.
    destruct (SaveSnapshotConfig_outcome now id req st) as (_ & _ & _ & _ & Hp).
    destruct Hp as [Hp | [Hp | (cs & Hparse & Hauto & Hok & Hsched & Hp)]].
    + rewrite Hp in Hin. contradiction.
    + rewrite Hp in Hin. apply List.filter_In in Hin as [Hin _]. contradiction.
    + rewrite Hp in Hin. apply List.in_app_or in Hin as [Hin | [<- | []]].
      * apply List.filter_In in Hin as [Hin _]. contradiction.
      * repeat split; try assumption. eauto.
  - intros now id req st c rest x Hlist Hin Hnew.
    destruct (SaveInstanceSnapshotConfig_outcome now id req st c rest Hlist)
      as (_ & _ & _ & _ & Hp).
    destruct Hp as [Hp | [Hp | (cs & Hparse & Hauto & Hok & Hsched & Hp)]].
    + rewrite Hp in Hin. contradiction.
    + rewrite Hp in Hin. apply List.filter_In in Hin as [Hin _]. contradiction.
    + rewrite Hp in Hin. apply List.in_app_or in Hin as [Hin | [<- | []]].
      * apply List.filter_In in Hin as [Hin _]. contradiction.
      * repeat split; try assumption. eauto.
Qed.

End Handlers.

Section RoundTrip.
Variable CronSchedule : Type.
Variable ParseStandard : string -> result CronSchedule.
Variable Next : CronSchedule -> Z -> Z.
Variable FormatTTL : string -> string -> result string.

Local Abbreviation SaveSnapshotConfig :=
  (SaveSnapshotConfig CronSchedule ParseStandard Next FormatTTL).
Local Abbreviation SaveInstanceSnapshotConfig :=
  (SaveInstanceSnapshotConfig CronSchedule ParseStandard Next FormatTTL).

Lemma GetApp_up st id r :
  storeUp st -> apps st !! id = Some r -> GetApp st id = Ok (appOfRow id r).
Proof. intros Hup Hr. unfold GetApp. now rewrite Hup, Hr. Qed.

(** What an accepted [SaveSnapshotConfig] leaves in the store. *)
Lemma SaveSnapshotConfig_accepted now id req st app retention cronSchedule :
  storeUp st ->
  GetApp st (ReqAppID req) = Ok app ->
  FormatTTL (ReqInputValue req) (ReqInputTimeUnit req) = Ok retention ->
  (ReqAutoEnabled req = true -> ParseStandard (ReqSchedule req) = Ok cronSchedule) ->
  snd (SaveSnapshotConfig now id (Some req) st) = JSON 200 saved /\
  storeUp (fst (SaveSnapshotConfig now id (Some req) st)) /\
  GetApp (fst (SaveSnapshotConfig now id (Some req) st)) (ReqAppID req)
  = Ok {| ID := ReqAppID req; Slug := Slug app; SnapshotTTL := retention;
          SnapshotSchedule := if ReqAutoEnabled req then ReqSchedule req else "" |} /\
  (ReqAutoEnabled req = false ->
   pendingOf (ReqAppID req)
     (scheduledSnapshots (fst (SaveSnapshotConfig now id (Some req) st))) = []).
Proof.
  intros Hup Hget Hfmt Hparse. unfold Handlers.SaveSnapshotConfig.
  rewrite Hget, Hfmt.
  pose proof (GetApp_ID _ _ _ Hget) as Hid. rewrite Hid.
  apply GetApp_row in Hget as (r & Hr & ->). simpl in *.
  unfold SetSnapshotTTL, SetSnapshotSchedule, DeletePendingScheduledSnapshots,
    CreateScheduledSnapshot.
  destruct (String.eqb_spec (RowSnapshotTTL r) retention) as [Httl|Httl]; simpl;
    rewrite ?storeCall_up by exact Hup;
    (destruct (ReqAutoEnabled req); simpl;
     [ rewrite (Hparse eq_refl);
       destruct (String.eqb_spec (ReqSchedule req) (RowSnapshotSchedule r)) as [Hs|Hs]; simpl;
       rewrite ?storeCall_up by exact Hup; simpl
     | rewrite ?storeCall_up by exact Hup; simpl ]);
    (split; [reflexivity|]; split; [exact Hup|]; split;
     [ erewrite GetApp_up; [|exact Hup|];
       [| simpl; rewrite ?lookup_alter_eq, Hr; reflexivity ];
       unfold appOfRow; simpl; congruence
     | intros; try discriminate; try apply pendingOf_purged ]).
Qed.

Lemma ListClusters_up st : storeUp st -> ListClusters st = Ok (clusters st).
Proof. intros Hup. unfold ListClusters. now rewrite Hup. Qed.

(** What an accepted [SaveInstanceSnapshotConfig] leaves in the store. *)
Lemma SaveInstanceSnapshotConfig_accepted now id req st c rest retention cronSchedule :
  storeUp st ->
  ListClusters st = Ok (c :: rest) ->
  FormatTTL (IReqInputValue req) (IReqInputTimeUnit req) = Ok retention ->
  (IReqAutoEnabled req = true -> ParseStandard (IReqSchedule req) = Ok cronSchedule) ->
  snd (SaveInstanceSnapshotConfig now id (Some req) st) = JSON StatusOK saved /\
  storeUp (fst (SaveInstanceSnapshotConfig now id (Some req) st)) /\
  (exists rest',
     clusters (fst (SaveInstanceSnapshotConfig now id (Some req) st))
     = {| ClusterID := ClusterID c;
          ClusterSnapshotSchedule := if IReqAutoEnabled req then IReqSchedule req else "";
          ClusterSnapshotTTL := retention |} :: rest') /\
  (IReqAutoEnabled req = false ->
   pendingOf (ClusterID c)
     (scheduledInstanceSnapshots (fst (SaveInstanceSnapshotConfig now id (Some req) st)))
   = [] /\
   Forall (fun x => ClusterID x = ClusterID c -> ClusterSnapshotSchedule x = "")
     (clusters (fst (SaveInstanceSnapshotConfig now id (Some req) st)))).
Proof.
  intros Hup Hlist Hfmt Hparse. unfold Handlers.SaveInstanceSnapshotConfig.
  rewrite Hlist, Hfmt. apply ListClusters_head in Hlist.
  destruct c as [cid csched cttl]. simpl in *.
  assert (Hcleared : forall l,
             Forall (fun x => ClusterID x = cid -> ClusterSnapshotSchedule x = "")
               (map (fun x => if String.eqb (ClusterID x) cid
                              then {| ClusterID := ClusterID x;
                                      ClusterSnapshotSchedule := "";
                                      ClusterSnapshotTTL := ClusterSnapshotTTL x |}
                              else x) l)).
  { intros l. apply Forall_forall. intros y Hy. apply list_elem_of_In in Hy.
    apply List.in_map_iff in Hy as (x & <- & _).
    destruct (String.eqb_spec (ClusterID x) cid); simpl; tauto. }
  unfold SetInstanceSnapshotTTL, SetInstanceSnapshotSchedule,
    DeletePendingScheduledInstanceSnapshots, CreateScheduledInstanceSnapshot.
  destruct (String.eqb_spec cttl retention) as [Httl|Httl]; simpl;
    rewrite ?storeCall_up by exact Hup;
    (destruct (IReqAutoEnabled req); simpl;
     [ rewrite (Hparse eq_refl);
       destruct (String.eqb_spec (IReqSchedule req) csched) as [Hs|Hs];
       simpl; rewrite ?storeCall_up by exact Hup; simpl
     | rewrite ?storeCall_up by exact Hup; simpl ]);
    (split; [reflexivity|]; split; [exact Hup|]; split;
     [ rewrite Hlist; simpl; rewrite ?String.eqb_refl; simpl; rewrite ?String.eqb_refl;
       subst; eexists; reflexivity
     | intros; first [discriminate | split; [apply pendingOf_purged | apply Hcleared]] ]).
Qed.

Lemma nothing_to_purge o l : pendingOf o l = [] -> List.filter (notOwnedBy o) l = l.
Proof.
  unfold pendingOf, notOwnedBy. induction l as [|x l IH]; simpl; [reflexivity|].
  destruct (String.eqb (OwnerID x) o); simpl; [discriminate|].
  intros H. now rewrite IH.
Qed.

Lemma map_fixed {A} (g : A -> A) l : Forall (fun x => g x = x) l -> map g l = l.
Proof. induction 1 as [|x l Hx _ IH]; simpl; [reflexivity | now rewrite Hx, IH]. Qed.

(** X16.  Saving the same config again changes nothing.  After a save
    that was accepted (the store answers, the workload is found, the
    retention is valid and, with auto-scheduling on, the cron expression
    parses), the same request sent again, at any later time and with any
    identifier drawn, is answered with success and leaves the store
    exactly as the first save left it: no second pending request is
    queued.  This holds for applications and for the instance. *)
Theorem repeated_save_changes_nothing :
  (forall now id now' id' req st app retention cronSchedule,
     storeUp st ->
     GetApp st (ReqAppID req) = Ok app ->
     FormatTTL (ReqInputValue req) (ReqInputTimeUnit req) = Ok retention ->
     (ReqAutoEnabled req = true -> ParseStandard (ReqSchedule req) = Ok cronSchedule) ->
     SaveSnapshotConfig now' id' (Some req) (fst (SaveSnapshotConfig now id (Some req) st))
     = (fst (SaveSnapshotConfig now id (Some req) st), JSON 200 saved)) /\
  (forall now id now' id' req st c rest retention cronSchedule,
     storeUp st ->
     ListClusters st = Ok (c :: rest) ->
     FormatTTL (IReqInputValue req) (IReqInputTimeUnit req) = Ok retention ->
     (IReqAutoEnabled req = true -> ParseStandard (IReqSchedule req) = Ok cronSchedule) ->
     SaveInstanceSnapshotConfig now' id' (Some req)
       (fst (SaveInstanceSnapshotConfig now id (Some req) st))
     = (fst (SaveInstanceSnapshotConfig now id (Some req) st), JSON StatusOK saved)).
Proof.
  split.
  - intros now id now' id' req st app retention cs Hup Hget Hfmt Hparse.
    destruct (SaveSnapshotConfig_accepted now id req st app retention cs Hup Hget Hfmt Hparse)
      as (_ & Hup' & Hget' & Hpend).
    generalize dependent (fst (SaveSnapshotConfig now id (Some req) st)).
    intros st' Hup' Hget' Hpend.
    unfold Handlers.SaveSnapshotConfig at 1. rewrite Hget', Hfmt. simpl.
    rewrite String.eqb_refl. simpl.
    destruct (ReqAutoEnabled req).
    + simpl. rewrite (Hparse eq_refl), String.eqb_refl. reflexivity.
    + simpl. unfold SetSnapshotSchedule, DeletePendingScheduledSnapshots.
      rewrite !storeCall_up by exact Hup'. simpl.
      rewrite (nothing_to_purge _ _ (Hpend eq_refl)).
      apply GetApp_row in Hget' as (r & Hr & Happ).
      rewrite alter_id.
      * now destruct st'.
      * intros x Hx. rewrite Hr in Hx. injection Hx as <-.
        injection Happ as _ _ Hs. destruct r; simpl in *. now rewrite <- Hs.
  - intros now id now' id' req st c rest retention cs Hup Hlist Hfmt Hparse.
    destruct (SaveInstanceSnapshotConfig_accepted now id req st c rest retention cs
                Hup Hlist Hfmt Hparse) as (_ & Hup' & (rest' & Hcl) & Hpend).
    generalize dependent (fst (SaveInstanceSnapshotConfig now id (Some req) st)).
    intros st' Hup' Hcl Hpend.
    unfold Handlers.SaveInstanceSnapshotConfig at 1.
    rewrite (ListClusters_up _ Hup'), Hcl, Hfmt. simpl.
    rewrite String.eqb_refl. simpl.
    destruct (IReqAutoEnabled req).
    + simpl. rewrite (Hparse eq_refl), String.eqb_refl. reflexivity.
    + simpl. unfold SetInstanceSnapshotSchedule, DeletePendingScheduledInstanceSnapshots.
      rewrite !storeCall_up by exact Hup'. simpl.
      destruct (Hpend eq_refl) as [Hnone Hcleared].
      rewrite (nothing_to_purge _ _ Hnone), map_fixed.
      * now destruct st'.
      * eapply Forall_impl; [exact Hcleared|]. simpl. intros x Hx.
        destruct (String.eqb_spec (ClusterID x) (ClusterID c)) as [Heq|]; [|reflexivity].
        destruct x; simpl in *. now rewrite (Hx Heq).
Qed.

Variable ParseTTL : string -> result ParsedTTL.

Local Abbreviation GetSnapshotConfig := (GetSnapshotConfig ParseTTL).
Local Abbreviation GetInstanceSnapshotConfig := (GetInstanceSnapshotConfig ParseTTL).

(** X17.  A saved config is read back.  After an accepted save the
    application read by its id carries the retention of the request and,
    as schedule, the cron expression of the request when auto-scheduling
    is on and the empty string when it is off.  For the instance,
    [GetInstanceSnapshotConfig] then answers the retention of the request
    (when it parses back and is not empty) together with the request's
    schedule and auto-scheduling on, or with the schedule "0 0 * * MON"
    and auto-scheduling off. *)
Theorem saved_config_is_read_back :
  (forall now id req st app retention cronSchedule,
     storeUp st ->
     GetApp st (ReqAppID req) = Ok app ->
     FormatTTL (ReqInputValue req) (ReqInputTimeUnit req) = Ok retention ->
     (ReqAutoEnabled req = true -> ParseStandard (ReqSchedule req) = Ok cronSchedule) ->
     GetApp (fst (SaveSnapshotConfig now id (Some req) st)) (ReqAppID req)
     = Ok {| ID := ReqAppID req; Slug := Slug app; SnapshotTTL := retention;
             SnapshotSchedule := if ReqAutoEnabled req then ReqSchedule req else "" |}) /\
  (forall now id req st c rest retention cronSchedule parsed,
     storeUp st ->
     ListClusters st = Ok (c :: rest) ->
     FormatTTL (IReqInputValue req) (IReqInputTimeUnit req) = Ok retention ->
     (IReqAutoEnabled req = true -> ParseStandard (IReqSchedule req) = Ok cronSchedule) ->
     (IReqAutoEnabled req = true -> IReqSchedule req <> "") ->
     retention <> "" ->
     ParseTTL retention = Ok parsed ->
     GetInstanceSnapshotConfig (fst (SaveInstanceSnapshotConfig now id (Some req) st))
     = JSON StatusOK
         {| AutoEnabled := IReqAutoEnabled req;
            AutoSchedule :=
              {| Schedule := if IReqAutoEnabled req then IReqSchedule req
                             else "0 0 * * MON" |};
            TTl := {| InputValue := FormatInt (Quantity parsed);
                      InputTimeUnit := Unit parsed;
                      Converted := retention |} |}).
Proof.
  split.
  - intros now id req st app retention cs Hup Hget Hfmt Hparse.
    now destruct (SaveSnapshotConfig_accepted now id req st app retention cs
                    Hup Hget Hfmt Hparse) as (_ & _ & Hget' & _).
  - intros now id req st c rest retention cs parsed Hup Hlist Hfmt Hparse Hsched Hret Httl.
    destruct (SaveInstanceSnapshotConfig_accepted now id req st c rest retention cs
                Hup Hlist Hfmt Hparse) as (_ & Hup' & (rest' & Hcl) & _).
    unfold Handlers.GetInstanceSnapshotConfig.
    rewrite (ListClusters_up _ Hup'), Hcl. simpl.
    unfold ttlView, scheduleView.
    apply String.eqb_neq in Hret. rewrite Hret. simpl. rewrite Httl.
    destruct (IReqAutoEnabled req); [|reflexivity].
    specialize (Hsched eq_refl). apply String.eqb_neq in Hsched. now rewrite Hsched.
Qed.

(** X18.  What reading the snapshot config can answer.  The answer is a
    bare 500 or a 200 with a config whose schedule and retention are
    never empty: auto-scheduling is reported on exactly when the stored
    schedule is not empty, and then the schedule answered is the stored
    one; a stored retention that is not empty is answered as it is
    stored.  This holds for applications, read by slug, and for the
    instance, read as the first cluster. *)
Theorem snapshot_config_answer_is_never_empty :
  (forall st slug,
     GetSnapshotConfig slug st = WriteHeader StatusInternalServerError \/
     exists config app,
       GetSnapshotConfig slug st = JSON StatusOK config /\
       GetAppFromSlug st slug = Ok app /\
       Schedule (AutoSchedule config) <> "" /\
       Converted (TTl config) <> "" /\
       (AutoEnabled config = true <-> SnapshotSchedule app <> "") /\
       (AutoEnabled config = true -> Schedule (AutoSchedule config) = SnapshotSchedule app) /\
       (SnapshotTTL app <> "" -> Converted (TTl config) = SnapshotTTL app)) /\
  (forall st,
     GetInstanceSnapshotConfig st = WriteHeader StatusInternalServerError \/
     exists config c rest,
       GetInstanceSnapshotConfig st = JSON StatusOK config /\
       ListClusters st = Ok (c :: rest) /\
       Schedule (AutoSchedule config) <> "" /\
       Converted (TTl config) <> "" /\
       (AutoEnabled config = true <-> ClusterSnapshotSchedule c <> "") /\
       (AutoEnabled config = true ->
        Schedule (AutoSchedule config) = ClusterSnapshotSchedule c) /\
       (ClusterSnapshotTTL c <> "" -> Converted (TTl config) = ClusterSnapshotTTL c)).
Proof.
  assert (Hview : forall ttl sched,
             (exists e, ttlView ParseTTL ttl = Err e) \/
             exists view, ttlView ParseTTL ttl = Ok view /\
               Schedule (scheduleView sched) <> "" /\
               Converted view <> "" /\
               (negb (String.eqb sched "") = true <-> sched <> "") /\
               (negb (String.eqb sched "") = true -> Schedule (scheduleView sched) = sched) /\
               (ttl <> "" -> Converted view = ttl)).
  { intros ttl sched. unfold ttlView, scheduleView.
    destruct (String.eqb_spec ttl "") as [Ht|Ht]; simpl.
    - right. eexists. split; [reflexivity|]. simpl.
      destruct (String.eqb_spec sched "") as [Hs|Hs]; simpl;
        repeat split; try discriminate; try congruence; try tauto.
    - destruct (ParseTTL ttl) as [p|e]; [right | left; eauto].
      eexists. split; [reflexivity|]. simpl.
      destruct (String.eqb_spec sched "") as [Hs|Hs]; simpl;
        repeat split; try discriminate; try congruence; try tauto. }
  split.
  - intros st slug. unfold Handlers.GetSnapshotConfig.
    destruct (GetAppFromSlug st slug) as [app|e]; [|now left].
    destruct (Hview (SnapshotTTL app) (SnapshotSchedule app))
      as [[e H] | (view & H & Hrest)]; rewrite H; [now left|].
    right. eexists _, app. split; [reflexivity|]. split; [reflexivity|]. exact Hrest.
  - intros st. unfold Handlers.GetInstanceSnapshotConfig.
    destruct (ListClusters st) as [[|c rest]|e]; [now left | | now left].
    destruct (Hview (ClusterSnapshotTTL c) (ClusterSnapshotSchedule c))
      as [[e H] | (view & H & Hrest)]; rewrite H; [now left|].
    right. eexists _, c, rest. split; [reflexivity|]. split; [reflexivity|]. exact Hrest.
Qed.

End RoundTrip.

Lemma save_touches_one_workload_only_witness :
  apps (fst (Handlers.SaveSnapshotConfig Fixture.schedule Fixture.parseStandard Fixture.next
               Fixture.formatTTL 1000000 "n" (Some (Fixture.saveRequest "1" "@daily" true))
               Fixture.store0)) !! "app-2"
  = apps Fixture.store0 !! "app-2" /\
  pendingOf "app-2"
    (scheduledSnapshots
       (fst (Handlers.SaveSnapshotConfig Fixture.schedule Fixture.parseStandard Fixture.next
               Fixture.formatTTL 1000000 "n" (Some (Fixture.saveRequest "1" "@daily" true))
               Fixture.store0)))
  = [Fixture.pendingOther].
Proof.
  destruct (save_touches_one_workload_only Fixture.schedule Fixture.parseStandard
              Fixture.next Fixture.formatTTL) as [Happ _].
  destruct (Happ 1000000 "n" (Fixture.saveRequest "1" "@daily" true) Fixture.store0)
    as (_ & _ & Hrows & Hpending).
  split; [apply Hrows; discriminate | apply Hpending; discriminate].
Defined.

Lemma save_keeps_at_most_one_pending_request_witness :
  (length (pendingOf "app-1" (scheduledSnapshots Fixture.store0)) <= 1)%nat /\
  (length (pendingOf "app-1"
             (scheduledSnapshots
                (fst (Handlers.SaveSnapshotConfig Fixture.schedule Fixture.parseStandard
                        Fixture.next Fixture.formatTTL 1000000 "n"
                        (Some (Fixture.saveRequest "1" "@daily" true)) Fixture.store0))))
   <= 1)%nat.
Proof.
  assert (H : (length (pendingOf "app-1" (scheduledSnapshots Fixture.store0)) <= 1)%nat)
    by (simpl; lia).
  split; [exact H|].
  destruct (save_keeps_at_most_one_pending_request Fixture.schedule Fixture.parseStandard
              Fixture.next Fixture.formatTTL) as [Happ _].
  exact (Happ 1000000 "n" (Some (Fixture.saveRequest "1" "@daily" true)) Fixture.store0
           "app-1" H).
Defined.

Lemma pending_request_is_created_only_by_successful_save_witness :
  snd (Handlers.SaveSnapshotConfig Fixture.schedule Fixture.parseStandard Fixture.next
         Fixture.formatTTL 1000000 "n" (Some (Fixture.saveRequest "1" "@daily" true))
         Fixture.store0) = JSON 200 saved /\
  appSchedules (fst (Handlers.SaveSnapshotConfig Fixture.schedule Fixture.parseStandard
                       Fixture.next Fixture.formatTTL 1000000 "n"
                       (Some (Fixture.saveRequest "1" "@daily" true)) Fixture.store0))
    !! "app-1" = Some "@daily" /\
  exists cronSchedule,
    Fixture.parseStandard "@daily" = Ok cronSchedule /\
    {| SnapshotID := "n"; OwnerID := "app-1"; ScheduledTimestamp := 1036800 |}
    = {| SnapshotID := "n"; OwnerID := "app-1";
         ScheduledTimestamp := Fixture.next cronSchedule 1000000 |}.
Proof.
  destruct (pending_request_is_created_only_by_successful_save Fixture.schedule
              Fixture.parseStandard Fixture.next Fixture.formatTTL) as [Happ _].
  destruct (Happ 1000000 "n" (Fixture.saveRequest "1" "@daily" true) Fixture.store0
              {| SnapshotID := "n"; OwnerID := "app-1"; ScheduledTimestamp := 1036800 |})
    as (Hok & _ & Hsched & Hx).
  - right. left. reflexivity.
  - intros [H | [H | []]]; discriminate H.
  - split; [exact Hok|]. split; [exact Hsched | exact Hx].
Defined.

Lemma repeated_save_changes_nothing_witness :
  Handlers.SaveSnapshotConfig Fixture.schedule Fixture.parseStandard Fixture.next
    Fixture.formatTTL 2000000 "m" (Some (Fixture.saveRequest "1" "@daily" true))
    (fst (Handlers.SaveSnapshotConfig Fixture.schedule Fixture.parseStandard Fixture.next
            Fixture.formatTTL 1000000 "n" (Some (Fixture.saveRequest "1" "@daily" true))
            Fixture.store0))
  = (fst (Handlers.SaveSnapshotConfig Fixture.schedule Fixture.parseStandard Fixture.next
            Fixture.formatTTL 1000000 "n" (Some (Fixture.saveRequest "1" "@daily" true))
            Fixture.store0),
     JSON 200 saved).
Proof.
  destruct (repeated_save_changes_nothing Fixture.schedule Fixture.parseStandard
              Fixture.next Fixture.formatTTL) as [Happ _].
  apply (Happ 1000000 "n" 2000000 "m" (Fixture.saveRequest "1" "@daily" true) Fixture.store0
           {| ID := "app-1"; Slug := "sentry"; SnapshotTTL := "168h";
              SnapshotSchedule := "0 0 * * MON" |}
           "720h" Fixture.EveryDay).
  - exact store0_up.
  - reflexivity.
  - reflexivity.
  - reflexivity.
Defined.

Lemma saved_config_is_read_back_witness :
  Handlers.GetInstanceSnapshotConfig Fixture.parseTTL
    (fst (Handlers.SaveInstanceSnapshotConfig Fixture.schedule Fixture.parseStandard
            Fixture.next Fixture.formatTTL 1000000 "n"
            (Some (Fixture.saveInstanceRequest "1" "@daily" true)) Fixture.storeFresh))
  = JSON StatusOK
      {| AutoEnabled := true;
         AutoSchedule := {| Schedule := "@daily" |};
         TTl := {| InputValue := "1"; InputTimeUnit := "month"; Converted := "720h" |} |}.
Proof.
  destruct (saved_config_is_read_back Fixture.schedule Fixture.parseStandard
              Fixture.next Fixture.formatTTL Fixture.parseTTL) as [_ Hinstance].
  apply (Hinstance 1000000 "n" (Fixture.saveInstanceRequest "1" "@daily" true)
           Fixture.storeFresh
           {| ClusterID := "this-cluster"; ClusterSnapshotSchedule := "";
              ClusterSnapshotTTL := "" |}
           [] "720h" Fixture.EveryDay {| Quantity := 1; Unit := "month" |}).
  - intros k. reflexivity.
  - reflexivity.
  - reflexivity.
  - reflexivity.
  - discriminate.
  - discriminate.
  - reflexivity.
Defined.

End SaveFacts.

(* ===================================================================== *)
(** ** The command: the prompt and the spinner *)
(* ===================================================================== *)

Module CommandFacts.
Import Snapshot Cli Notions Shapes NFSFacts.

(** X19.  The prompt is settled by the first answer that counts.
    [promptForNFSReset] shows the warning, skips every answer that is
    neither an interrupt nor one of y, Y, n and N, and is decided by the
    first that is: y or Y returns true after logging an empty action,
    an interrupt, n or N exits the process with status -1.  The answers
    after it are left unread.  It never returns false, and with no
    answer that counts it waits for ever. *)
Theorem prompt_is_settled_by_first_answer_that_counts :
  (forall warningMsg s junk a rest,
     answers s = (junk ++ a :: rest)%list ->
     Forall (fun x => settles x = false) junk ->
     settles a = true ->
     promptForNFSReset warningMsg s
     = if confirms a
       then (logged (ActionWithoutSpinner "")
               (withAnswers rest (logged (ColoredInfo (String "010" warningMsg)) s)),
             inl true)
       else (withAnswers rest (logged (ColoredInfo (String "010" warningMsg)) s),
             inr (Exited (-1)))) /\
  (forall warningMsg s,
     Forall (fun x => settles x = false) (answers s) ->
     promptForNFSReset warningMsg s
     = (withAnswers [] (logged (ColoredInfo (String "010" warningMsg)) s), inr Blocked)) /\
  (forall warningMsg s, snd (promptForNFSReset warningMsg s) <> inl false).
Proof.
  split; [|split].
  - apply promptForNFSReset_first.
  - intros msg s Hall. unfold promptForNFSReset. simpl answers.
    rewrite <- (List.app_nil_r (answers s)), promptLoop_skips by assumption.
    reflexivity.
  - intros msg s. unfold promptForNFSReset.
    assert (Hloop : forall todo rest, promptLoop todo <> (rest, Some (Some false))).
    { induction todo as [|a todo IH]; intros rest; simpl; [discriminate|].
      destruct (Interrupted a); [discriminate|].
      destruct (String.eqb _ "n"); [discriminate|].
      destruct (String.eqb _ "y"); [discriminate|]. apply IH. }
    destruct (promptLoop _) as [rest [[[]|]|]] eqn:E; simpl; try discriminate.
    now apply Hloop in E.
Qed.

Lemma prompt_is_settled_by_first_answer_that_counts_witness :
  promptForNFSReset "reset?" (Fixture.terminal Fixture.onShareA ["maybe"; ""; "Y"; "n"])
  = (logged (ActionWithoutSpinner "")
       (withAnswers [{| Resp := "n"; Interrupted := false |}]
          (logged (ColoredInfo (String "010" "reset?"))
             (Fixture.terminal Fixture.onShareA ["maybe"; ""; "Y"; "n"]))),
     inl true).
Proof.
  destruct prompt_is_settled_by_first_answer_that_counts as [Hfirst _].
  apply (Hfirst "reset?" (Fixture.terminal Fixture.onShareA ["maybe"; ""; "Y"; "n"])
           [{| Resp := "maybe"; Interrupted := false |}; {| Resp := ""; Interrupted := false |}]
           {| Resp := "Y"; Interrupted := false |}
           [{| Resp := "n"; Interrupted := false |}]).
  - reflexivity.
  - repeat constructor.
  - reflexivity.
Defined.

Section Command.
Variable validateNamespace : string -> option error.
Variable IsOpenShift : Cluster -> bool.
Variable getRegistryConfig : Flags -> result KotsadmOptions.
Variable NFSStore : Type.
Variable BuildNFSStore : string -> Cluster -> result NFSStore.
Variable InstallVeleroFromNFSStore : NFSStore -> string -> KotsadmOptions -> bool -> M unit.
Variable ConfigureVeleroDeployment : string -> KotsadmOptions -> M unit.
Variable ConfigureStore : ConfigureStoreOptions -> M unit.
Variable WaitForVeleroReady : M unit.

Local Abbreviation configureVelero :=
  (configureVelero NFSStore BuildNFSStore InstallVeleroFromNFSStore
     ConfigureVeleroDeployment ConfigureStore WaitForVeleroReady).
Local Abbreviation BackupConfigureNFSCmd :=
  (BackupConfigureNFSCmd validateNamespace IsOpenShift getRegistryConfig NFSStore
     BuildNFSStore InstallVeleroFromNFSStore ConfigureVeleroDeployment ConfigureStore
     WaitForVeleroReady).

Lemma spinnerRunning_app l e :
  spinnerRunning (l ++ [e])%list = spinnerStep (spinnerRunning l) e.
Proof. unfold spinnerRunning. now rewrite List.fold_left_app. Qed.

Ltac paths :=
  repeat match goal with
         | |- context [match ?x with _ => _ end] =>
             lazymatch x with
             | context [match _ with _ => _ end] => fail
             | _ => destruct x eqn:?
             end
         end.

Ltac settled :=
  intros; try discriminate;
  match goal with
  | H : (_, Returned _) = (_, Returned _) |- _ => injection H as <- <-
  end;
  cbn [log logged withCluster withAnswers]; rewrite ?spinnerRunning_app;
  cbn [spinnerStep]; auto.

(** No spinner is left running by the part that installs or configures
    velero. *)
Lemma configureVelero_finishes_spinner v registryOptions s s' e :
  configureVelero v registryOptions s = (s', Returned e) ->
  spinnerRunning (log s) = false ->
  spinnerRunning (log s') = false.
Proof.
  unfold Cli.configureVelero, onCluster. paths; settled.
Qed.


(** X21.  Declining the reset leaves the backend as it was.  When the
    flags are valid, the NFS backend of the cluster was provisioned
    against another share and the first answer that counts is not a yes
    (n, N or an interrupt), the command shows the conflict text, exits
    with status -1 and has changed nothing in the cluster; the log holds
    the start of the set-up, the failed spinner and the warning. *)
Theorem declined_reset_leaves_backend_untouched (v : Flags) (s : CliState)
    (registryOptions : KotsadmOptions) (prior : NFSBackend)
    (junk : list PromptAnswer) (a : PromptAnswer) (rest : list PromptAnswer) :
  validateNamespace (FlagNamespace v) = None ->
  FlagPath v <> "" ->
  FlagServer v <> "" ->
  faults (cluster s) CallClientset = None ->
  getRegistryConfig v = Ok registryOptions ->
  nfsBackend (cluster s) = Some prior ->
  RecordedConfig prior <> {| Path := FlagPath v; Server := FlagServer v |} ->
  answers s = (junk ++ a :: rest)%list ->
  Forall (fun x => settles x = false) junk ->
  settles a = true ->
  confirms a = false ->
  BackupConfigureNFSCmd v s
  = ({| cluster := cluster s;
        log := (log s ++
                [ActionWithSpinner "Setting up NFS Minio"; FinishSpinnerWithError;
                 ColoredInfo
                   (String "010"
                      (resetNFSWarning (RecordedConfig prior)
                         {| Path := FlagPath v; Server := FlagServer v |}))])%list;
        answers := rest |},
     Exited (-1)).
Proof.
  intros Hns Hpath Hserver Hcs Hreg Hprior Hother Hanswers Hjunk Ha Hno.
  unfold Cli.BackupConfigureNFSCmd. rewrite Hns.
  apply String.eqb_neq in Hpath, Hserver. rewrite Hpath, Hserver, Hcs, Hreg.
  cbv zeta. unfold onCluster, DeployNFSMinio. simpl cluster. rewrite Hprior.
  simpl DeployNFSConfig. simpl ForceReset.
  rewrite (NFSFacts.NFSConfig_eqb_neq _ _ Hother). simpl isResetNFSError. cbv iota.
  erewrite promptForNFSReset_first; [|exact Hanswers|exact Hjunk|exact Ha].
  rewrite Hno. unfold logged, withAnswers, withCluster. simpl.
  now rewrite <- !List.app_assoc.
Qed.

End Command.


Lemma declined_reset_leaves_backend_untouched_witness :
  Cli.BackupConfigureNFSCmd Fixture.anyNamespace Fixture.notOpenShift
    Fixture.optionsFromFlags unit Fixture.buildNFSStore
    Fixture.installFromNFSStore Fixture.configureVeleroDeployment
    Fixture.configureStore Fixture.waitForVeleroReady Fixture.flagsB
    (Fixture.terminal Fixture.onShareA ["what"; "N"])
  = ({| cluster := Fixture.onShareA;
        log := [ActionWithSpinner "Setting up NFS Minio"; FinishSpinnerWithError;
                ColoredInfo (String "010" (resetNFSWarning Fixture.shareA Fixture.shareB))];
        answers := [] |},
     Exited (-1)).
Proof.
  apply (declined_reset_leaves_backend_untouched Fixture.anyNamespace Fixture.notOpenShift
           Fixture.optionsFromFlags unit Fixture.buildNFSStore
           Fixture.installFromNFSStore Fixture.configureVeleroDeployment
           Fixture.configureStore Fixture.waitForVeleroReady Fixture.flagsB
           (Fixture.terminal Fixture.onShareA ["what"; "N"]) Fixture.noRegistry
           {| RecordedConfig := Fixture.shareA; CredentialsGeneration := 0 |}
           [{| Resp := "what"; Interrupted := false |}]
           {| Resp := "N"; Interrupted := false |} []);
    try reflexivity; try discriminate.
  repeat constructor.
Defined.

End CommandFacts.

(* ===================================================================== *)
(** ** The NFS and settings handlers: what an answer implies *)
(* ===================================================================== *)

Module AnswerFacts.
Import Snapshot Handlers Notions Shapes.

Ltac paths :=
  repeat match goal with
         | |- context [match ?x with _ => _ end] =>
             lazymatch x with
             | context [match _ with _ => _ end] => fail
             | _ => destruct x eqn:?
             end
         end.

(** Without a backup storage location named "default" the engine is not
    detected. *)
Lemma DetectVelero_absent c :
  faults c CallGetConfig = None ->
  faults c CallNewVeleroClient = None ->
  faults c CallNewClientset = None ->
  ((exists err, ListBackupStorageLocations c = Err err) \/
   (exists items, ListBackupStorageLocations c = Ok items /\
      Forall (fun b => Name (BSLMeta b) <> "default") items)) ->
  DetectVelero c = Value None.
Proof.
  intros Hcfg Hvc Hcs Habsent.
  unfold DetectVelero, DetectVeleroNamespace. rewrite Hcfg, Hcs, Hvc.
  destruct Habsent as [[err ->] | (items & -> & Hnone)].
  - now destruct (IsNotFound (Some err)).
  - rewrite DetectionFacts.find_none_of_Forall; [reflexivity|].
    eapply Forall_impl; [exact Hnone|]. simpl. intros b Hb.
    now apply String.eqb_neq.
Qed.

Section NFS.
Variable IsKurl : Cluster -> bool.
Variable ImageRewriteKotsadmRegistry :
  string -> KotsadmOptions -> string -> bool ->
  result (string * list LocalObjectReference).
Variable EnsurePrivateKotsadmRegistrySecret :
  string -> KotsadmOptions -> Secrets -> result Secrets.
Variable IsKotsadmClusterScoped : Cluster -> bool.
Variable IsOpenShift : Cluster -> bool.
Variable GetKotsadmOptionsFromCluster : string -> Cluster -> result KotsadmOptions.
Variable InstallVeleroFromStoreNFS : string -> KotsadmOptions -> bool -> M unit.
Variable ConfigureStore : ConfigureStoreOptions -> M unit.
Variable WaitForVeleroReady : M unit.

Local Abbreviation configureNFSMinio :=
  (configureNFSMinio IsOpenShift GetKotsadmOptionsFromCluster).
Local Abbreviation ConfigureVeleroImages :=
  (ConfigureVeleroImages IsKurl ImageRewriteKotsadmRegistry EnsurePrivateKotsadmRegistrySecret).
Local Abbreviation ConfigureNFSSnapshots :=
  (ConfigureNFSSnapshots IsKurl ImageRewriteKotsadmRegistry EnsurePrivateKotsadmRegistrySecret
     IsKotsadmClusterScoped IsOpenShift GetKotsadmOptionsFromCluster
     InstallVeleroFromStoreNFS ConfigureStore WaitForVeleroReady).

(** X22.  What a success answer of [ConfigureNFSSnapshots] implies.  If
    the handler answers a body with [Success] set, then the status is
    200, the body is exactly success without error text and without the
    minimal-RBAC flag, kotsadm is cluster scoped, the NFS backend step
    returned [nil], and then either no velero namespace was detected and
    the velero installation returned [nil], or one was detected and the
    image configuration, the store configuration and the wait for velero
    returned [nil] one after the other; the cluster answered with is the
    one the last of these steps left. *)
Theorem nfs_success_answer_means_every_step_succeeded
    (namespace : string) (body : option ConfigureNFSSnapshotsRequest)
    (c c' : Cluster) (code : Z) (response : ConfigureNFSSnapshotsResponse) :
  ConfigureNFSSnapshots namespace body c = (c', JSON code response) ->
  NFSSuccess response = true ->
  code = StatusOK /\
  response = nfsResponse true "" false /\
  IsKotsadmClusterScoped c = true /\
  exists request c1 registryOptions veleroNamespace,
    body = Some request /\
    configureNFSMinio namespace (ReqNFSOptions request) c = (c1, Value tt) /\
    GetKotsadmOptionsFromCluster namespace c1 = Ok registryOptions /\
    DetectVeleroNamespace c1 = Ok veleroNamespace /\
    ((veleroNamespace = "" /\
      InstallVeleroFromStoreNFS namespace registryOptions true c1 = (c', Value tt)) \/
     (veleroNamespace <> "" /\
      exists c2 c3,
        ConfigureVeleroImages namespace registryOptions c1 = (c2, Value tt) /\
        ConfigureStore {| StoreNFS := true; KotsadmNamespace := namespace |} c2
        = (c3, Value tt) /\
        WaitForVeleroReady c3 = (c', Value tt))).
Proof.
  unfold Handlers.ConfigureNFSSnapshots, installOrConfigureVelero.
  paths; intros H Hs; try discriminate H; injection H as <- <- <-; try discriminate Hs;
    repeat match goal with u : unit |- _ => destruct u end.
  - split; [reflexivity|]. split; [reflexivity|]. split.
    { now destruct (IsKotsadmClusterScoped c). }
    eexists _, _, _, _. repeat split; try eassumption.
    left. split; [now apply String.eqb_eq | assumption].
  - split; [reflexivity|]. split; [reflexivity|]. split.
    { now destruct (IsKotsadmClusterScoped c). }
    eexists _, _, _, _. repeat split; try eassumption.
    right. split; [now apply String.eqb_neq | eauto].
Qed.

(** X23.  The handler changes the cluster only after its checks.  If
    the cluster after [ConfigureNFSSnapshots] differs from the one
    before, then the request was decoded, the client set was obtained,
    kotsadm is cluster scoped (minimal RBAC is off) and the registry
    options of kotsadm were read from the cluster. *)
Theorem nfs_handler_changes_nothing_before_its_checks
    (namespace : string) (body : option ConfigureNFSSnapshotsRequest) (c : Cluster) :
  fst (ConfigureNFSSnapshots namespace body c) <> c ->
  exists request registryOptions,
    body = Some request /\
    faults c CallClientset = None /\
    IsKotsadmClusterScoped c = true /\
    GetKotsadmOptionsFromCluster namespace c = Ok registryOptions.
Proof.
  unfold Handlers.ConfigureNFSSnapshots, Handlers.configureNFSMinio.
  destruct body as [request|]; [|simpl; congruence].
  destruct (faults c CallClientset); [simpl; congruence|].
  destruct (IsKotsadmClusterScoped c); [|simpl; congruence].
  destruct (GetKotsadmOptionsFromCluster namespace c) as [registryOptions|err].
  - intros _. exists request, registryOptions. repeat split.
  - simpl. destruct (isResetNFSError _); simpl; congruence.
Qed.

End NFS.

Section GlobalSettings.
Import Settings.

Variables StoreAWS StoreGoogle StoreAzure StoreOther : Type.
Variable SnapshotStore : Type.
Variable storeHasNFS : SnapshotStore -> bool.
Variable ErrorResponse : Type.
Variable NewErrorResponse : error -> ErrorResponse.
Variable IsKotsadmOpenShift : Cluster -> bool.
Variable GetKotsadmOptionsFromCluster : string -> Cluster -> result KotsadmOptions.
Variable kurlIsKurl : Cluster -> bool.
Variable ConfigureStore :
  Settings.ConfigureStoreOptions StoreAWS StoreGoogle StoreAzure StoreOther -> M SnapshotStore.
Variable isInvalidStoreDataError : error -> bool.
Variable GetCurrentNFSConfig : string -> Cluster -> result (option NFSConfig).

Local Abbreviation UpdateGlobalSnapshotSettings :=
  (Settings.UpdateGlobalSnapshotSettings StoreAWS StoreGoogle StoreAzure StoreOther
     SnapshotStore storeHasNFS ErrorResponse NewErrorResponse IsKotsadmOpenShift
     GetKotsadmOptionsFromCluster kurlIsKurl ConfigureStore isInvalidStoreDataError
     GetCurrentNFSConfig).
Local Abbreviation configureNFSMinio :=
  (configureNFSMinio IsKotsadmOpenShift GetKotsadmOptionsFromCluster).

(** X24.  Updating the settings without velero does nothing.  On a
    cluster whose client configuration can be obtained, if listing the
    backup storage locations errors or no location is named "default",
    [UpdateGlobalSnapshotSettings] answers every decoded request, also
    one that asks for an NFS backend with a forced reset, with status
    200 and a body that is zero in every field ([Success] is false and
    there is no error text), and the cluster is unchanged: neither the
    NFS backend nor the store is configured. *)
Theorem settings_update_without_velero_changes_nothing
    (namespace : string)
    (request : UpdateGlobalSnapshotSettingsRequest StoreAWS StoreGoogle StoreAzure StoreOther)
    (c : Cluster) :
  faults c CallGetConfig = None ->
  faults c CallNewVeleroClient = None ->
  faults c CallNewClientset = None ->
  ((exists err, ListBackupStorageLocations c = Err err) \/
   (exists items, ListBackupStorageLocations c = Ok items /\
      Forall (fun b => Name (BSLMeta b) <> "default") items)) ->
  UpdateGlobalSnapshotSettings namespace (Some request) c
  = (c, JSON StatusOK (inl settingsResponse0)).
Proof.
  intros Hcfg Hvc Hcs Habsent. unfold Settings.UpdateGlobalSnapshotSettings.
  now rewrite (DetectVelero_absent c Hcfg Hvc Hcs Habsent).
Qed.

(** X25.  What a success answer of [UpdateGlobalSnapshotSettings]
    implies.  If the handler answers a settings body with [Success] set,
    then the status is 200, velero was detected, the NFS backend step,
    if the request asked for one, returned [nil], and the store
    configuration returned the store that the body carries; the body
    reports the version, plugins and restic version detected, velero as
    running exactly when the detected status is "Ready" and restic
    likewise, and an NFS config only for a store backed by NFS. *)
Theorem settings_success_answer_means_store_was_configured
    (namespace : string)
    (body : option (UpdateGlobalSnapshotSettingsRequest
                      StoreAWS StoreGoogle StoreAzure StoreOther))
    (c c' : Cluster) (code : Z) (response : GlobalSnapshotSettingsResponse SnapshotStore) :
  UpdateGlobalSnapshotSettings namespace body c = (c', JSON code (inl response)) ->
  SettingsSuccess response = true ->
  code = StatusOK /\
  exists request veleroStatus c1 store,
    body = Some request /\
    DetectVelero c = Value (Some veleroStatus) /\
    match UpdNFS request with
    | Some opts => configureNFSMinio namespace opts c = (c1, Value tt)
    | None => c1 = c
    end /\
    ConfigureStore
      {| OptProvider := UpdProvider request; OptBucket := UpdBucket request;
         OptStorePath := UpdPath request; OptAWS := UpdAWS request;
         OptGoogle := UpdGoogle request; OptAzure := UpdAzure request;
         OptOther := UpdOther request; OptInternal := UpdInternal request;
         OptNFS := match UpdNFS request with Some _ => true | None => false end;
         OptKotsadmNamespace := namespace |} c1
    = (c', Value store) /\
    SettingsStore response = Some store /\
    VeleroVersion response = Version veleroStatus /\
    VeleroPlugins response = Plugins veleroStatus /\
    ResticVersion_ response = ResticVersion veleroStatus /\
    IsVeleroRunning response = String.eqb (Status veleroStatus) "Ready" /\
    IsResticRunning response = String.eqb (ResticStatus veleroStatus) "Ready" /\
    (SettingsNFSConfig response <> None -> storeHasNFS store = true).
Proof.
  unfold Settings.UpdateGlobalSnapshotSettings, configureStoreAndAnswer.
  paths; intros H Hs; try discriminate H; injection H as <- <- <-; try discriminate Hs;
    repeat match goal with u : unit |- _ => destruct u end;
    (split; [reflexivity|]);
    eexists _, _, _, _; (split; [reflexivity|]); (split; [reflexivity|]);
    match goal with
    | H : UpdNFS _ = _ |- _ => rewrite H
    end;
    (split; [first [eassumption | reflexivity]|]);
    (split; [eassumption|]); simpl; repeat split; try congruence.
Qed.

(** X26.  When the settings update answers a conflict.  If
    [UpdateGlobalSnapshotSettings] answers status 409, then velero was
    detected, the request asked for an NFS backend, the NFS backend step
    failed with a reset conflict, the body carries the text of that
    error next to the detected status with [Success] false, and the
    store configuration was not run: the cluster answered with is the
    one the failed step left. *)
Theorem settings_conflict_answer_means_reset_is_needed
    (namespace : string)
    (body : option (UpdateGlobalSnapshotSettingsRequest
                      StoreAWS StoreGoogle StoreAzure StoreOther))
    (c c' : Cluster)
    (answer : GlobalSnapshotSettingsResponse SnapshotStore + ErrorResponse) :
  UpdateGlobalSnapshotSettings namespace body c = (c', JSON StatusConflict answer) ->
  exists request opts veleroStatus err,
    body = Some request /\
    UpdNFS request = Some opts /\
    DetectVelero c = Value (Some veleroStatus) /\
    configureNFSMinio namespace opts c = (c', Raise err) /\
    isResetNFSError err = true /\
    answer = inl (withSettingsError (withVeleroStatus kurlIsKurl veleroStatus c) (Error err)).
Proof.
  unfold Settings.UpdateGlobalSnapshotSettings, configureStoreAndAnswer.
  paths; intros H; try discriminate H; injection H as <- <-.
  eexists _, _, _, _. repeat split; try eassumption; reflexivity.
Qed.

Variable GetGlobalStore : Cluster -> result SnapshotStore.
Variable Redact : SnapshotStore -> result SnapshotStore.

Local Abbreviation GetGlobalSnapshotSettings :=
  (Settings.GetGlobalSnapshotSettings SnapshotStore storeHasNFS kurlIsKurl
     GetCurrentNFSConfig GetGlobalStore Redact).

(** X27.  A store is answered only after redaction.  If
    [GetGlobalSnapshotSettings] answers a body that carries a store,
    then the status is 200 with [Success] set, velero was detected, and
    the store is what [Redact] made of the global store: no answer
    carries the store as it was read.  An NFS config is answered only
    for a redacted store that is backed by NFS, and the detection fields
    are those of [DetectVelero]. *)
Theorem settings_answer_carries_redacted_store_only
    (namespace : string) (c : Cluster) (code : Z)
    (response : GlobalSnapshotSettingsResponse SnapshotStore) (store : SnapshotStore) :
  GetGlobalSnapshotSettings namespace c = JSON code response ->
  SettingsStore response = Some store ->
  code = StatusOK /\
  SettingsSuccess response = true /\
  exists veleroStatus raw,
    DetectVelero c = Value (Some veleroStatus) /\
    GetGlobalStore c = Ok raw /\
    Redact raw = Ok store /\
    VeleroVersion response = Version veleroStatus /\
    IsVeleroRunning response = String.eqb (Status veleroStatus) "Ready" /\
    IsResticRunning response = String.eqb (ResticStatus veleroStatus) "Ready" /\
    (SettingsNFSConfig response <> None -> storeHasNFS store = true).
Proof.
  unfold Settings.GetGlobalSnapshotSettings.
  paths; intros H Hs; try discriminate H; injection H as <- <-; try discriminate Hs;
    simpl in Hs; injection Hs as <-;
    (split; [reflexivity|]); (split; [reflexivity|]);
    eexists _, _; repeat split; try eassumption; try reflexivity; simpl; congruence.
Qed.

End GlobalSettings.

Import Fixture Samples.

Lemma nfs_success_answer_means_every_step_succeeded_witness :
  ConfigureNFSSnapshots isKurl imageRewrite ensureSecret clusterScoped notOpenShift
    optionsInCluster installFromStoreNFS configureStore waitForVeleroReady
    "default" (Some (requestB false)) bare
  = (setNFSBackend bare (Some {| RecordedConfig := shareB; CredentialsGeneration := 0 |}),
     JSON 200 (nfsResponse true "" false)) /\
  200 = StatusOK /\
  nfsResponse true "" false = nfsResponse true "" false /\
  clusterScoped bare = true /\
  exists request c1 registryOptions veleroNamespace,
    Some (requestB false) = Some request /\
    configureNFSMinio notOpenShift optionsInCluster "default" (ReqNFSOptions request) bare
    = (c1, Value tt) /\
    optionsInCluster "default" c1 = Ok registryOptions /\
    DetectVeleroNamespace c1 = Ok veleroNamespace /\
    ((veleroNamespace = "" /\
      installFromStoreNFS "default" registryOptions true c1
      = (setNFSBackend bare (Some {| RecordedConfig := shareB; CredentialsGeneration := 0 |}),
         Value tt)) \/
     (veleroNamespace <> "" /\
      exists c2 c3,
        ConfigureVeleroImages isKurl imageRewrite ensureSecret "default" registryOptions c1
        = (c2, Value tt) /\
        configureStore {| StoreNFS := true; KotsadmNamespace := "default" |} c2
        = (c3, Value tt) /\
        waitForVeleroReady c3
        = (setNFSBackend bare (Some {| RecordedConfig := shareB; CredentialsGeneration := 0 |}),
           Value tt))).
Proof.
  assert (Hrun : ConfigureNFSSnapshots isKurl imageRewrite ensureSecret clusterScoped
                   notOpenShift optionsInCluster installFromStoreNFS configureStore
                   waitForVeleroReady "default" (Some (requestB false)) bare
                 = (setNFSBackend bare
                      (Some {| RecordedConfig := shareB; CredentialsGeneration := 0 |}),
                    JSON 200 (nfsResponse true "" false)))
    by (vm_compute; reflexivity).
  split; [exact Hrun|].
  exact (nfs_success_answer_means_every_step_succeeded isKurl imageRewrite ensureSecret
           clusterScoped notOpenShift optionsInCluster installFromStoreNFS configureStore
           waitForVeleroReady "default" (Some (requestB false)) bare _ 200 _ Hrun eq_refl).
Defined.

Lemma nfs_handler_changes_nothing_before_its_checks_witness :
  exists request registryOptions,
    Some (requestB false) = Some request /\
    faults bare CallClientset = None /\
    clusterScoped bare = true /\
    optionsInCluster "default" bare = Ok registryOptions.
Proof.
  apply (nfs_handler_changes_nothing_before_its_checks isKurl imageRewrite ensureSecret
           clusterScoped notOpenShift optionsInCluster installFromStoreNFS configureStore
           waitForVeleroReady "default" (Some (requestB false)) bare).
  intros H. apply (f_equal nfsBackend) in H. vm_compute in H. discriminate H.
Defined.

Lemma settings_update_without_velero_changes_nothing_witness :
  Settings.UpdateGlobalSnapshotSettings unit unit unit unit bool nfsOf string Error
    notOpenShift optionsInCluster isKurl configureGlobalStore neverInvalid currentNFSConfig
    "default" (Some (updateToShareB true)) bare
  = (bare, JSON StatusOK (inl Settings.settingsResponse0)).
Proof.
  apply (settings_update_without_velero_changes_nothing unit unit unit unit bool nfsOf
           string Error notOpenShift optionsInCluster isKurl configureGlobalStore
           neverInvalid currentNFSConfig "default" (updateToShareB true) bare);
    try reflexivity.
  right. exists []. split; [reflexivity | constructor].
Defined.

Lemma settings_success_answer_means_store_was_configured_witness :
  Settings.UpdateGlobalSnapshotSettings unit unit unit unit bool nfsOf string Error
    notOpenShift optionsInCluster isKurl configureGlobalStore neverInvalid currentNFSConfig
    "default" (Some (updateToShareB true)) onShareA
  = (setNFSBackend onShareA (Some {| RecordedConfig := shareB; CredentialsGeneration := 1 |}),
     JSON 200
       (inl {| Settings.VeleroVersion := "v1.5.1";
               Settings.VeleroPlugins := ["velero-plugin-for-aws"];
               Settings.IsVeleroRunning := true;
               Settings.ResticVersion_ := "v1.5.1";
               Settings.IsResticRunning := true;
               Settings.SettingsIsKurl := false;
               Settings.SettingsStore := Some true;
               Settings.SettingsNFSConfig := Some shareB;
               Settings.SettingsSuccess := true;
               Settings.SettingsError := "" |})) /\
  200 = StatusOK.
Proof.
  assert (Hrun : Settings.UpdateGlobalSnapshotSettings unit unit unit unit bool nfsOf
                   string Error notOpenShift optionsInCluster isKurl configureGlobalStore
                   neverInvalid currentNFSConfig "default" (Some (updateToShareB true))
                   onShareA
                 = (setNFSBackend onShareA
                      (Some {| RecordedConfig := shareB; CredentialsGeneration := 1 |}),
                    JSON 200
                      (inl {| Settings.VeleroVersion := "v1.5.1";
                              Settings.VeleroPlugins := ["velero-plugin-for-aws"];
                              Settings.IsVeleroRunning := true;
                              Settings.ResticVersion_ := "v1.5.1";
                              Settings.IsResticRunning := true;
                              Settings.SettingsIsKurl := false;
                              Settings.SettingsStore := Some true;
                              Settings.SettingsNFSConfig := Some shareB;
                              Settings.SettingsSuccess := true;
                              Settings.SettingsError := "" |})))
    by (vm_compute; reflexivity).
  split; [exact Hrun|].
  exact (proj1 (settings_success_answer_means_store_was_configured unit unit unit unit bool
                  nfsOf string Error notOpenShift optionsInCluster isKurl
                  configureGlobalStore neverInvalid currentNFSConfig "default"
                  (Some (updateToShareB true)) onShareA _ 200 _ Hrun eq_refl)).
Defined.

Lemma settings_conflict_answer_means_reset_is_needed_witness :
  exists request opts veleroStatus err,
    Some (updateToShareB false) = Some request /\
    Settings.UpdNFS request = Some opts /\
    DetectVelero onShareA = Value (Some veleroStatus) /\
    configureNFSMinio notOpenShift optionsInCluster "default" opts onShareA
    = (onShareA, Raise err) /\
    isResetNFSError err = true /\
    inl (Settings.withSettingsError
           (Settings.withVeleroStatus isKurl
              {| Version := "v1.5.1"; Plugins := ["velero-plugin-for-aws"];
                 Status := "Ready"; ResticVersion := "v1.5.1"; ResticStatus := "Ready" |}
              onShareA)
           (resetNFSWarning shareA shareB))
    = @inl (Settings.GlobalSnapshotSettingsResponse bool) string
        (Settings.withSettingsError (Settings.withVeleroStatus isKurl veleroStatus onShareA)
           (Error err)).
Proof.
  apply (settings_conflict_answer_means_reset_is_needed unit unit unit unit bool nfsOf
           string Error notOpenShift optionsInCluster isKurl configureGlobalStore
           neverInvalid currentNFSConfig "default" (Some (updateToShareB false))
           onShareA onShareA).
  vm_compute. reflexivity.
Defined.

Lemma settings_answer_carries_redacted_store_only_witness :
  Settings.GetGlobalSnapshotSettings (string * bool) snd isKurl currentNFSConfig
    globalStore redact "default" onShareA
  = JSON 200
      {| Settings.VeleroVersion := "v1.5.1";
         Settings.VeleroPlugins := ["velero-plugin-for-aws"];
         Settings.IsVeleroRunning := true;
         Settings.ResticVersion_ := "v1.5.1";
         Settings.IsResticRunning := true;
         Settings.SettingsIsKurl := false;
         Settings.SettingsStore := Some ("--- REDACTED ---", true);
         Settings.SettingsNFSConfig := Some shareA;
         Settings.SettingsSuccess := true;
         Settings.SettingsError := "" |} /\
  exists veleroStatus raw,
    DetectVelero onShareA = Value (Some veleroStatus) /\
    globalStore onShareA = Ok raw /\
    redact raw = Ok ("--- REDACTED ---", true).
Proof.
  assert (Hrun : Settings.GetGlobalSnapshotSettings (string * bool) snd isKurl
                   currentNFSConfig globalStore redact "default" onShareA
                 = JSON 200
                     {| Settings.VeleroVersion := "v1.5.1";
                        Settings.VeleroPlugins := ["velero-plugin-for-aws"];
                        Settings.IsVeleroRunning := true;
                        Settings.ResticVersion_ := "v1.5.1";
                        Settings.IsResticRunning := true;
                        Settings.SettingsIsKurl := false;
                        Settings.SettingsStore := Some ("--- REDACTED ---", true);
                        Settings.SettingsNFSConfig := Some shareA;
                        Settings.SettingsSuccess := true;
                        Settings.SettingsError := "" |})
    by (vm_compute; reflexivity).
  split; [exact Hrun|].
  destruct (settings_answer_carries_redacted_store_only (string * bool) snd isKurl
              currentNFSConfig globalStore redact "default" onShareA 200 _ _ Hrun eq_refl)
    as (_ & _ & vs & raw & Hvs & Hraw & Hred & _).
  exists vs, raw. repeat split; assumption.
Defined.

End AnswerFacts.

(* ===================================================================== *)
(** ** The command that sets up the bucket itself *)
(* ===================================================================== *)

Module SetupFacts.
Import Snapshot Cli CliSetup Notions Shapes.

Section Command.
Variable validateNamespace : string -> option error.
Variable IsOpenShift : Cluster -> bool.
Variable getRegistryConfig : Flags -> result KotsadmOptions.
Variable WaitForNFSMinioReady : string -> M unit.
Variable CreateNFSBucket : string -> M unit.
Variable BuildNFSStore : string -> Cluster -> result StoreNFS.
Variable NFSMinioProvider : string.
Variable NFSMinioBucketName : string.
Variable NFSMinioRegion : string.
Variable NFSMinioServicePort : Z.
Variable formatCredentials : string -> string -> result string.
Variable InstallVelero : VeleroInstallOptions -> KotsadmOptions -> M unit.
Variable GetGlobalStore : Cluster -> option error.
Variable ConfigureStore : ConfigureStoreOptions -> M unit.

Local Abbreviation setUpAndConfigure :=
  (setUpAndConfigure WaitForNFSMinioReady CreateNFSBucket BuildNFSStore NFSMinioProvider
     NFSMinioBucketName NFSMinioRegion NFSMinioServicePort formatCredentials InstallVelero
     GetGlobalStore ConfigureStore).
Local Abbreviation BackupConfigureNFSCmd :=
  (BackupConfigureNFSCmd validateNamespace IsOpenShift getRegistryConfig
     WaitForNFSMinioReady CreateNFSBucket BuildNFSStore NFSMinioProvider
     NFSMinioBucketName NFSMinioRegion NFSMinioServicePort formatCredentials InstallVelero
     GetGlobalStore ConfigureStore).

Ltac paths :=
  repeat match goal with
         | |- context [match ?x with _ => _ end] =>
             lazymatch x with
             | context [match _ with _ => _ end] => fail
             | _ => destruct x eqn:?
             end
         end.

Ltac spinner :=
  cbn [log logged withCluster withAnswers];
  rewrite ?CommandFacts.spinnerRunning_app; cbn [spinnerStep]; auto.

Lemma setUpAndConfigure_finishes_spinner v registryOptions s s' e :
  setUpAndConfigure v registryOptions s = (s', Returned e) ->
  spinnerRunning (log s') = false.
Proof.
  unfold CliSetup.setUpAndConfigure, onCluster. cbv zeta.
  paths; intros H; try discriminate H; injection H as <- <-; spinner.
Qed.


Ltac verdict :=
  match goal with
  | H : (_, Returned _) = (_, Returned _) |- _ => injection H as <- <-
  end;
  cbn [log logged withCluster withAnswers]; rewrite ?last_snoc;
  split; intros Heq; first [reflexivity | discriminate Heq].

Lemma setUpAndConfigure_verdict v registryOptions s s' e :
  setUpAndConfigure v registryOptions s = (s', Returned e) ->
  e = None <-> last (log s') = Some (ActionWithoutSpinner "NFS configured successfully.").
Proof.
  unfold CliSetup.setUpAndConfigure, onCluster. cbv zeta.
  paths; intros H; try discriminate H; verdict.
Qed.


End Command.



End SetupFacts.
